(** * SPICE netlist writer for essential gates (OpenFPGA, fpga_spice)

    A shallow embedding of [openfpga/src/fpga_spice/spice_essential_gates.cpp]:
    the transistor wrapper writer, the inverter and buffer subckt writers
    (regular and power gated) and the driver that walks the circuit library.

    The output file is a list of text lines; every line remembers which
    statement block of the writer produced it.  The C++ [float] arithmetic is
    an interface with two instances: IEEE-754 binary32 (what the compiled
    code runs on) and exact rational arithmetic (what the design document
    reasons in). *)

From Stdlib Require Import ZArith QArith Qround Qpower Qabs String Ascii List Bool Lia Lqa.
From Stdlib Require Import DecimalString SpecFloat.
From stdpp Require Import base option list gmap.

Import ListNotations.
Local Open Scope string_scope.
Local Open Scope Z_scope.

(** ** The arithmetic interface of C++ [float] as the writer uses it *)

Class CxxFloat (F : Type) := {
  (** [a * b] on two floats *)
  f_mul : F -> F -> F;
  (** [a / b] on two floats *)
  f_div : F -> F -> F;
  (** [std::fmod(a, b)] *)
  f_fmod : F -> F -> F;
  (** [int n = std::ceil(a)] *)
  f_ceil_to_int : F -> Z;
  (** [0. != a] *)
  f_neq_zero : F -> bool;
  (** the literal [1] as a [float] *)
  f_one : F;
  (** [s * std::pow(f, level)] stored into a [float]; [level] is a [size_t] *)
  f_mul_pow : F -> F -> nat -> F;
  (** the exact value denoted, where there is one *)
  f_value : F -> Q;
  (** [fp << std::setprecision(10) << a] *)
  f_to_string : F -> string
}.

(** [std::to_string] on [size_t] and on non-negative [int] *)
Definition to_string (n : nat) : string :=
  NilZero.string_of_uint (Nat.to_uint n).

(** *** IEEE-754 binary32 *)

Module Binary32.

Definition prec : Z := 24.
Definition emax : Z := 128.

Definition float := spec_float.

Definition mul (x y : float) : float := SFmul prec emax x y.
Definition div (x y : float) : float := SFdiv prec emax x y.

(** The signed integer mantissa of a finite number. *)
Definition signed_mantissa (s : bool) (m : positive) : Z :=
  cond_Zopp s (Zpos m).

(** [std::fmod]: [x - trunc(x / y) * y], computed without rounding; the
    result carries the sign of [x]. *)
Definition fmod (x y : float) : float :=
  match x, y with
  | S754_nan, _ | _, S754_nan => S754_nan
  | S754_infinity _, _ => S754_nan
  | _, S754_zero _ => S754_nan
  | S754_zero _, _ => x
  | S754_finite _ _ _, S754_infinity _ => x
  | S754_finite sx mx ex, S754_finite _ my ey =>
      let e := Z.min ex ey in
      let X := Zpos mx * 2 ^ (ex - e) in
      let Y := Zpos my * 2 ^ (ey - e) in
      binary_normalize prec emax (cond_Zopp sx (X mod Y)) e sx
  end.

(** [std::ceil] followed by the conversion to [int].  The conversion of an
    infinity, a NaN or a value outside the range of [int] is undefined in
    C++; the first two give 0 here and the range is not cut. *)
Definition ceil_to_int (x : float) : Z :=
  match x with
  | S754_finite s m e =>
      let n := signed_mantissa s m in
      if 0 <=? e then n * 2 ^ e else - ((- n) / 2 ^ (- e))
  | _ => 0
  end.

(** [0. != x]: false on both zeros, true on a NaN. *)
Definition neq_zero (x : float) : bool :=
  negb (SFeqb x (S754_zero false)).

Definition one : float := binary_round prec emax false 1 0.

(** The rational a float denotes (0 for infinities and NaN). *)
Definition value (x : float) : Q :=
  match x with
  | S754_finite s m e =>
      (inject_Z (signed_mantissa s m) * Qpower 2 e)%Q
  | _ => 0%Q
  end.

(** Rounding of a finite value to the format with [p] mantissa bits. *)
Definition round_to (p em : Z) (x : float) : float :=
  match x with
  | S754_finite s m e => binary_round p em s m e
  | _ => x
  end.

(** [std::pow(double, double)] with an integral exponent, taken to be
    correctly rounded: the exact power rounded once to binary64. *)
Definition pow64 (f : float) (level : nat) : float :=
  match level with
  | O => binary_round 53 1024 false 1 0
  | S _ =>
      match f with
      | S754_finite s m e =>
          binary_round 53 1024 (s && Nat.odd level)
            (m ^ Pos.of_nat level) (e * Z.of_nat level)
      | S754_zero s => S754_zero (s && Nat.odd level)
      | S754_infinity s => S754_infinity (s && Nat.odd level)
      | S754_nan => S754_nan
      end
  end.

(** [s * std::pow(f, level)]: both operands are promoted to [double], the
    product is a [double], the store into the [float] vector rounds it. *)
Definition mul_pow (s f : float) (level : nat) : float :=
  round_to prec emax (SFmul 53 1024 s (pow64 f level)).

(** A stand-in for the stream formatting of a float: mantissa and binary
    exponent.  No property below depends on it. *)
Definition show (x : float) : string :=
  match x with
  | S754_zero _ => "0"
  | S754_infinity s => if s then "-inf" else "inf"
  | S754_nan => "nan"
  | S754_finite s m e =>
      (if s then "-" else "") ++ NilZero.string_of_uint (Pos.to_uint m) ++ "p"
      ++ (if e <? 0 then "-" else "") ++ to_string (Z.abs_nat e)
  end.

(** The binary32 number nearest to the rational [n / d] (d > 0). *)
Definition of_ratio (n d : Z) : float :=
  SFdiv prec emax (binary_normalize prec emax n 0 false)
                  (binary_normalize prec emax d 0 false).

End Binary32.

#[export] Instance binary32 : CxxFloat Binary32.float := {|
  f_mul := Binary32.mul;
  f_div := Binary32.div;
  f_fmod := Binary32.fmod;
  f_ceil_to_int := Binary32.ceil_to_int;
  f_neq_zero := Binary32.neq_zero;
  f_one := Binary32.one;
  f_mul_pow := Binary32.mul_pow;
  f_value := Binary32.value;
  f_to_string := Binary32.show
|}.

(** *** Exact rational arithmetic *)

Module Exact.

(** Truncation toward zero. *)
Definition Qtrunc (x : Q) : Z :=
  if Qle_bool 0 x then Qfloor x else Qceiling x.

(** [fmod] in exact arithmetic; with a zero divisor (a NaN in C++) the
    dividend is returned. *)
Definition fmod (x y : Q) : Q :=
  (x - inject_Z (Qtrunc (x / y)) * y)%Q.

Definition neq_zero (x : Q) : bool := negb (Qeq_bool x 0).

Definition mul_pow (s f : Q) (level : nat) : Q :=
  (s * Qpower f (Z.of_nat level))%Q.

Definition show (x : Q) : string :=
  (if Qnum x <? 0 then "-" else "") ++ NilZero.string_of_uint (N.to_uint (Z.abs_N (Qnum x)))
  ++ "/" ++ NilZero.string_of_uint (Pos.to_uint (Qden x)).

End Exact.

#[export] Instance exact : CxxFloat Q := {|
  f_mul := Qmult;
  f_div := Qdiv;
  f_fmod := Exact.fmod;
  f_ceil_to_int := Qceiling;
  f_neq_zero := Exact.neq_zero;
  f_one := 1%Q;
  f_mul_pow := Exact.mul_pow;
  f_value := fun x => x;
  f_to_string := Exact.show
|}.

(** ** Width binning *)

Section Binning.
Context {F : Type} `{CxxFloat F}.

(** [int num_bins = std::ceil(total_width / regular_bin_width)] *)
Definition num_bins (total_width regular_bin_width : F) : Z :=
  f_ceil_to_int (f_div total_width regular_bin_width).

(** [float last_bin_width = std::fmod(total_width, regular_bin_width)] *)
Definition last_bin_width (total_width regular_bin_width : F) : F :=
  f_fmod total_width regular_bin_width.

(** The body of the bin loop up to the call of the device writer:
    [curr_bin_width] of bin [ibin]. *)
Definition curr_bin_width (total_width regular_bin_width : F) (ibin : nat) : F :=
  if (Z.of_nat ibin =? num_bins total_width regular_bin_width - 1)
     && f_neq_zero (last_bin_width total_width regular_bin_width)
  then last_bin_width total_width regular_bin_width
  else regular_bin_width.

(** The values [ibin] takes in [for (int ibin = 0; ibin < num_bins; ++ibin)]. *)
Definition bin_indices (total_width regular_bin_width : F) : list nat :=
  seq 0 (Z.to_nat (num_bins total_width regular_bin_width)).

(** The widths handed to the device writer, in order. *)
Definition bin_widths (total_width regular_bin_width : F) : list F :=
  map (curr_bin_width total_width regular_bin_width)
      (bin_indices total_width regular_bin_width).

(** The exact sum of a list of widths. *)
Definition width_sum (ws : list F) : Q :=
  fold_right (fun w acc => (f_value w + acc)%Q) 0%Q ws.
End Binning.

(** ** Data model *)

(** The two exit codes of command_exit_codes.h the writer uses. *)
Inductive exit_code := CMD_EXEC_SUCCESS | CMD_EXEC_FATAL_ERROR.

Definition exit_code_eqb (a b : exit_code) : bool :=
  match a, b with
  | CMD_EXEC_SUCCESS, CMD_EXEC_SUCCESS => true
  | CMD_EXEC_FATAL_ERROR, CMD_EXEC_FATAL_ERROR => true
  | _, _ => false
  end.

(** How a call ends: it returns a status, a [VTR_ASSERT] fails, or
    [check_file_stream] ends the run. *)
Inductive outcome :=
  | Returned (st : exit_code)
  | AssertionFailed
  | Exited.

Inductive e_tech_lib_transistor_type :=
  | TECH_LIB_TRANSISTOR_PMOS
  | TECH_LIB_TRANSISTOR_NMOS.

Inductive e_tech_lib_model_type :=
  | TECH_LIB_MODEL_TRANSISTOR
  | TECH_LIB_MODEL_RRAM.

(** [CIRCUIT_MODEL_OTHER] stands for the enumerators the writer does not
    name (multiplexers, look-up tables, wires, ...). *)
Inductive e_circuit_model_type :=
  | CIRCUIT_MODEL_INVBUF
  | CIRCUIT_MODEL_PASSGATE
  | CIRCUIT_MODEL_GATE
  | CIRCUIT_MODEL_OTHER.

Inductive e_circuit_model_buffer_type :=
  | CIRCUIT_MODEL_BUF_INV
  | CIRCUIT_MODEL_BUF_BUF
  | NUM_CIRCUIT_MODEL_BUF_TYPES.

Inductive e_circuit_model_port_type :=
  | CIRCUIT_MODEL_PORT_INPUT
  | CIRCUIT_MODEL_PORT_OUTPUT.

Inductive e_netlist_type := SUBMODULE_NETLIST.

Definition CircuitModelId := nat.
Definition CircuitPortId := nat.
Definition TechnologyModelId := nat.
Definition ModuleId := nat.
Definition NetlistId := nat.

Record BasicPort := { get_name : string; get_lsb : nat; get_msb : nat }.

(** Which statement block of the writer produced a line. *)
Inductive line_kind :=
  | FileHeader
  | SubcktDefinition
  | SubcktEnd
  | WrapperDefinition
  | WrapperPrimitive
  | WrapperEnd
  | PowerGateDevice (t : e_tech_lib_transistor_type)
  | StageDevice (t : e_tech_lib_transistor_type).

(** One line of the output file, without its newline. *)
Record line := Line { kind : line_kind; text : string }.

(** The [std::fstream] the writer fills.  A stream can go bad while the
    file is written, which is why every writer tests it on entry.  The
    stream is buffered: a line the program writes reaches the medium at a
    later flush, and a flush the medium refuses makes the write that caused
    it fail and leaves the stream bad from then on.  [room] abstracts from
    the buffer and from the medium: it is the number of lines the stream
    still accepts before a write fails, [None] when no write ever fails.
    [written] holds the lines the stream has accepted. *)
Record fstream := {
  is_open : bool;
  good : bool;
  room : option nat;
  written : list line
}.

(** Modelled from the spec: [valid_file_stream] (openfpga_digest, not under
    src/): the stream is open and writable. *)
Definition valid_file_stream (fp : fstream) : bool := is_open fp && good fp.

(** [fp << ... << "\n"]: a stream that is not valid drops what is written;
    a write that fails leaves the stream bad. *)
Definition put (fp : fstream) (l : line) : fstream :=
  if valid_file_stream fp
  then match room fp with
       | None =>
           {| is_open := is_open fp; good := good fp; room := None;
              written := (written fp ++ [l])%list |}
       | Some (S n) =>
           {| is_open := is_open fp; good := good fp; room := Some n;
              written := (written fp ++ [l])%list |}
       | Some O =>
           {| is_open := is_open fp; good := false; room := Some O;
              written := written fp |}
       end
  else fp.

Definition puts (fp : fstream) (ls : list line) : fstream :=
  fold_left put ls fp.

(** [fp.close()] *)
Definition close (fp : fstream) : fstream :=
  {| is_open := false; good := good fp; room := room fp;
     written := written fp |}.

(** A stream that is valid and stays so. *)
Definition steady (fp : fstream) : Prop :=
  valid_file_stream fp = true /\ room fp = None.

(** The tokens of a line, as a SPICE reader splits it. *)
Fixpoint words_aux (cur : string) (s : string) : list string :=
  match s with
  | EmptyString => match cur with EmptyString => [] | _ => [cur] end
  | String c rest =>
      if Ascii.eqb c " "%char
      then match cur with
           | EmptyString => words_aux EmptyString rest
           | _ => cur :: words_aux EmptyString rest
           end
      else words_aux (cur ++ String c EmptyString) rest
  end.

Definition words (s : string) : list string := words_aux EmptyString s.

(** The terminals of a device instance line
    [X<name> <drain> <gate> <source> <bulk> <model> W=<width>]. *)
Definition instance_name (l : line) : string := nth 0 (words (text l)) "".
Definition drain_net (l : line) : string := nth 1 (words (text l)) "".
Definition gate_net (l : line) : string := nth 2 (words (text l)) "".
Definition source_net (l : line) : string := nth 3 (words (text l)) "".
Definition bulk_net (l : line) : string := nth 4 (words (text l)) "".

Definition is_power_gate_device (l : line) : bool :=
  match kind l with PowerGateDevice _ => true | _ => false end.

Definition is_stage_device (l : line) : bool :=
  match kind l with StageDevice _ => true | _ => false end.

(** A device instance line: a chain switch or a stage device. *)
Definition is_device_instance (l : line) : bool :=
  is_power_gate_device l || is_stage_device l.

Definition has_kind (k : line_kind) (l : line) : bool :=
  match kind l, k with
  | FileHeader, FileHeader | SubcktDefinition, SubcktDefinition
  | SubcktEnd, SubcktEnd | WrapperDefinition, WrapperDefinition
  | WrapperPrimitive, WrapperPrimitive | WrapperEnd, WrapperEnd
  | PowerGateDevice TECH_LIB_TRANSISTOR_PMOS, PowerGateDevice TECH_LIB_TRANSISTOR_PMOS
  | PowerGateDevice TECH_LIB_TRANSISTOR_NMOS, PowerGateDevice TECH_LIB_TRANSISTOR_NMOS
  | StageDevice TECH_LIB_TRANSISTOR_PMOS, StageDevice TECH_LIB_TRANSISTOR_PMOS
  | StageDevice TECH_LIB_TRANSISTOR_NMOS, StageDevice TECH_LIB_TRANSISTOR_NMOS => true
  | _, _ => false
  end.

Definition count_kind (k : line_kind) (ls : list line) : nat :=
  length (List.filter (has_kind k) ls).

(** The lines of one kind, in order. *)
Definition lines_of_kind (k : line_kind) (ls : list line) : list line :=
  List.filter (has_kind k) ls.

(** The device instance lines of a file, in order. *)
Definition device_lines (ls : list line) : list line :=
  List.filter is_device_instance ls.

(** ** The collaborators of the writer

    [CircuitLibrary], [TechnologyLibrary] and [ModuleManager] are read-only
    inputs: each is the record of the queries the writer calls on it. *)

Section Writer.
Context {F : Type} `{CxxFloat F} {NetlistManager : Type}.

Record CircuitLibrary := {
  models : list CircuitModelId;
  model_name : CircuitModelId -> string;
  model_type : CircuitModelId -> e_circuit_model_type;
  model_circuit_netlist : CircuitModelId -> string;
  buffer_type : CircuitModelId -> e_circuit_model_buffer_type;
  is_power_gated : CircuitModelId -> bool;
  buffer_size : CircuitModelId -> F;
  buffer_num_levels : CircuitModelId -> nat;
  buffer_f_per_stage : CircuitModelId -> F;
  model_ports_by_type :
    CircuitModelId -> e_circuit_model_port_type -> bool -> list CircuitPortId;
  port_size : CircuitPortId -> nat;
  port_prefix : CircuitPortId -> string;
  pins : CircuitPortId -> list nat;
  valid_circuit_port_id : CircuitPortId -> bool
}.

Record TechnologyLibrary := {
  tech_models : list TechnologyModelId;
  valid_model_id : TechnologyModelId -> bool;
  tech_model_type : TechnologyModelId -> e_tech_lib_model_type;
  model_ref : TechnologyModelId -> string;
  model_pn_ratio : TechnologyModelId -> F;
  transistor_model_name :
    TechnologyModelId -> e_tech_lib_transistor_type -> string;
  transistor_model_chan_length :
    TechnologyModelId -> e_tech_lib_transistor_type -> F;
  transistor_model_min_width :
    TechnologyModelId -> e_tech_lib_transistor_type -> F;
  transistor_model_max_width :
    TechnologyModelId -> e_tech_lib_transistor_type -> F
}.

Record ModuleManager := {
  find_module : string -> ModuleId;
  valid_module_id : ModuleId -> bool;
  module_name : ModuleId -> string
}.

(** What the writer takes from headers and helpers that are not part of
    this file: the constants of spice_constants.h, the helpers of
    spice_writer_utils, openfpga_digest and circuit_library_utils, and the
    two calls on the netlist manager.  [add_netlist] gives [None] for the
    invalid identifier; [check_file_stream] gives [false] when it ends the
    run. *)
Record Externals := {
  TRANSISTOR_WRAPPER_POSTFIX : string;
  TRANSISTORS_SPICE_FILE_NAME : string;
  ESSENTIALS_SPICE_FILE_NAME : string;
  print_spice_file_header : string -> list string;
  print_spice_subckt_definition : ModuleManager -> ModuleId -> list string;
  print_spice_subckt_end : string -> list string;
  generate_spice_port : BasicPort -> string;
  check_file_stream : string -> fstream -> bool;
  find_circuit_model_power_gate_en_port :
    CircuitLibrary -> CircuitModelId -> CircuitPortId;
  find_circuit_model_power_gate_enb_port :
    CircuitLibrary -> CircuitModelId -> CircuitPortId;
  add_netlist : NetlistManager -> string -> NetlistManager * option NetlistId;
  set_netlist_type :
    NetlistManager -> NetlistId -> e_netlist_type -> NetlistManager
}.

Variable ext : Externals.

(** The name of the wrapper subckt of a transistor. *)
Definition wrapper_name (tech_lib : TechnologyLibrary)
  (tech_model : TechnologyModelId) (t : e_tech_lib_transistor_type) : string :=
  transistor_model_name tech_lib tech_model t ++ TRANSISTOR_WRAPPER_POSTFIX ext.

(** ** Transistor wrappers *)

(** The three lines written for one transistor type. *)
Definition transistor_wrapper_lines (tech_lib : TechnologyLibrary)
  (model : TechnologyModelId) (trans_type : e_tech_lib_transistor_type)
  : list line :=
  [ Line WrapperDefinition
      (".subckt " ++ wrapper_name tech_lib model trans_type
       ++ " drain gate source bulk"
       ++ " L=" ++ f_to_string (transistor_model_chan_length tech_lib model trans_type)
       ++ " W=" ++ f_to_string (transistor_model_min_width tech_lib model trans_type));
    Line WrapperPrimitive
      (model_ref tech_lib model ++ "1" ++ " drain gate source bulk"
       ++ " " ++ transistor_model_name tech_lib model trans_type
       ++ " L=L W=W");
    Line WrapperEnd ".ends" ].

Definition print_spice_transistor_model_wrapper (fp : fstream)
  (tech_lib : TechnologyLibrary) (model : TechnologyModelId)
  : exit_code * fstream :=
  if negb (valid_file_stream fp) then (CMD_EXEC_FATAL_ERROR, fp)
  else
    (CMD_EXEC_SUCCESS,
     fold_left (fun fp itype => puts fp (transistor_wrapper_lines tech_lib model itype))
       [TECH_LIB_TRANSISTOR_PMOS; TECH_LIB_TRANSISTOR_NMOS] fp).

(** The loop over the technology models: [inl] when the function returns
    from inside the loop, [inr] when the loop runs to its end. *)
Fixpoint transistor_wrapper_loop (tech_lib : TechnologyLibrary)
  (ms : list TechnologyModelId) (fp : fstream)
  : (exit_code * fstream) + fstream :=
  match ms with
  | [] => inr fp
  | model :: rest =>
      match tech_model_type tech_lib model with
      | TECH_LIB_MODEL_TRANSISTOR =>
          let '(st, fp') := print_spice_transistor_model_wrapper fp tech_lib model in
          if exit_code_eqb CMD_EXEC_SUCCESS st
          then inl (CMD_EXEC_FATAL_ERROR, fp')
          else transistor_wrapper_loop tech_lib rest fp'
      | _ => transistor_wrapper_loop tech_lib rest fp
      end
  end.

(** The end of both file writers: close, register, tag as submodule. *)
Definition close_and_register (netlist_manager : NetlistManager)
  (spice_fname : string) (st : exit_code) (fp : fstream)
  : outcome * fstream * NetlistManager :=
  let fp := close fp in
  match add_netlist ext netlist_manager spice_fname with
  | (netlist_manager, Some nlist_id) =>
      (Returned st, fp,
       set_netlist_type ext netlist_manager nlist_id SUBMODULE_NETLIST)
  | (netlist_manager, None) => (AssertionFailed, fp, netlist_manager)
  end.

(** [fp] is the stream as [fp.open] leaves it. *)
Definition print_spice_transistor_wrapper (fp : fstream)
  (netlist_manager : NetlistManager) (tech_lib : TechnologyLibrary)
  (submodule_dir : string) : outcome * fstream * NetlistManager :=
  let spice_fname := submodule_dir ++ TRANSISTORS_SPICE_FILE_NAME ext in
  if negb (check_file_stream ext spice_fname fp) then (Exited, fp, netlist_manager)
  else
    let fp := puts fp (map (Line FileHeader)
                         (print_spice_file_header ext "Transistor wrappers")) in
    match transistor_wrapper_loop tech_lib (tech_models tech_lib) fp with
    | inl (st, fp) => (Returned st, fp, netlist_manager)
    | inr fp => close_and_register netlist_manager spice_fname CMD_EXEC_SUCCESS fp
    end.

(** ** One stage, one width bin *)

(** The loop over the pins of the enable-bar port; [first_enb_pin] and
    [last_enb_pin] are the two locals of the source ([last_enb_pin] is not
    initialised there and is not read before the first pin has set it). *)
Fixpoint powergated_pmos_chain (trans_name_postfix output_port_name : string)
  (circuit_lib : CircuitLibrary) (enb_port : CircuitPortId)
  (tech_lib : TechnologyLibrary) (tech_model : TechnologyModelId)
  (trans_width : F) (ps : list nat) (first_enb_pin : bool)
  (last_enb_pin : nat) (fp : fstream) : fstream :=
  match ps with
  | [] => fp
  | power_gate_pin :: rest =>
      let enb_pin := {| get_name := port_prefix circuit_lib enb_port;
                        get_lsb := power_gate_pin; get_msb := power_gate_pin |} in
      let nets :=
        if first_enb_pin
        then output_port_name ++ "_pmos_pg_" ++ to_string power_gate_pin ++ " "
             ++ generate_spice_port ext enb_pin ++ " "
             ++ "LVDD " ++ "LVDD "
        else output_port_name ++ "_pmos_pg_" ++ to_string last_enb_pin ++ " "
             ++ generate_spice_port ext enb_pin ++ " "
             ++ output_port_name ++ "_pmos_pg_" ++ to_string power_gate_pin ++ " "
             ++ "LVDD " in
      let fp := put fp (Line (PowerGateDevice TECH_LIB_TRANSISTOR_PMOS)
        ("Xpmos_powergate_" ++ trans_name_postfix ++ "_pin_"
         ++ to_string power_gate_pin ++ " " ++ nets
         ++ wrapper_name tech_lib tech_model TECH_LIB_TRANSISTOR_PMOS
         ++ " W=" ++ f_to_string trans_width)) in
      powergated_pmos_chain trans_name_postfix output_port_name circuit_lib
        enb_port tech_lib tech_model trans_width rest false power_gate_pin fp
  end.

(** [circuit_lib.pins(port).back()]; undefined in C++ on a port without
    pins, 0 here. *)
Definition back (ps : list nat) : nat := List.last ps 0%nat.

Definition print_spice_powergated_inverter_pmos_modeling (fp : fstream)
  (trans_name_postfix input_port_name output_port_name : string)
  (circuit_lib : CircuitLibrary) (enb_port : CircuitPortId)
  (tech_lib : TechnologyLibrary) (tech_model : TechnologyModelId)
  (trans_width : F) : exit_code * fstream :=
  if negb (valid_file_stream fp) then (CMD_EXEC_FATAL_ERROR, fp)
  else
    let fp := powergated_pmos_chain trans_name_postfix output_port_name
                circuit_lib enb_port tech_lib tech_model trans_width
                (pins circuit_lib enb_port) true 0%nat fp in
    let fp := put fp (Line (StageDevice TECH_LIB_TRANSISTOR_PMOS)
      ("Xpmos_" ++ trans_name_postfix ++ " "
       ++ output_port_name ++ " "
       ++ input_port_name ++ " "
       ++ output_port_name ++ "_pmos_pg_"
       ++ to_string (back (pins circuit_lib enb_port)) ++ " "
       ++ "LVDD "
       ++ wrapper_name tech_lib tech_model TECH_LIB_TRANSISTOR_PMOS
       ++ " W=" ++ f_to_string trans_width)) in
    (CMD_EXEC_SUCCESS, fp).

(** The loop over the pins of the enable port. *)
Fixpoint powergated_nmos_chain (trans_name_postfix output_port_name : string)
  (circuit_lib : CircuitLibrary) (en_port : CircuitPortId)
  (tech_lib : TechnologyLibrary) (tech_model : TechnologyModelId)
  (trans_width : F) (ps : list nat) (first_en_pin : bool)
  (last_en_pin : nat) (fp : fstream) : fstream :=
  match ps with
  | [] => fp
  | power_gate_pin :: rest =>
      let en_pin := {| get_name := port_prefix circuit_lib en_port;
                       get_lsb := power_gate_pin; get_msb := power_gate_pin |} in
      let nets :=
        if first_en_pin
        then output_port_name ++ "_nmos_pg_" ++ to_string power_gate_pin ++ " "
             ++ generate_spice_port ext en_pin ++ " "
             ++ "LGND " ++ "LGND "
        else output_port_name ++ "_nmos_pg_" ++ to_string last_en_pin ++ " "
             ++ port_prefix circuit_lib en_port ++ " "
             ++ output_port_name ++ "_nmos_pg_" ++ to_string power_gate_pin ++ " "
             ++ "LGND " in
      let fp := put fp (Line (PowerGateDevice TECH_LIB_TRANSISTOR_NMOS)
        ("Xnmos_powergate_" ++ trans_name_postfix ++ "_pin_"
         ++ to_string power_gate_pin ++ " " ++ nets
         ++ wrapper_name tech_lib tech_model TECH_LIB_TRANSISTOR_NMOS
         ++ " W=" ++ f_to_string trans_width)) in
      powergated_nmos_chain trans_name_postfix output_port_name circuit_lib
        en_port tech_lib tech_model trans_width rest false power_gate_pin fp
  end.

Definition print_spice_powergated_inverter_nmos_modeling (fp : fstream)
  (trans_name_postfix input_port_name output_port_name : string)
  (circuit_lib : CircuitLibrary) (en_port : CircuitPortId)
  (tech_lib : TechnologyLibrary) (tech_model : TechnologyModelId)
  (trans_width : F) : exit_code * fstream :=
  if negb (valid_file_stream fp) then (CMD_EXEC_FATAL_ERROR, fp)
  else
    let fp := powergated_nmos_chain trans_name_postfix output_port_name
                circuit_lib en_port tech_lib tech_model trans_width
                (pins circuit_lib en_port) true 0%nat fp in
    let fp := put fp (Line (StageDevice TECH_LIB_TRANSISTOR_NMOS)
      ("Xnmos_" ++ trans_name_postfix ++ " "
       ++ output_port_name ++ " "
       ++ input_port_name ++ " "
       ++ output_port_name ++ " _nmos_pg_"
       ++ to_string (back (pins circuit_lib en_port)) ++ " "
       ++ "LGND "
       ++ wrapper_name tech_lib tech_model TECH_LIB_TRANSISTOR_NMOS
       ++ " W=" ++ f_to_string trans_width)) in
    (CMD_EXEC_SUCCESS, fp).

Definition print_spice_regular_inverter_pmos_modeling (fp : fstream)
  (trans_name_postfix input_port_name output_port_name : string)
  (tech_lib : TechnologyLibrary) (tech_model : TechnologyModelId)
  (trans_width : F) : exit_code * fstream :=
  if negb (valid_file_stream fp) then (CMD_EXEC_FATAL_ERROR, fp)
  else
    (CMD_EXEC_SUCCESS,
     put fp (Line (StageDevice TECH_LIB_TRANSISTOR_PMOS)
       ("Xpmos_" ++ trans_name_postfix ++ " "
        ++ output_port_name ++ " "
        ++ input_port_name ++ " "
        ++ "LVDD " ++ "LVDD "
        ++ wrapper_name tech_lib tech_model TECH_LIB_TRANSISTOR_PMOS
        ++ " W=" ++ f_to_string trans_width))).

Definition print_spice_regular_inverter_nmos_modeling (fp : fstream)
  (trans_name_postfix input_port_name output_port_name : string)
  (tech_lib : TechnologyLibrary) (tech_model : TechnologyModelId)
  (trans_width : F) : exit_code * fstream :=
  if negb (valid_file_stream fp) then (CMD_EXEC_FATAL_ERROR, fp)
  else
    (CMD_EXEC_SUCCESS,
     put fp (Line (StageDevice TECH_LIB_TRANSISTOR_NMOS)
       ("Xnmos_" ++ trans_name_postfix ++ " "
        ++ output_port_name ++ " "
        ++ input_port_name ++ " "
        ++ "LGND " ++ "LGND "
        ++ wrapper_name tech_lib tech_model TECH_LIB_TRANSISTOR_NMOS
        ++ " W=" ++ f_to_string trans_width))).

(** ** Subckt writers *)

(** [(1 == ports.size()) && (1 == circuit_lib.port_size(ports[0]))] *)
Definition one_port_of_size_one (circuit_lib : CircuitLibrary)
  (ports : list CircuitPortId) : bool :=
  (length ports =? 1)%nat && (port_size circuit_lib (nth 0 ports 0%nat) =? 1)%nat.

(** [for (int ibin = 0; ibin < num_bins; ++ibin) { ...; status = body;
    if (CMD_EXEC_FATAL_ERROR == status) return status; }].
    [inl]: the function returns from inside the loop; [inr]: the loop ran
    to its end, with the value of [status]. *)
Fixpoint for_bins (body : nat -> fstream -> exit_code * fstream)
  (ibins : list nat) (st : exit_code) (fp : fstream)
  : (exit_code * fstream) + (exit_code * fstream) :=
  match ibins with
  | [] => inr (st, fp)
  | ibin :: rest =>
      let '(st', fp') := body ibin fp in
      if exit_code_eqb CMD_EXEC_FATAL_ERROR st' then inl (st', fp')
      else for_bins body rest st' fp'
  end.

Definition subckt_definition_lines (module_manager : ModuleManager)
  (module_id : ModuleId) : list line :=
  map (Line SubcktDefinition)
      (print_spice_subckt_definition ext module_manager module_id).

Definition subckt_end_lines (module_manager : ModuleManager)
  (module_id : ModuleId) : list line :=
  map (Line SubcktEnd)
      (print_spice_subckt_end ext (module_name module_manager module_id)).

(** [total_pmos_width] of a stage of drive strength [size] *)
Definition total_pmos_width (tech_lib : TechnologyLibrary)
  (tech_model : TechnologyModelId) (size : F) : F :=
  f_mul (f_mul size (model_pn_ratio tech_lib tech_model))
        (transistor_model_min_width tech_lib tech_model TECH_LIB_TRANSISTOR_PMOS).

(** [total_nmos_width] of a stage of drive strength [size] *)
Definition total_nmos_width (tech_lib : TechnologyLibrary)
  (tech_model : TechnologyModelId) (size : F) : F :=
  f_mul size
        (transistor_model_min_width tech_lib tech_model TECH_LIB_TRANSISTOR_NMOS).

Definition print_spice_powergated_inverter_subckt (fp : fstream)
  (module_manager : ModuleManager) (module_id : ModuleId)
  (circuit_lib : CircuitLibrary) (circuit_model : CircuitModelId)
  (tech_lib : TechnologyLibrary) (tech_model : TechnologyModelId)
  : outcome * fstream :=
  if negb (valid_file_stream fp) then (Returned CMD_EXEC_FATAL_ERROR, fp)
  else
  let fp := puts fp (subckt_definition_lines module_manager module_id) in
  let input_ports :=
    model_ports_by_type circuit_lib circuit_model CIRCUIT_MODEL_PORT_INPUT true in
  let output_ports :=
    model_ports_by_type circuit_lib circuit_model CIRCUIT_MODEL_PORT_OUTPUT true in
  if negb (one_port_of_size_one circuit_lib input_ports) then (AssertionFailed, fp)
  else if negb (one_port_of_size_one circuit_lib output_ports) then (AssertionFailed, fp)
  else if negb (is_power_gated circuit_lib circuit_model) then (AssertionFailed, fp)
  else
  let en_port := find_circuit_model_power_gate_en_port ext circuit_lib circuit_model in
  let enb_port := find_circuit_model_power_gate_enb_port ext circuit_lib circuit_model in
  if negb (valid_circuit_port_id circuit_lib en_port) then (AssertionFailed, fp)
  else if negb (valid_circuit_port_id circuit_lib enb_port) then (AssertionFailed, fp)
  else
  let status := CMD_EXEC_SUCCESS in
  let regular_pmos_bin_width :=
    transistor_model_max_width tech_lib tech_model TECH_LIB_TRANSISTOR_PMOS in
  let total_pmos_width :=
    total_pmos_width tech_lib tech_model (buffer_size circuit_lib circuit_model) in
  match for_bins
          (fun ibin fp =>
             print_spice_powergated_inverter_pmos_modeling fp (to_string ibin)
               (port_prefix circuit_lib (nth 0 input_ports 0%nat))
               (port_prefix circuit_lib (nth 0 output_ports 0%nat))
               circuit_lib enb_port tech_lib tech_model
               (curr_bin_width total_pmos_width regular_pmos_bin_width ibin))
          (bin_indices total_pmos_width regular_pmos_bin_width) status fp with
  | inl (status, fp) => (Returned status, fp)
  | inr (status, fp) =>
  let regular_nmos_bin_width :=
    transistor_model_max_width tech_lib tech_model TECH_LIB_TRANSISTOR_NMOS in
  let total_nmos_width :=
    total_nmos_width tech_lib tech_model (buffer_size circuit_lib circuit_model) in
  match for_bins
          (fun ibin fp =>
             print_spice_powergated_inverter_nmos_modeling fp (to_string ibin)
               (port_prefix circuit_lib (nth 0 input_ports 0%nat))
               (port_prefix circuit_lib (nth 0 output_ports 0%nat))
               circuit_lib en_port tech_lib tech_model
               (curr_bin_width total_nmos_width regular_nmos_bin_width ibin))
          (bin_indices total_nmos_width regular_nmos_bin_width) status fp with
  | inl (status, fp) => (Returned status, fp)
  | inr (status, fp) =>
      let fp := puts fp (subckt_end_lines module_manager module_id) in
      (Returned CMD_EXEC_SUCCESS, fp)
  end
  end.

Definition print_spice_regular_inverter_subckt (fp : fstream)
  (module_manager : ModuleManager) (module_id : ModuleId)
  (circuit_lib : CircuitLibrary) (circuit_model : CircuitModelId)
  (tech_lib : TechnologyLibrary) (tech_model : TechnologyModelId)
  : outcome * fstream :=
  if negb (valid_file_stream fp) then (Returned CMD_EXEC_FATAL_ERROR, fp)
  else
  let fp := puts fp (subckt_definition_lines module_manager module_id) in
  let input_ports :=
    model_ports_by_type circuit_lib circuit_model CIRCUIT_MODEL_PORT_INPUT true in
  let output_ports :=
    model_ports_by_type circuit_lib circuit_model CIRCUIT_MODEL_PORT_OUTPUT true in
  if negb (one_port_of_size_one circuit_lib input_ports) then (AssertionFailed, fp)
  else if negb (one_port_of_size_one circuit_lib output_ports) then (AssertionFailed, fp)
  else
  let status := CMD_EXEC_SUCCESS in
  let regular_pmos_bin_width :=
    transistor_model_max_width tech_lib tech_model TECH_LIB_TRANSISTOR_PMOS in
  let total_pmos_width :=
    total_pmos_width tech_lib tech_model (buffer_size circuit_lib circuit_model) in
  match for_bins
          (fun ibin fp =>
             print_spice_regular_inverter_pmos_modeling fp (to_string ibin)
               (port_prefix circuit_lib (nth 0 input_ports 0%nat))
               (port_prefix circuit_lib (nth 0 output_ports 0%nat))
               tech_lib tech_model
               (curr_bin_width total_pmos_width regular_pmos_bin_width ibin))
          (bin_indices total_pmos_width regular_pmos_bin_width) status fp with
  | inl (status, fp) => (Returned status, fp)
  | inr (status, fp) =>
  let regular_nmos_bin_width :=
    transistor_model_max_width tech_lib tech_model TECH_LIB_TRANSISTOR_NMOS in
  let total_nmos_width :=
    total_nmos_width tech_lib tech_model (buffer_size circuit_lib circuit_model) in
  match for_bins
          (fun ibin fp =>
             print_spice_regular_inverter_nmos_modeling fp (to_string ibin)
               (port_prefix circuit_lib (nth 0 input_ports 0%nat))
               (port_prefix circuit_lib (nth 0 output_ports 0%nat))
               tech_lib tech_model
               (curr_bin_width total_nmos_width regular_nmos_bin_width ibin))
          (bin_indices total_nmos_width regular_nmos_bin_width) status fp with
  | inl (status, fp) => (Returned status, fp)
  | inr (status, fp) =>
      let fp := puts fp (subckt_end_lines module_manager module_id) in
      (Returned status, fp)
  end
  end.

Definition print_spice_inverter_subckt (fp : fstream)
  (module_manager : ModuleManager) (module_id : ModuleId)
  (circuit_lib : CircuitLibrary) (circuit_model : CircuitModelId)
  (tech_lib : TechnologyLibrary) (tech_model : TechnologyModelId)
  : outcome * fstream :=
  if is_power_gated circuit_lib circuit_model
  then print_spice_powergated_inverter_subckt fp module_manager module_id
         circuit_lib circuit_model tech_lib tech_model
  else print_spice_regular_inverter_subckt fp module_manager module_id
         circuit_lib circuit_model tech_lib tech_model.

(** ** Multi-stage buffers *)

(** [std::vector<float> buffer_widths(num_levels, 1)] and the loop that
    fills it. *)
Definition build_buffer_widths (circuit_lib : CircuitLibrary)
  (circuit_model : CircuitModelId) : list F :=
  fold_left
    (fun buffer_widths level =>
       <[level := f_mul_pow (buffer_size circuit_lib circuit_model)
                            (buffer_f_per_stage circuit_lib circuit_model) level]>
         buffer_widths)
    (seq 0 (buffer_num_levels circuit_lib circuit_model))
    (replicate (buffer_num_levels circuit_lib circuit_model) f_one).

(** The local [input_port_name] of a level, as the level loop computes it. *)
Definition level_input_port_name (circuit_lib : CircuitLibrary)
  (input_port : CircuitPortId) (level : nat) : string :=
  if (level =? 0)%nat then port_prefix circuit_lib input_port
  else port_prefix circuit_lib input_port ++ "_level" ++ to_string (level - 1).

(** The local [output_port_name] of a level, as the level loop computes it. *)
Definition level_output_port_name (circuit_lib : CircuitLibrary)
  (output_port : CircuitPortId) (level : nat) : string :=
  if (level =? 0)%nat
  then port_prefix circuit_lib output_port ++ "_level" ++ to_string level
  else port_prefix circuit_lib output_port.

(** [std::string("level") + std::to_string(level) + std::string("_bin")
    + std::to_string(ibin)] *)
Definition level_bin_postfix (level ibin : nat) : string :=
  "level" ++ to_string level ++ "_bin" ++ to_string ibin.

(** [for (size_t level = 0; level < num_levels; ++level) { body }] where the
    body may return from the function ([inl]). *)
Fixpoint for_levels
  (body : nat -> exit_code -> fstream -> (exit_code * fstream) + (exit_code * fstream))
  (levels : list nat) (st : exit_code) (fp : fstream)
  : (exit_code * fstream) + (exit_code * fstream) :=
  match levels with
  | [] => inr (st, fp)
  | level :: rest =>
      match body level st fp with
      | inl r => inl r
      | inr (st', fp') => for_levels body rest st' fp'
      end
  end.

(** The body of the level loop of the power-gated buffer.  The two locals
    [input_port_name] and [output_port_name] are computed as in the source;
    the calls of the device writers are given the port prefixes. *)
Definition powergated_buffer_level (circuit_lib : CircuitLibrary)
  (input_ports output_ports : list CircuitPortId)
  (en_port enb_port : CircuitPortId)
  (tech_lib : TechnologyLibrary) (tech_model : TechnologyModelId)
  (buffer_widths : list F) (level : nat) (status : exit_code) (fp : fstream)
  : (exit_code * fstream) + (exit_code * fstream) :=
  let input_port_name :=
    level_input_port_name circuit_lib (nth 0 input_ports 0%nat) level in
  let output_port_name :=
    level_output_port_name circuit_lib (nth 0 output_ports 0%nat) level in
  let regular_pmos_bin_width :=
    transistor_model_max_width tech_lib tech_model TECH_LIB_TRANSISTOR_PMOS in
  let total_pmos_width :=
    total_pmos_width tech_lib tech_model (nth level buffer_widths f_one) in
  match for_bins
          (fun ibin fp =>
             print_spice_powergated_inverter_pmos_modeling fp
               (level_bin_postfix level ibin)
               (port_prefix circuit_lib (nth 0 input_ports 0%nat))
               (port_prefix circuit_lib (nth 0 output_ports 0%nat))
               circuit_lib enb_port tech_lib tech_model
               (curr_bin_width total_pmos_width regular_pmos_bin_width ibin))
          (bin_indices total_pmos_width regular_pmos_bin_width) status fp with
  | inl r => inl r
  | inr (status, fp) =>
  let regular_nmos_bin_width :=
    transistor_model_max_width tech_lib tech_model TECH_LIB_TRANSISTOR_NMOS in
  let total_nmos_width :=
    total_nmos_width tech_lib tech_model (nth level buffer_widths f_one) in
  for_bins
    (fun ibin fp =>
       print_spice_powergated_inverter_nmos_modeling fp
         (level_bin_postfix level ibin)
         (port_prefix circuit_lib (nth 0 input_ports 0%nat))
         (port_prefix circuit_lib (nth 0 output_ports 0%nat))
         circuit_lib en_port tech_lib tech_model
         (curr_bin_width total_nmos_width regular_nmos_bin_width ibin))
    (bin_indices total_nmos_width regular_nmos_bin_width) status fp
  end.

Definition print_spice_powergated_buffer_subckt (fp : fstream)
  (module_manager : ModuleManager) (module_id : ModuleId)
  (circuit_lib : CircuitLibrary) (circuit_model : CircuitModelId)
  (tech_lib : TechnologyLibrary) (tech_model : TechnologyModelId)
  : outcome * fstream :=
  if negb (valid_file_stream fp) then (Returned CMD_EXEC_FATAL_ERROR, fp)
  else
  let fp := puts fp (subckt_definition_lines module_manager module_id) in
  let input_ports :=
    model_ports_by_type circuit_lib circuit_model CIRCUIT_MODEL_PORT_INPUT true in
  let output_ports :=
    model_ports_by_type circuit_lib circuit_model CIRCUIT_MODEL_PORT_OUTPUT true in
  if negb (one_port_of_size_one circuit_lib input_ports) then (AssertionFailed, fp)
  else if negb (one_port_of_size_one circuit_lib output_ports) then (AssertionFailed, fp)
  else if negb (is_power_gated circuit_lib circuit_model) then (AssertionFailed, fp)
  else
  let en_port := find_circuit_model_power_gate_en_port ext circuit_lib circuit_model in
  let enb_port := find_circuit_model_power_gate_enb_port ext circuit_lib circuit_model in
  if negb (valid_circuit_port_id circuit_lib en_port) then (AssertionFailed, fp)
  else if negb (valid_circuit_port_id circuit_lib enb_port) then (AssertionFailed, fp)
  else
  let status := CMD_EXEC_SUCCESS in
  if negb (2 <=? buffer_num_levels circuit_lib circuit_model)%nat
  then (AssertionFailed, fp)
  else
  let buffer_widths := build_buffer_widths circuit_lib circuit_model in
  match for_levels
          (powergated_buffer_level circuit_lib input_ports output_ports
             en_port enb_port tech_lib tech_model buffer_widths)
          (seq 0 (buffer_num_levels circuit_lib circuit_model)) status fp with
  | inl (status, fp) => (Returned status, fp)
  | inr (status, fp) =>
      let fp := puts fp (subckt_end_lines module_manager module_id) in
      (Returned CMD_EXEC_SUCCESS, fp)
  end.

(** The body of the level loop of the regular buffer; the same remark on
    the two locals applies. *)
Definition regular_buffer_level (circuit_lib : CircuitLibrary)
  (input_ports output_ports : list CircuitPortId)
  (tech_lib : TechnologyLibrary) (tech_model : TechnologyModelId)
  (buffer_widths : list F) (level : nat) (status : exit_code) (fp : fstream)
  : (exit_code * fstream) + (exit_code * fstream) :=
  let input_port_name :=
    level_input_port_name circuit_lib (nth 0 input_ports 0%nat) level in
  let output_port_name :=
    level_output_port_name circuit_lib (nth 0 output_ports 0%nat) level in
  let regular_pmos_bin_width :=
    transistor_model_max_width tech_lib tech_model TECH_LIB_TRANSISTOR_PMOS in
  let total_pmos_width :=
    total_pmos_width tech_lib tech_model (nth level buffer_widths f_one) in
  match for_bins
          (fun ibin fp =>
             print_spice_regular_inverter_pmos_modeling fp
               (level_bin_postfix level ibin)
               (port_prefix circuit_lib (nth 0 input_ports 0%nat))
               (port_prefix circuit_lib (nth 0 output_ports 0%nat))
               tech_lib tech_model
               (curr_bin_width total_pmos_width regular_pmos_bin_width ibin))
          (bin_indices total_pmos_width regular_pmos_bin_width) status fp with
  | inl r => inl r
  | inr (status, fp) =>
  let regular_nmos_bin_width :=
    transistor_model_max_width tech_lib tech_model TECH_LIB_TRANSISTOR_NMOS in
  let total_nmos_width :=
    total_nmos_width tech_lib tech_model (nth level buffer_widths f_one) in
  for_bins
    (fun ibin fp =>
       print_spice_regular_inverter_nmos_modeling fp
         (level_bin_postfix level ibin)
         (port_prefix circuit_lib (nth 0 input_ports 0%nat))
         (port_prefix circuit_lib (nth 0 output_ports 0%nat))
         tech_lib tech_model
         (curr_bin_width total_nmos_width regular_nmos_bin_width ibin))
    (bin_indices total_nmos_width regular_nmos_bin_width) status fp
  end.

Definition print_spice_regular_buffer_subckt (fp : fstream)
  (module_manager : ModuleManager) (module_id : ModuleId)
  (circuit_lib : CircuitLibrary) (circuit_model : CircuitModelId)
  (tech_lib : TechnologyLibrary) (tech_model : TechnologyModelId)
  : outcome * fstream :=
  if negb (valid_file_stream fp) then (Returned CMD_EXEC_FATAL_ERROR, fp)
  else
  let fp := puts fp (subckt_definition_lines module_manager module_id) in
  let input_ports :=
    model_ports_by_type circuit_lib circuit_model CIRCUIT_MODEL_PORT_INPUT true in
  let output_ports :=
    model_ports_by_type circuit_lib circuit_model CIRCUIT_MODEL_PORT_OUTPUT true in
  if negb (one_port_of_size_one circuit_lib input_ports) then (AssertionFailed, fp)
  else if negb (one_port_of_size_one circuit_lib output_ports) then (AssertionFailed, fp)
  else
  let status := CMD_EXEC_SUCCESS in
  if negb (2 <=? buffer_num_levels circuit_lib circuit_model)%nat
  then (AssertionFailed, fp)
  else
  let buffer_widths := build_buffer_widths circuit_lib circuit_model in
  match for_levels
          (regular_buffer_level circuit_lib input_ports output_ports
             tech_lib tech_model buffer_widths)
          (seq 0 (buffer_num_levels circuit_lib circuit_model)) status fp with
  | inl (status, fp) => (Returned status, fp)
  | inr (status, fp) =>
      let fp := puts fp (subckt_end_lines module_manager module_id) in
      (Returned status, fp)
  end.

Definition print_spice_buffer_subckt (fp : fstream)
  (module_manager : ModuleManager) (module_id : ModuleId)
  (circuit_lib : CircuitLibrary) (circuit_model : CircuitModelId)
  (tech_lib : TechnologyLibrary) (tech_model : TechnologyModelId)
  : outcome * fstream :=
  if is_power_gated circuit_lib circuit_model
  then print_spice_powergated_buffer_subckt fp module_manager module_id
         circuit_lib circuit_model tech_lib tech_model
  else print_spice_regular_buffer_subckt fp module_manager module_id
         circuit_lib circuit_model tech_lib tech_model.

(** ** The driver *)

(** How one turn of the loop over the circuit models ends. *)
Inductive turn :=
  | Continue (st : exit_code) (fp : fstream)
  | Break (st : exit_code) (fp : fstream)
  | ReturnNow (st : exit_code) (fp : fstream)
  | Abort (fp : fstream).

(** The types the writer looks up in the technology binding. *)
Definition needs_technology_binding (t : e_circuit_model_type) : bool :=
  match t with
  | CIRCUIT_MODEL_INVBUF | CIRCUIT_MODEL_PASSGATE | CIRCUIT_MODEL_GATE => true
  | CIRCUIT_MODEL_OTHER => false
  end.

(** A model that names an external netlist is passed over. *)
Definition has_extern_netlist (circuit_lib : CircuitLibrary)
  (circuit_model : CircuitModelId) : bool :=
  negb (String.eqb (model_circuit_netlist circuit_lib circuit_model) "").

(** The branch on netlist writing of one INVBUF model. *)
Definition write_invbuf (fp : fstream) (module_manager : ModuleManager)
  (module_id : ModuleId) (circuit_lib : CircuitLibrary)
  (circuit_model : CircuitModelId) (tech_lib : TechnologyLibrary)
  (tech_model : TechnologyModelId) : outcome * fstream :=
  match buffer_type circuit_lib circuit_model with
  | CIRCUIT_MODEL_BUF_INV =>
      if negb (valid_module_id module_manager module_id) then (AssertionFailed, fp)
      else print_spice_inverter_subckt fp module_manager module_id
             circuit_lib circuit_model tech_lib tech_model
  | CIRCUIT_MODEL_BUF_BUF =>
      print_spice_buffer_subckt fp module_manager module_id
        circuit_lib circuit_model tech_lib tech_model
  | NUM_CIRCUIT_MODEL_BUF_TYPES => (AssertionFailed, fp)
  end.

(** The body of the loop over the circuit models.  The local [tech_model]
    is [None] while it holds the default (invalid) identifier. *)
Definition essential_gates_turn (module_manager : ModuleManager)
  (circuit_lib : CircuitLibrary) (tech_lib : TechnologyLibrary)
  (circuit_tech_binding : gmap CircuitModelId TechnologyModelId)
  (circuit_model : CircuitModelId) (status : exit_code) (fp : fstream) : turn :=
  if has_extern_netlist circuit_lib circuit_model then Continue status fp
  else
  let module_id := find_module module_manager (model_name circuit_lib circuit_model) in
  let lookup : turn + option TechnologyModelId :=
    if needs_technology_binding (model_type circuit_lib circuit_model)
    then match circuit_tech_binding !! circuit_model with
         | None => inl (ReturnNow CMD_EXEC_FATAL_ERROR fp)
         | Some tech_model =>
             if negb (valid_model_id tech_lib tech_model) then inl (Abort fp)
             else match tech_model_type tech_lib tech_model with
                  | TECH_LIB_MODEL_TRANSISTOR => inr (Some tech_model)
                  | _ => inl (Abort fp)
                  end
         end
    else inr None in
  match lookup with
  | inl stop => stop
  | inr tech_model =>
      match model_type circuit_lib circuit_model, tech_model with
      | CIRCUIT_MODEL_INVBUF, Some tech_model =>
          match write_invbuf fp module_manager module_id circuit_lib
                  circuit_model tech_lib tech_model with
          | (Returned CMD_EXEC_FATAL_ERROR, fp) => Break CMD_EXEC_FATAL_ERROR fp
          | (Returned st, fp) => Continue st fp
          | (_, fp) => Abort fp
          end
      | _, _ => Continue status fp
      end
  end.

Fixpoint essential_gates_loop (module_manager : ModuleManager)
  (circuit_lib : CircuitLibrary) (tech_lib : TechnologyLibrary)
  (circuit_tech_binding : gmap CircuitModelId TechnologyModelId)
  (ms : list CircuitModelId) (status : exit_code) (fp : fstream) : turn :=
  match ms with
  | [] => Continue status fp
  | circuit_model :: rest =>
      match essential_gates_turn module_manager circuit_lib tech_lib
              circuit_tech_binding circuit_model status fp with
      | Continue status fp =>
          essential_gates_loop module_manager circuit_lib tech_lib
            circuit_tech_binding rest status fp
      | stop => stop
      end
  end.

(** [fp] is the stream as [fp.open] leaves it.  The result carries the
    stream as the body leaves it at its [return] statement, before the
    destructor of the local stream runs. *)
Definition print_spice_essential_gates (fp : fstream)
  (netlist_manager : NetlistManager) (module_manager : ModuleManager)
  (circuit_lib : CircuitLibrary) (tech_lib : TechnologyLibrary)
  (circuit_tech_binding : gmap CircuitModelId TechnologyModelId)
  (submodule_dir : string) : outcome * fstream * NetlistManager :=
  let spice_fname := submodule_dir ++ ESSENTIALS_SPICE_FILE_NAME ext in
  if negb (check_file_stream ext spice_fname fp) then (Exited, fp, netlist_manager)
  else
    let fp := puts fp (map (Line FileHeader)
                         (print_spice_file_header ext "Essential gates")) in
    match essential_gates_loop module_manager circuit_lib tech_lib
            circuit_tech_binding (models circuit_lib) CMD_EXEC_SUCCESS fp with
    | Continue status fp | Break status fp =>
        close_and_register netlist_manager spice_fname status fp
    | ReturnNow status fp => (Returned status, fp, netlist_manager)
    | Abort fp => (AssertionFailed, fp, netlist_manager)
    end.

End Writer.

Arguments CircuitLibrary : clear implicits.
Arguments TechnologyLibrary : clear implicits.
Arguments Externals : clear implicits.

(** The stream a loop over bins or levels ends with, on either exit. *)
Definition exit_stream (r : (exit_code * fstream) + (exit_code * fstream))
  : fstream :=
  match r with inl (_, fp) | inr (_, fp) => fp end.

(** The stream a turn of the driver loop ends with. *)
Definition turn_stream (t : turn) : fstream :=
  match t with
  | Continue _ fp | Break _ fp | ReturnNow _ fp | Abort fp => fp
  end.

(** The return of a file writer.  [print_spice_transistor_wrapper] and
    [print_spice_essential_gates] give the stream as the body leaves it at
    its [return] statement.  The stream is the local [std::fstream fp] of
    the function: when the function returns, the destructor of the stream
    closes the file, whether the body has called [fp.close()] or not.  A
    failed assertion and [exit] end the run inside the call. *)
Definition at_return {NetlistManager : Type}
  (r : outcome * fstream * NetlistManager)
  : outcome * fstream * NetlistManager :=
  match r with
  | (Returned st, fp, netlist_manager) =>
      (Returned st, close fp, netlist_manager)
  | _ => r
  end.

(** ** A small library to run the writer on

    Four inverter/buffer models over one transistor model, and a logic gate
    without a technology binding.  Widths are binary32 numbers. *)

Module Demo.

Definition f32 (n d : Z) : Binary32.float := Binary32.of_ratio n d.

Definition in_port : CircuitPortId := 0%nat.
Definition out_port : CircuitPortId := 1%nat.
Definition en_port : CircuitPortId := 2%nat.
Definition enb_port : CircuitPortId := 3%nat.

Definition inv : CircuitModelId := 0%nat.
Definition inv_pg : CircuitModelId := 1%nat.
Definition buf : CircuitModelId := 2%nat.
Definition buf_pg : CircuitModelId := 3%nat.
Definition and2 : CircuitModelId := 4%nat.

Definition circuit_lib : CircuitLibrary Binary32.float := {|
  models := [inv; inv_pg; buf; buf_pg; and2];
  model_name := fun m =>
    match m with
    | 0%nat => "inv" | 1%nat => "inv_pg" | 2%nat => "buf" | 3%nat => "buf_pg"
    | _ => "and2"
    end;
  model_type := fun m =>
    match m with
    | 0%nat | 1%nat | 2%nat | 3%nat => CIRCUIT_MODEL_INVBUF
    | _ => CIRCUIT_MODEL_GATE
    end;
  model_circuit_netlist := fun _ => "";
  buffer_type := fun m =>
    match m with
    | 0%nat | 1%nat => CIRCUIT_MODEL_BUF_INV
    | _ => CIRCUIT_MODEL_BUF_BUF
    end;
  is_power_gated := fun m =>
    match m with 1%nat | 3%nat => true | _ => false end;
  buffer_size := fun m =>
    match m with 0%nat => f32 6 1 | 1%nat => f32 2 1 | _ => f32 1 1 end;
  buffer_num_levels := fun m =>
    match m with 2%nat | 3%nat => 2%nat | _ => 1%nat end;
  buffer_f_per_stage := fun _ => f32 4 1;
  model_ports_by_type := fun _ t _ =>
    match t with
    | CIRCUIT_MODEL_PORT_INPUT => [in_port]
    | CIRCUIT_MODEL_PORT_OUTPUT => [out_port]
    end;
  port_size := fun p => match p with 2%nat | 3%nat => 2%nat | _ => 1%nat end;
  port_prefix := fun p =>
    match p with
    | 0%nat => "in" | 1%nat => "out" | 2%nat => "en" | _ => "enb"
    end;
  pins := fun p => match p with 2%nat | 3%nat => [0; 1]%nat | _ => [0%nat] end;
  valid_circuit_port_id := fun p => (p <? 4)%nat
|}.

(** One transistor model: minimum width 0.1, maximum width 0.2. *)
Definition tech_lib : TechnologyLibrary Binary32.float := {|
  tech_models := [0%nat; 1%nat];
  valid_model_id := fun m => (m <? 2)%nat;
  tech_model_type := fun _ => TECH_LIB_MODEL_TRANSISTOR;
  model_ref := fun _ => "M";
  model_pn_ratio := fun _ => f32 2 1;
  transistor_model_name := fun m t =>
    match m, t with
    | 0%nat, TECH_LIB_TRANSISTOR_PMOS => "pch"
    | 0%nat, TECH_LIB_TRANSISTOR_NMOS => "nch"
    | _, TECH_LIB_TRANSISTOR_PMOS => "pch_io"
    | _, TECH_LIB_TRANSISTOR_NMOS => "nch_io"
    end;
  transistor_model_chan_length := fun _ _ => f32 4 100;
  transistor_model_min_width := fun _ _ => f32 1 10;
  transistor_model_max_width := fun _ _ => f32 2 10
|}.

Definition module_manager : ModuleManager := {|
  find_module := fun name =>
    if String.eqb name "inv" then 0%nat
    else if String.eqb name "inv_pg" then 1%nat
    else if String.eqb name "buf" then 2%nat
    else if String.eqb name "buf_pg" then 3%nat
    else 4%nat;
  valid_module_id := fun m => (m <? 5)%nat;
  module_name := fun m => model_name circuit_lib m
|}.

(** The file registry: names with their tags; a name is taken once. *)
Definition registry := list (string * option e_netlist_type).

Definition registry_add (r : registry) (name : string)
  : registry * option NetlistId :=
  if existsb (fun e => String.eqb (fst e) name) r then (r, None)
  else ((r ++ [(name, None)])%list, Some (length r)).

Definition registry_tag (r : registry) (id : NetlistId) (t : e_netlist_type)
  : registry :=
  match r !! id with
  | Some (name, _) => <[id := (name, Some t)]> r
  | None => r
  end.

Definition ext : Externals Binary32.float registry := {|
  TRANSISTOR_WRAPPER_POSTFIX := "_wrapper";
  TRANSISTORS_SPICE_FILE_NAME := "transistor.sp";
  ESSENTIALS_SPICE_FILE_NAME := "essential_gates.sp";
  print_spice_file_header := fun usage => ["* " ++ usage];
  print_spice_subckt_definition := fun mm id =>
    [".subckt " ++ module_name mm id ++ " in out"];
  print_spice_subckt_end := fun name => [".ends"];
  generate_spice_port := fun p =>
    get_name p ++ "[" ++ to_string (get_lsb p) ++ "]";
  check_file_stream := fun _ fp => valid_file_stream fp;
  find_circuit_model_power_gate_en_port := fun _ _ => en_port;
  find_circuit_model_power_gate_enb_port := fun _ _ => enb_port;
  add_netlist := registry_add;
  set_netlist_type := registry_tag
|}.

(** The same library, but every model shows a second input port. *)
Definition two_input_lib : CircuitLibrary Binary32.float := {|
  models := models circuit_lib;
  model_name := model_name circuit_lib;
  model_type := model_type circuit_lib;
  model_circuit_netlist := model_circuit_netlist circuit_lib;
  buffer_type := buffer_type circuit_lib;
  is_power_gated := is_power_gated circuit_lib;
  buffer_size := buffer_size circuit_lib;
  buffer_num_levels := buffer_num_levels circuit_lib;
  buffer_f_per_stage := buffer_f_per_stage circuit_lib;
  model_ports_by_type := fun _ t _ =>
    match t with
    | CIRCUIT_MODEL_PORT_INPUT => [in_port; en_port]
    | CIRCUIT_MODEL_PORT_OUTPUT => [out_port]
    end;
  port_size := port_size circuit_lib;
  port_prefix := port_prefix circuit_lib;
  pins := pins circuit_lib;
  valid_circuit_port_id := valid_circuit_port_id circuit_lib
|}.

(** A library with one multi-stage buffer, model 0, of base size [S], scale
    factor [f] and [L] levels. *)
Definition buffer_lib {F : Type} (S f : F) (L : nat) : CircuitLibrary F := {|
  models := [0%nat];
  model_name := fun _ => "buf";
  model_type := fun _ => CIRCUIT_MODEL_INVBUF;
  model_circuit_netlist := fun _ => "";
  buffer_type := fun _ => CIRCUIT_MODEL_BUF_BUF;
  is_power_gated := fun _ => false;
  buffer_size := fun _ => S;
  buffer_num_levels := fun _ => L;
  buffer_f_per_stage := fun _ => f;
  model_ports_by_type := fun _ t _ =>
    match t with
    | CIRCUIT_MODEL_PORT_INPUT => [in_port]
    | CIRCUIT_MODEL_PORT_OUTPUT => [out_port]
    end;
  port_size := fun _ => 1%nat;
  port_prefix := fun p => match p with 0%nat => "in" | _ => "out" end;
  pins := fun _ => [0%nat];
  valid_circuit_port_id := fun p => (p <? 2)%nat
|}.

(** The total NMOS width of the inverter [inv]: 6 * 0.1 in binary32. *)
Definition nmos_total : Binary32.float := f_mul (f32 6 1) (f32 1 10).

(** The maximum width of one device: 0.2 in binary32. *)
Definition nmos_max : Binary32.float := f32 2 10.

(** A freshly opened stream that never fails. *)
Definition fresh : fstream :=
  {| is_open := true; good := true; room := None; written := [] |}.

(** A freshly opened stream that accepts [n] lines; the write after them
    fails. *)
Definition cramped (n : nat) : fstream :=
  {| is_open := true; good := true; room := Some n; written := [] |}.

(** Every INVBUF model is bound to transistor model 0; the gate is not bound. *)
Definition binding : gmap CircuitModelId TechnologyModelId :=
  <[inv := 0%nat]> (<[inv_pg := 0%nat]> (<[buf := 0%nat]> (<[buf_pg := 0%nat]> ∅))).

(** The stream once the banner of the essential gates file is written. *)
Definition with_banner (fp : fstream) : fstream :=
  puts fp (map (Line FileHeader) (print_spice_file_header ext "Essential gates")).

(** The stream when the loop of the driver has passed the four INVBUF
    models. *)
Definition before_the_gate : fstream :=
  turn_stream
    (essential_gates_loop ext module_manager circuit_lib tech_lib binding
       [inv; inv_pg; buf; buf_pg] CMD_EXEC_SUCCESS (with_banner fresh)).

(** The library with the inverter [inv] of drive strength 600, which makes
    some 600 PMOS and 300 NMOS devices: a file of 900 lines and more. *)
Definition wide_lib : CircuitLibrary Binary32.float := {|
  models := models circuit_lib;
  model_name := model_name circuit_lib;
  model_type := model_type circuit_lib;
  model_circuit_netlist := model_circuit_netlist circuit_lib;
  buffer_type := buffer_type circuit_lib;
  is_power_gated := is_power_gated circuit_lib;
  buffer_size := fun m =>
    match m with 0%nat => f32 600 1 | _ => buffer_size circuit_lib m end;
  buffer_num_levels := buffer_num_levels circuit_lib;
  buffer_f_per_stage := buffer_f_per_stage circuit_lib;
  model_ports_by_type := model_ports_by_type circuit_lib;
  port_size := port_size circuit_lib;
  port_prefix := port_prefix circuit_lib;
  pins := pins circuit_lib;
  valid_circuit_port_id := valid_circuit_port_id circuit_lib
|}.

(** The stream when the writer of that inverter has run on a stream whose
    write fails after 500 lines, in the middle of the PMOS devices: a flush
    that the medium refuses. *)
Definition inverter_cut_short : fstream :=
  snd (write_invbuf ext (with_banner (cramped 500)) module_manager
         (find_module module_manager (model_name wide_lib inv))
         wide_lib inv tech_lib 0%nat).

(** The file of the power-gated inverter alone, written on a stream that
    never fails. *)
Definition inv_pg_file : fstream :=
  snd (print_spice_powergated_inverter_subckt ext fresh module_manager 1%nat
         circuit_lib inv_pg tech_lib 0%nat).

(** The file of the regular buffer alone. *)
Definition buf_file : fstream :=
  snd (print_spice_regular_buffer_subckt ext fresh module_manager 2%nat
         circuit_lib buf tech_lib 0%nat).

(** The file of the power-gated buffer alone. *)
Definition buf_pg_file : fstream :=
  snd (print_spice_powergated_buffer_subckt ext fresh module_manager 3%nat
         circuit_lib buf_pg tech_lib 0%nat).

(** The lines a writer added, as text. *)
Definition texts (fp : fstream) : list string := map text (written fp).

End Demo.

(** ** Vocabulary of the properties *)

Section Vocabulary.
Context {F : Type} `{CxxFloat F}.

(** Exactly one port, of size 1. *)
Definition exactly_one_scalar_port (circuit_lib : CircuitLibrary F)
  (ports : list CircuitPortId) : Prop :=
  exists p, ports = [p] /\ port_size circuit_lib p = 1%nat.

(** The precondition of the four subckt writers on the ports of a model. *)
Definition one_scalar_input_and_output (circuit_lib : CircuitLibrary F)
  (circuit_model : CircuitModelId) : Prop :=
  exactly_one_scalar_port circuit_lib
    (model_ports_by_type circuit_lib circuit_model CIRCUIT_MODEL_PORT_INPUT true)
  /\ exactly_one_scalar_port circuit_lib
    (model_ports_by_type circuit_lib circuit_model CIRCUIT_MODEL_PORT_OUTPUT true).

(** A call stopped on an assertion without adding a device line. *)
Definition rejected_before_devices (fp : fstream) (r : outcome * fstream) : Prop :=
  fst r = AssertionFailed
  /\ device_lines (written (snd r)) = device_lines (written fp).

End Vocabulary.

(** The first transistor model in the order of [tech_lib.models()]. *)
Definition first_transistor {F : Type} (tech_lib : TechnologyLibrary F)
  (ms : list TechnologyModelId) : option TechnologyModelId :=
  List.find
    (fun m => match tech_model_type tech_lib m with
              | TECH_LIB_MODEL_TRANSISTOR => true
              | _ => false
              end) ms.

(** 1 when a line of kind [k'] is counted by [count_kind k], else 0. *)
Definition hit (k k' : line_kind) : nat :=
  if has_kind k (Line k' "") then 1%nat else 0%nat.

(** The number of bins of a polarity side: the turns of its bin loop. *)
Definition bin_count {F : Type} `{CxxFloat F} (total_width regular_bin_width : F)
  : nat :=
  length (bin_indices total_width regular_bin_width).

(** One call of a device writer added one power-gate chain of [k] switch
    devices of transistor type [t], then one stage device of that type. *)
Definition adds_chain_and_device (t : e_tech_lib_transistor_type) (k : nat)
  (fp fp' : fstream) : Prop :=
  exists chain core,
    written fp' = (written fp ++ chain ++ [core])%list
    /\ length chain = k
    /\ Forall (fun l => kind l = PowerGateDevice t) chain
    /\ kind core = StageDevice t.

(** The lines of kind [k] that a run from [fp] to [fp'] added number [n]. *)
Definition adds_of_kind (k : line_kind) (n : nat) (fp fp' : fstream) : Prop :=
  count_kind k (written fp') = (count_kind k (written fp) + n)%nat.

(** What one stage adds to the file: [kb] and [ke] are the numbers of pins
    of the enable-bar and of the enable port, [nP] and [nN] the numbers of
    bins of the PMOS and of the NMOS side. *)
Definition adds_stage_lines (nP kb nN ke : nat) (fp fp' : fstream) : Prop :=
  adds_of_kind (PowerGateDevice TECH_LIB_TRANSISTOR_PMOS) (nP * kb) fp fp'
  /\ adds_of_kind (StageDevice TECH_LIB_TRANSISTOR_PMOS) nP fp fp'
  /\ adds_of_kind (PowerGateDevice TECH_LIB_TRANSISTOR_NMOS) (nN * ke) fp fp'
  /\ adds_of_kind (StageDevice TECH_LIB_TRANSISTOR_NMOS) nN fp fp'.

Definition is_device_kind (k : line_kind) : bool :=
  match k with
  | PowerGateDevice _ | StageDevice _ => true
  | _ => false
  end.

(** The stage device lines and the chain switch lines of a file. *)
Definition stage_devices (ls : list line) : list line :=
  List.filter is_stage_device ls.

Definition power_gate_devices (ls : list line) : list line :=
  List.filter is_power_gate_device ls.

(** Name, drain and gate of a device line. *)
Definition name_drain_gate (l : line) : string * string * string :=
  (instance_name l, drain_net l, gate_net l).

(** Name, source and bulk of a device line. *)
Definition name_source_bulk (l : line) : string * string * string :=
  (instance_name l, source_net l, bulk_net l).

(** Name and gate of a device line. *)
Definition name_gate (l : line) : string * string :=
  (instance_name l, gate_net l).

(** ** Lines as lists of fields *)

(** A string without blanks. *)
Fixpoint no_blank (s : string) : bool :=
  match s with
  | EmptyString => true
  | String c rest => negb (Ascii.eqb c " "%char) && no_blank rest
  end.

(** A token: not empty, no blank. *)
Definition token (s : string) : Prop := no_blank s = true /\ s <> "".

(** The fields of a line put back into text. *)
Definition join (fields : list string) : string := String.concat " " fields.

(** The supply rail of a polarity. *)
Definition rail (t : e_tech_lib_transistor_type) : string :=
  match t with
  | TECH_LIB_TRANSISTOR_PMOS => "LVDD"
  | TECH_LIB_TRANSISTOR_NMOS => "LGND"
  end.

(** The head of the instance names of a polarity. *)
Definition instance_head (t : e_tech_lib_transistor_type) : string :=
  match t with
  | TECH_LIB_TRANSISTOR_PMOS => "Xpmos_"
  | TECH_LIB_TRANSISTOR_NMOS => "Xnmos_"
  end.

(** The node a chain switch of pin [pin] makes on the way to the rail. *)
Definition power_gate_node (t : e_tech_lib_transistor_type)
  (output_port_name : string) (pin : nat) : string :=
  output_port_name
  ++ match t with
     | TECH_LIB_TRANSISTOR_PMOS => "_pmos_pg_"
     | TECH_LIB_TRANSISTOR_NMOS => "_nmos_pg_"
     end
  ++ to_string pin.

(** Every element of a list with the element before it. *)
Fixpoint with_previous {A : Type} (prev : option A) (l : list A)
  : list (option A * A) :=
  match l with
  | [] => []
  | x :: rest => (prev, x) :: with_previous (Some x) rest
  end.

Section LineFields.
Context {F : Type} `{CxxFloat F} {NetlistManager : Type}.
Variable ext : Externals F NetlistManager.

(** The fields of the line of a stage device between the rails. *)
Definition regular_stage_fields (t : e_tech_lib_transistor_type)
  (trans_name_postfix input_port_name output_port_name : string)
  (tech_lib : TechnologyLibrary F) (tech_model : TechnologyModelId)
  (trans_width : F) : list string :=
  [ instance_head t ++ trans_name_postfix;
    output_port_name;
    input_port_name;
    rail t;
    rail t;
    wrapper_name ext tech_lib tech_model t;
    "W=" ++ f_to_string trans_width ].

Definition regular_stage_line (t : e_tech_lib_transistor_type)
  (trans_name_postfix input_port_name output_port_name : string)
  (tech_lib : TechnologyLibrary F) (tech_model : TechnologyModelId)
  (trans_width : F) : line :=
  Line (StageDevice t)
    (join (regular_stage_fields t trans_name_postfix input_port_name
             output_port_name tech_lib tech_model trans_width)).

(** The stage device lines of one polarity of a regular inverter. *)
Definition regular_inverter_side (t : e_tech_lib_transistor_type)
  (input_port_name output_port_name : string)
  (tech_lib : TechnologyLibrary F) (tech_model : TechnologyModelId)
  (total_width : F) : list line :=
  map (fun ibin =>
         regular_stage_line t (to_string ibin) input_port_name
           output_port_name tech_lib tech_model
           (curr_bin_width total_width
              (transistor_model_max_width tech_lib tech_model t) ibin))
      (bin_indices total_width
         (transistor_model_max_width tech_lib tech_model t)).

(** The stage device lines of one polarity of one level of a regular
    buffer. *)
Definition regular_buffer_side (t : e_tech_lib_transistor_type)
  (level : nat) (input_port_name output_port_name : string)
  (tech_lib : TechnologyLibrary F) (tech_model : TechnologyModelId)
  (total_width : F) : list line :=
  map (fun ibin =>
         regular_stage_line t (level_bin_postfix level ibin) input_port_name
           output_port_name tech_lib tech_model
           (curr_bin_width total_width
              (transistor_model_max_width tech_lib tech_model t) ibin))
      (bin_indices total_width
         (transistor_model_max_width tech_lib tech_model t)).

(** The input and the output net of a model with one port of each kind. *)
Definition input_net (circuit_lib : CircuitLibrary F)
  (circuit_model : CircuitModelId) : string :=
  port_prefix circuit_lib
    (nth 0 (model_ports_by_type circuit_lib circuit_model
              CIRCUIT_MODEL_PORT_INPUT true) 0%nat).

Definition output_net (circuit_lib : CircuitLibrary F)
  (circuit_model : CircuitModelId) : string :=
  port_prefix circuit_lib
    (nth 0 (model_ports_by_type circuit_lib circuit_model
              CIRCUIT_MODEL_PORT_OUTPUT true) 0%nat).

End LineFields.

(** The device lines of one level of a regular buffer whose stage has
    drive strength [size]: the PMOS bins, then the NMOS bins. *)
Definition regular_buffer_level_lines {F : Type} `{CxxFloat F}
  {NetlistManager : Type} (ext : Externals F NetlistManager)
  (input_port_name output_port_name : string)
  (tech_lib : TechnologyLibrary F) (tech_model : TechnologyModelId)
  (level : nat) (size : F) : list line :=
  (regular_buffer_side ext TECH_LIB_TRANSISTOR_PMOS level input_port_name
     output_port_name tech_lib tech_model
     (total_pmos_width tech_lib tech_model size)
   ++ regular_buffer_side ext TECH_LIB_TRANSISTOR_NMOS level input_port_name
        output_port_name tech_lib tech_model
        (total_nmos_width tech_lib tech_model size))%list.

(** ** Vocabulary of the driver *)

(** The binding map gives the model a valid technology model of type
    transistor. *)
Definition bound_to_transistor {F : Type} (tech_lib : TechnologyLibrary F)
  (circuit_tech_binding : gmap CircuitModelId TechnologyModelId)
  (circuit_model : CircuitModelId) : Prop :=
  exists tech_model,
    circuit_tech_binding !! circuit_model = Some tech_model
    /\ valid_model_id tech_lib tech_model = true
    /\ tech_model_type tech_lib tech_model = TECH_LIB_MODEL_TRANSISTOR.

(** A model the loop of the driver can pass: it names an external netlist,
    or its type asks for no binding, or it is bound to a transistor model. *)
Definition passable {F : Type} (circuit_lib : CircuitLibrary F)
  (tech_lib : TechnologyLibrary F)
  (circuit_tech_binding : gmap CircuitModelId TechnologyModelId)
  (circuit_model : CircuitModelId) : Prop :=
  has_extern_netlist circuit_lib circuit_model = true
  \/ needs_technology_binding (model_type circuit_lib circuit_model) = false
  \/ bound_to_transistor tech_lib circuit_tech_binding circuit_model.

(** A model the driver has no writer for: it names an external netlist or
    is not an inverter or buffer. *)
Definition without_writer {F : Type} (circuit_lib : CircuitLibrary F)
  (circuit_model : CircuitModelId) : Prop :=
  has_extern_netlist circuit_lib circuit_model = true
  \/ model_type circuit_lib circuit_model <> CIRCUIT_MODEL_INVBUF.

(** The netlist manager was told of the file [spice_fname] and has tagged it
    as a submodule netlist. *)
Definition registered_as_submodule {F NetlistManager : Type}
  (ext : Externals F NetlistManager) (spice_fname : string)
  (netlist_manager netlist_manager' : NetlistManager) : Prop :=
  exists registered nlist_id,
    add_netlist ext netlist_manager spice_fname = (registered, Some nlist_id)
    /\ netlist_manager'
       = set_netlist_type ext registered nlist_id SUBMODULE_NETLIST.

(** ** More libraries to run the writer on *)

Module Samples.

(** A technology library that holds one RRAM model and no transistor. *)
Definition rram_only : TechnologyLibrary Binary32.float := {|
  tech_models := [0%nat];
  valid_model_id := fun m => (m <? 1)%nat;
  tech_model_type := fun _ => TECH_LIB_MODEL_RRAM;
  model_ref := fun _ => "R";
  model_pn_ratio := fun _ => Demo.f32 1 1;
  transistor_model_name := fun _ _ => "none";
  transistor_model_chan_length := fun _ _ => Demo.f32 1 1;
  transistor_model_min_width := fun _ _ => Demo.f32 1 1;
  transistor_model_max_width := fun _ _ => Demo.f32 1 1
|}.

(** The library of the demonstration where the inverters and buffers name
    an external netlist: model 4, the gate, is the one left to the loop. *)
Definition all_extern : CircuitLibrary Binary32.float := {|
  models := models Demo.circuit_lib;
  model_name := model_name Demo.circuit_lib;
  model_type := model_type Demo.circuit_lib;
  model_circuit_netlist := fun m =>
    match m with 4%nat => "" | _ => "cells.sp" end;
  buffer_type := buffer_type Demo.circuit_lib;
  is_power_gated := is_power_gated Demo.circuit_lib;
  buffer_size := buffer_size Demo.circuit_lib;
  buffer_num_levels := buffer_num_levels Demo.circuit_lib;
  buffer_f_per_stage := buffer_f_per_stage Demo.circuit_lib;
  model_ports_by_type := model_ports_by_type Demo.circuit_lib;
  port_size := port_size Demo.circuit_lib;
  port_prefix := port_prefix Demo.circuit_lib;
  pins := pins Demo.circuit_lib;
  valid_circuit_port_id := valid_circuit_port_id Demo.circuit_lib
|}.

(** The binding of the demonstration, with the gate bound as well. *)
Definition full_binding : gmap CircuitModelId TechnologyModelId :=
  <[Demo.and2 := 0%nat]> Demo.binding.

(** A pass over the whole library of the demonstration. *)
Definition whole_pass : outcome * fstream * Demo.registry :=
  print_spice_essential_gates Demo.ext Demo.fresh [] Demo.module_manager
    Demo.circuit_lib Demo.tech_lib full_binding "dir/".

End Samples.

(** ** Lines of a power-gated stage as lists of fields *)

(** Drain, gate, source and bulk of a device line. *)
Definition terminals (l : line) : string * string * string * string :=
  (drain_net l, gate_net l, source_net l, bulk_net l).

Section ChainFields.
Context {F : Type} `{CxxFloat F} {NetlistManager : Type}.
Variable ext : Externals F NetlistManager.

(** The net of pin [pin] of a port. *)
Definition pin_net (circuit_lib : CircuitLibrary F) (port : CircuitPortId)
  (pin : nat) : string :=
  generate_spice_port ext
    {| get_name := port_prefix circuit_lib port;
       get_lsb := pin; get_msb := pin |}.

(** The fields of the chain switch of pin [pin] on the PMOS side; [prev] is
    the pin before it, if there is one. *)
Definition pmos_switch_fields (trans_name_postfix output_port_name : string)
  (circuit_lib : CircuitLibrary F) (enb_port : CircuitPortId)
  (tech_lib : TechnologyLibrary F) (tech_model : TechnologyModelId)
  (trans_width : F) (prev : option nat) (pin : nat) : list string :=
  [ "Xpmos_powergate_" ++ trans_name_postfix ++ "_pin_" ++ to_string pin;
    power_gate_node TECH_LIB_TRANSISTOR_PMOS output_port_name
      (match prev with Some q => q | None => pin end);
    pin_net circuit_lib enb_port pin;
    match prev with
    | Some _ => power_gate_node TECH_LIB_TRANSISTOR_PMOS output_port_name pin
    | None => "LVDD"
    end;
    "LVDD";
    wrapper_name ext tech_lib tech_model TECH_LIB_TRANSISTOR_PMOS;
    "W=" ++ f_to_string trans_width ].

(** The fields of the stage device on the PMOS side. *)
Definition pmos_core_fields
  (trans_name_postfix input_port_name output_port_name : string)
  (circuit_lib : CircuitLibrary F) (enb_port : CircuitPortId)
  (tech_lib : TechnologyLibrary F) (tech_model : TechnologyModelId)
  (trans_width : F) : list string :=
  [ "Xpmos_" ++ trans_name_postfix;
    output_port_name;
    input_port_name;
    power_gate_node TECH_LIB_TRANSISTOR_PMOS output_port_name
      (back (pins circuit_lib enb_port));
    "LVDD";
    wrapper_name ext tech_lib tech_model TECH_LIB_TRANSISTOR_PMOS;
    "W=" ++ f_to_string trans_width ].

(** The fields of the chain switch of pin [pin] on the NMOS side: the
    switch of the first pin is gated by the net of its pin, a later one by
    the prefix of the enable port. *)
Definition nmos_switch_fields (trans_name_postfix output_port_name : string)
  (circuit_lib : CircuitLibrary F) (en_port : CircuitPortId)
  (tech_lib : TechnologyLibrary F) (tech_model : TechnologyModelId)
  (trans_width : F) (prev : option nat) (pin : nat) : list string :=
  [ "Xnmos_powergate_" ++ trans_name_postfix ++ "_pin_" ++ to_string pin;
    power_gate_node TECH_LIB_TRANSISTOR_NMOS output_port_name
      (match prev with Some q => q | None => pin end);
    match prev with
    | Some _ => port_prefix circuit_lib en_port
    | None => pin_net circuit_lib en_port pin
    end;
    match prev with
    | Some _ => power_gate_node TECH_LIB_TRANSISTOR_NMOS output_port_name pin
    | None => "LGND"
    end;
    "LGND";
    wrapper_name ext tech_lib tech_model TECH_LIB_TRANSISTOR_NMOS;
    "W=" ++ f_to_string trans_width ].

(** The fields of the stage device on the NMOS side: eight, the output net
    and the tail of the node name being two fields. *)
Definition nmos_core_fields
  (trans_name_postfix input_port_name output_port_name : string)
  (circuit_lib : CircuitLibrary F) (en_port : CircuitPortId)
  (tech_lib : TechnologyLibrary F) (tech_model : TechnologyModelId)
  (trans_width : F) : list string :=
  [ "Xnmos_" ++ trans_name_postfix;
    output_port_name;
    input_port_name;
    output_port_name;
    "_nmos_pg_" ++ to_string (back (pins circuit_lib en_port));
    "LGND";
    wrapper_name ext tech_lib tech_model TECH_LIB_TRANSISTOR_NMOS;
    "W=" ++ f_to_string trans_width ].

(** The lines of one bin of one polarity of a power-gated stage: the chain
    switches in the order of the pins, then the stage device. *)
Definition powergated_bin_lines (t : e_tech_lib_transistor_type)
  (trans_name_postfix input_port_name output_port_name : string)
  (circuit_lib : CircuitLibrary F) (port : CircuitPortId)
  (tech_lib : TechnologyLibrary F) (tech_model : TechnologyModelId)
  (trans_width : F) : list line :=
  (map (fun pp : option nat * nat =>
          Line (PowerGateDevice t)
            (join
               (match t with
                | TECH_LIB_TRANSISTOR_PMOS => pmos_switch_fields
                | TECH_LIB_TRANSISTOR_NMOS => nmos_switch_fields
                end trans_name_postfix output_port_name circuit_lib port
                  tech_lib tech_model trans_width (fst pp) (snd pp))))
       (with_previous None (pins circuit_lib port))
   ++ [ Line (StageDevice t)
          (join
             (match t with
              | TECH_LIB_TRANSISTOR_PMOS => pmos_core_fields
              | TECH_LIB_TRANSISTOR_NMOS => nmos_core_fields
              end trans_name_postfix input_port_name output_port_name
                circuit_lib port tech_lib tech_model trans_width)) ])%list.

(** The lines of one polarity of a power-gated stage of total width
    [total_width], bin after bin; [postfix] names the bins. *)
Definition powergated_side_lines (t : e_tech_lib_transistor_type)
  (postfix : nat -> string) (input_port_name output_port_name : string)
  (circuit_lib : CircuitLibrary F) (port : CircuitPortId)
  (tech_lib : TechnologyLibrary F) (tech_model : TechnologyModelId)
  (total_width : F) : list line :=
  flat_map
    (fun ibin =>
       powergated_bin_lines t (postfix ibin) input_port_name output_port_name
         circuit_lib port tech_lib tech_model
         (curr_bin_width total_width
            (transistor_model_max_width tech_lib tech_model t) ibin))
    (bin_indices total_width
       (transistor_model_max_width tech_lib tech_model t)).

(** The lines of one power-gated stage of drive strength [size]: the PMOS
    side switched by the enable-bar port, then the NMOS side switched by
    the enable port. *)
Definition powergated_stage_lines (postfix : nat -> string)
  (circuit_lib : CircuitLibrary F) (circuit_model : CircuitModelId)
  (tech_lib : TechnologyLibrary F) (tech_model : TechnologyModelId)
  (size : F) : list line :=
  (powergated_side_lines TECH_LIB_TRANSISTOR_PMOS postfix
     (input_net circuit_lib circuit_model)
     (output_net circuit_lib circuit_model) circuit_lib
     (find_circuit_model_power_gate_enb_port ext circuit_lib circuit_model)
     tech_lib tech_model (total_pmos_width tech_lib tech_model size)
   ++ powergated_side_lines TECH_LIB_TRANSISTOR_NMOS postfix
        (input_net circuit_lib circuit_model)
        (output_net circuit_lib circuit_model) circuit_lib
        (find_circuit_model_power_gate_en_port ext circuit_lib circuit_model)
        tech_lib tech_model (total_nmos_width tech_lib tech_model size))%list.

(** What the power-gated writers ask of a model beyond its input and
    output port: it is power gated, and its enable and its enable-bar port
    are valid and have a pin each (the stage device is named after the last
    pin of the port). *)
Definition power_gating_ready (circuit_lib : CircuitLibrary F)
  (circuit_model : CircuitModelId) : Prop :=
  is_power_gated circuit_lib circuit_model = true
  /\ valid_circuit_port_id circuit_lib
       (find_circuit_model_power_gate_en_port ext circuit_lib circuit_model)
     = true
  /\ valid_circuit_port_id circuit_lib
       (find_circuit_model_power_gate_enb_port ext circuit_lib circuit_model)
     = true
  /\ pins circuit_lib
       (find_circuit_model_power_gate_en_port ext circuit_lib circuit_model)
     <> []
  /\ pins circuit_lib
       (find_circuit_model_power_gate_enb_port ext circuit_lib circuit_model)
     <> [].

End ChainFields.

(** ** A stream of the demonstration that has failed *)

Module Failing.

(** An open stream on which an earlier write has failed. *)
Definition gone_bad : fstream :=
  {| is_open := true; good := false; room := None;
     written := [Line FileHeader "* Essential gates"] |}.

End Failing.

(** ** The lines of a transistor wrapper as lists of fields *)

Section WrapperFields.
Context {F : Type} `{CxxFloat F} {NetlistManager : Type}.
Variable ext : Externals F NetlistManager.

(** The fields of the definition line of the wrapper of a transistor. *)
Definition wrapper_definition_fields (tech_lib : TechnologyLibrary F)
  (model : TechnologyModelId) (t : e_tech_lib_transistor_type) : list string :=
  [ ".subckt"; wrapper_name ext tech_lib model t;
    "drain"; "gate"; "source"; "bulk";
    "L=" ++ f_to_string (transistor_model_chan_length tech_lib model t);
    "W=" ++ f_to_string (transistor_model_min_width tech_lib model t) ].

(** The fields of the line that instantiates the transistor. *)
Definition wrapper_primitive_fields (tech_lib : TechnologyLibrary F)
  (model : TechnologyModelId) (t : e_tech_lib_transistor_type) : list string :=
  [ model_ref tech_lib model ++ "1";
    "drain"; "gate"; "source"; "bulk";
    transistor_model_name tech_lib model t;
    "L=L"; "W=W" ].

(** The names of a transistor model are blank-free tokens. *)
Definition well_named (tech_lib : TechnologyLibrary F)
  (model : TechnologyModelId) : Prop :=
  no_blank (model_ref tech_lib model) = true
  /\ no_blank (TRANSISTOR_WRAPPER_POSTFIX ext) = true
  /\ forall t,
       token (transistor_model_name tech_lib model t)
       /\ no_blank (f_to_string (transistor_model_chan_length tech_lib model t))
          = true
       /\ no_blank (f_to_string (transistor_model_min_width tech_lib model t))
          = true.

End WrapperFields.

(** ** The file of a whole pass *)

Section PassLines.
Context {F : Type} `{CxxFloat F} {NetlistManager : Type}.
Variable ext : Externals F NetlistManager.
Variable module_manager : ModuleManager.
Variable circuit_lib : CircuitLibrary F.
Variable tech_lib : TechnologyLibrary F.

(** The device lines of an inverter or buffer model, by its buffer type and
    by whether it is power gated. *)
Definition invbuf_device_lines (circuit_model : CircuitModelId)
  (tech_model : TechnologyModelId) : list line :=
  match buffer_type circuit_lib circuit_model,
        is_power_gated circuit_lib circuit_model with
  | CIRCUIT_MODEL_BUF_INV, false =>
      (regular_inverter_side ext TECH_LIB_TRANSISTOR_PMOS
         (input_net circuit_lib circuit_model)
         (output_net circuit_lib circuit_model) tech_lib tech_model
         (total_pmos_width tech_lib tech_model
            (buffer_size circuit_lib circuit_model))
       ++ regular_inverter_side ext TECH_LIB_TRANSISTOR_NMOS
            (input_net circuit_lib circuit_model)
            (output_net circuit_lib circuit_model) tech_lib tech_model
            (total_nmos_width tech_lib tech_model
               (buffer_size circuit_lib circuit_model)))%list
  | CIRCUIT_MODEL_BUF_INV, true =>
      powergated_stage_lines ext to_string circuit_lib circuit_model tech_lib
        tech_model (buffer_size circuit_lib circuit_model)
  | CIRCUIT_MODEL_BUF_BUF, false =>
      flat_map
        (fun level =>
           regular_buffer_level_lines ext
             (input_net circuit_lib circuit_model)
             (output_net circuit_lib circuit_model) tech_lib tech_model level
             (f_mul_pow (buffer_size circuit_lib circuit_model)
                (buffer_f_per_stage circuit_lib circuit_model) level))
        (seq 0 (buffer_num_levels circuit_lib circuit_model))
  | CIRCUIT_MODEL_BUF_BUF, true =>
      flat_map
        (fun level =>
           powergated_stage_lines ext (level_bin_postfix level) circuit_lib
             circuit_model tech_lib tech_model
             (f_mul_pow (buffer_size circuit_lib circuit_model)
                (buffer_f_per_stage circuit_lib circuit_model) level))
        (seq 0 (buffer_num_levels circuit_lib circuit_model))
  | NUM_CIRCUIT_MODEL_BUF_TYPES, _ => []
  end.

(** The subckt of an inverter or buffer model. *)
Definition invbuf_lines (circuit_model : CircuitModelId)
  (tech_model : TechnologyModelId) : list line :=
  (subckt_definition_lines ext module_manager
     (find_module module_manager (model_name circuit_lib circuit_model))
   ++ invbuf_device_lines circuit_model tech_model
   ++ subckt_end_lines ext module_manager
        (find_module module_manager (model_name circuit_lib circuit_model)))%list.

(** What a pass writes for a model: the subckt of an inverter or buffer
    that names no external netlist, nothing for any other model. *)
Definition model_lines
  (circuit_tech_binding : gmap CircuitModelId TechnologyModelId)
  (circuit_model : CircuitModelId) : list line :=
  if has_extern_netlist circuit_lib circuit_model then []
  else match model_type circuit_lib circuit_model,
             circuit_tech_binding !! circuit_model with
       | CIRCUIT_MODEL_INVBUF, Some tech_model =>
           invbuf_lines circuit_model tech_model
       | _, _ => []
       end.

(** What the writers ask of an inverter or buffer model. *)
Definition writable_invbuf (circuit_model : CircuitModelId) : Prop :=
  one_scalar_input_and_output circuit_lib circuit_model
  /\ (is_power_gated circuit_lib circuit_model = true ->
      power_gating_ready ext circuit_lib circuit_model)
  /\ ((buffer_type circuit_lib circuit_model = CIRCUIT_MODEL_BUF_INV
       /\ valid_module_id module_manager
            (find_module module_manager (model_name circuit_lib circuit_model))
          = true)
      \/ (buffer_type circuit_lib circuit_model = CIRCUIT_MODEL_BUF_BUF
          /\ (2 <= buffer_num_levels circuit_lib circuit_model)%nat)).

(** A model the pass gets through: it can be passed, and if it is an
    inverter or buffer to be written, the writers take it. *)
Definition well_formed
  (circuit_tech_binding : gmap CircuitModelId TechnologyModelId)
  (circuit_model : CircuitModelId) : Prop :=
  passable circuit_lib tech_lib circuit_tech_binding circuit_model
  /\ (has_extern_netlist circuit_lib circuit_model = false ->
      model_type circuit_lib circuit_model = CIRCUIT_MODEL_INVBUF ->
      writable_invbuf circuit_model).

End PassLines.

(** ** Rounding and order of floats *)

(** The power of two [2^z] as a rational. *)
Definition pw (z : Z) : Q := Qpower 2 z.

(** The dyadic number [m * 2^e]. *)
Definition dy (m e : Z) : Q := (inject_Z m * pw e)%Q.

Definition b2z (b : bool) : Z := if b then 1 else 0.

(** What a shift record holds after [k] digits of [m] were shifted out:
    the digits kept, the digit shifted out last and whether a digit
    shifted out before it was set. *)
Definition shr_inv (m k : Z) (mrs : shr_record) : Prop :=
  0 <= shr_m mrs
  /\ exists t, 0 <= t < 2 ^ k
       /\ 2 * m = (2 * shr_m mrs + b2z (shr_r mrs)) * 2 ^ k + t
       /\ (shr_s mrs = false <-> t = 0).

(** [R] is a nearest integer to [m / N], an even one at a tie. *)
Definition nearZ (R m N : Z) : Prop :=
  ((2 * R - 1) * N <= 2 * m <= (2 * R + 1) * N)
  /\ (2 * m = (2 * R + 1) * N \/ 2 * m = (2 * R - 1) * N -> Z.even R = true).

(** [R] is a nearest integer to [v / 2^c], an even one at a tie. *)
Definition nearQ (R : Z) (v : Q) (c : Z) : Prop :=
  (inject_Z (2 * R - 1) * pw c <= 2 * v
   /\ 2 * v <= inject_Z (2 * R + 1) * pw c)%Q
  /\ ((2 * v == inject_Z (2 * R + 1) * pw c
       \/ 2 * v == inject_Z (2 * R - 1) * pw c)%Q -> Z.even R = true).

(** The float of mantissa [R] at exponent [c], [R] at most [2^prec], in
    the format of [prec] mantissa bits and largest exponent [emax]. *)
Definition rounded (prec emax : Z) (R c : Z) : spec_float :=
  if R =? 0 then S754_zero false
  else if R =? 2 ^ prec
       then if c + 1 <=? emax - prec
            then S754_finite false (Z.to_pos (2 ^ (prec - 1))) (c + 1)
            else S754_infinity false
       else if c <=? emax - prec
            then S754_finite false (Z.to_pos R) c
            else S754_infinity false.

(** The value the mantissa [R] at exponent [c] stands for. *)
Definition at_exp (R c : Z) : Q := (inject_Z R * pw c)%Q.

(** The exponent of the float [rounded prec emax R c], [R] not zero. *)
Definition out_exp (prec : Z) (R c : Z) : Z :=
  if R =? 2 ^ prec then c + 1 else c.

(** [x <= y] on floats: the order of the extended reals; a NaN is in no
    relation. *)
Definition float_le (x y : spec_float) : Prop :=
  match x with
  | S754_nan => False
  | S754_infinity true =>
      match y with S754_nan => False | _ => True end
  | S754_infinity false =>
      match y with S754_infinity false => True | _ => False end
  | S754_zero _ | S754_finite _ _ _ =>
      match y with
      | S754_nan => False
      | S754_infinity s => s = false
      | S754_zero _ | S754_finite _ _ _ =>
          (Binary32.value x <= Binary32.value y)%Q
      end
  end.

(** A float that is +0, positive and finite, or +infinity. *)
Definition not_negative (x : spec_float) : Prop :=
  match x with
  | S754_zero false | S754_finite false _ _ | S754_infinity false => True
  | _ => False
  end.

(** [std::isfinite] *)
Definition is_finite (x : spec_float) : bool :=
  match x with
  | S754_zero _ | S754_finite _ _ _ => true
  | _ => false
  end.

(** * Properties *)

(** ** The stream *)

Lemma puts_cons (fp : fstream) (l : line) (ls : list line) :
  puts fp (l :: ls) = puts (put fp l) ls.
Proof. reflexivity. Qed.

Lemma put_steady (fp : fstream) (l : line) :
  steady fp ->
  steady (put fp l) /\ written (put fp l) = (written fp ++ [l])%list.
Proof.
  intros [Hv Hr]. unfold put. rewrite Hv, Hr. split; [split|]; simpl; auto.
Qed.

Lemma puts_steady (ls : list line) (fp : fstream) :
  steady fp ->
  steady (puts fp ls) /\ written (puts fp ls) = (written fp ++ ls)%list.
Proof.
  revert fp. induction ls as [|l ls IH]; intros fp Hs.
  - split; [assumption | simpl; now rewrite app_nil_r].
  - rewrite puts_cons. destruct (put_steady fp l Hs) as [Hs' Hw].
    destruct (IH _ Hs') as [Hs'' Hw'']. split; [assumption|].
    rewrite Hw'', Hw, <- app_assoc. reflexivity.
Qed.

(** A write adds the line or nothing. *)
Lemma put_written (fp : fstream) (l : line) :
  written (put fp l) = written fp \/
  written (put fp l) = (written fp ++ [l])%list.
Proof.
  unfold put. destruct (valid_file_stream fp); [|now left].
  destruct (room fp) as [[|n]|]; simpl; auto.
Qed.

Lemma put_is_open (fp : fstream) (l : line) :
  is_open (put fp l) = is_open fp.
Proof.
  unfold put. destruct (valid_file_stream fp); [|reflexivity].
  destruct (room fp) as [[|n]|]; reflexivity.
Qed.

Lemma puts_is_open (ls : list line) (fp : fstream) :
  is_open (puts fp ls) = is_open fp.
Proof.
  revert fp. induction ls as [|l ls IH]; intros fp; [reflexivity|].
  rewrite puts_cons. now rewrite IH, put_is_open.
Qed.

(** Lines that are no device instances leave the device lines as they were,
    whatever happens to the stream. *)
Lemma put_device_lines (fp : fstream) (l : line) :
  is_device_instance l = false ->
  device_lines (written (put fp l)) = device_lines (written fp).
Proof.
  intros Hl. destruct (put_written fp l) as [-> | ->]; [reflexivity|].
  unfold device_lines. rewrite List.filter_app. simpl. rewrite Hl.
  now rewrite app_nil_r.
Qed.

Lemma puts_device_lines (ls : list line) (fp : fstream) :
  Forall (fun l => is_device_instance l = false) ls ->
  device_lines (written (puts fp ls)) = device_lines (written fp).
Proof.
  revert fp. induction ls as [|l ls IH]; intros fp Hls; [reflexivity|].
  inversion Hls as [|? ? Hl Hrest]; subst.
  rewrite puts_cons, IH by assumption. now apply put_device_lines.
Qed.

Lemma subckt_definition_no_device {F : Type} `{CxxFloat F} {NM : Type}
  (ext : Externals F NM)
  (mm : ModuleManager) (id : ModuleId) :
  Forall (fun l => is_device_instance l = false)
         (subckt_definition_lines ext mm id).
Proof.
  unfold subckt_definition_lines.
  induction (print_spice_subckt_definition ext mm id) as [|s ss IH];
    simpl; constructor; auto.
Qed.

(** ** Port preconditions *)

Section PortPreconditions.
Context {F : Type} `{CxxFloat F} {NetlistManager : Type}.
Variable ext : Externals F NetlistManager.

Lemma one_port_of_size_one_iff (circuit_lib : CircuitLibrary F)
  (ports : list CircuitPortId) :
  one_port_of_size_one circuit_lib ports = true
  <-> exactly_one_scalar_port circuit_lib ports.
Proof.
  unfold one_port_of_size_one, exactly_one_scalar_port. split.
  - intros Hb. apply andb_true_iff in Hb. destruct Hb as [Hlen Hsz].
    apply Nat.eqb_eq in Hlen. apply Nat.eqb_eq in Hsz.
    destruct ports as [|p [|q rest]]; simpl in Hlen; try discriminate.
    exists p. split; [reflexivity | exact Hsz].
  - intros [p [-> Hsz]]. simpl. rewrite Hsz. reflexivity.
Qed.

Lemma ports_check_fails (circuit_lib : CircuitLibrary F)
  (circuit_model : CircuitModelId) :
  ~ one_scalar_input_and_output circuit_lib circuit_model ->
  one_port_of_size_one circuit_lib
    (model_ports_by_type circuit_lib circuit_model CIRCUIT_MODEL_PORT_INPUT true)
  = false
  \/ one_port_of_size_one circuit_lib
    (model_ports_by_type circuit_lib circuit_model CIRCUIT_MODEL_PORT_OUTPUT true)
  = false.
Proof.
  intros Hbad.
  destruct (one_port_of_size_one circuit_lib
              (model_ports_by_type circuit_lib circuit_model
                 CIRCUIT_MODEL_PORT_INPUT true)) eqn:Hi; [|now left].
  destruct (one_port_of_size_one circuit_lib
              (model_ports_by_type circuit_lib circuit_model
                 CIRCUIT_MODEL_PORT_OUTPUT true)) eqn:Ho; [|now right].
  exfalso. apply Hbad. split; now apply one_port_of_size_one_iff.
Qed.

(** C9.  A model that does not show exactly one input port of size 1 and
    exactly one output port of size 1 is stopped by the assertion of each of
    the four subckt writers, on a valid stream, before any device instance
    line is written: the writer ends on the failed assertion and the device
    lines of the file are those it had on entry. *)
Theorem port_precondition_rejected
  (fp : fstream) (module_manager : ModuleManager) (module_id : ModuleId)
  (circuit_lib : CircuitLibrary F) (circuit_model : CircuitModelId)
  (tech_lib : TechnologyLibrary F) (tech_model : TechnologyModelId) :
  valid_file_stream fp = true ->
  ~ one_scalar_input_and_output circuit_lib circuit_model ->
  rejected_before_devices fp
    (print_spice_regular_inverter_subckt ext fp module_manager module_id
       circuit_lib circuit_model tech_lib tech_model)
  /\ rejected_before_devices fp
    (print_spice_powergated_inverter_subckt ext fp module_manager module_id
       circuit_lib circuit_model tech_lib tech_model)
  /\ rejected_before_devices fp
    (print_spice_regular_buffer_subckt ext fp module_manager module_id
       circuit_lib circuit_model tech_lib tech_model)
  /\ rejected_before_devices fp
    (print_spice_powergated_buffer_subckt ext fp module_manager module_id
       circuit_lib circuit_model tech_lib tech_model).
Proof.
  intros Hv Hbad. unfold rejected_before_devices. repeat split.
  all: try (unfold print_spice_regular_inverter_subckt);
       try (unfold print_spice_powergated_inverter_subckt);
       try (unfold print_spice_regular_buffer_subckt);
       try (unfold print_spice_powergated_buffer_subckt).
  all: rewrite Hv; cbn [negb];
       destruct (ports_check_fails _ _ Hbad) as [Hc | Hc]; rewrite Hc; cbn [negb];
       try (destruct (one_port_of_size_one circuit_lib
                        (model_ports_by_type circuit_lib circuit_model
                           CIRCUIT_MODEL_PORT_INPUT true)); cbn [negb]);
       cbn [fst snd]; try reflexivity;
       apply puts_device_lines, subckt_definition_no_device.
Qed.

End PortPreconditions.

(** The two-input library of the demonstration is rejected by all four
    writers. *)
Lemma port_precondition_rejected_witness :
  valid_file_stream Demo.fresh = true
  /\ ~ one_scalar_input_and_output Demo.two_input_lib Demo.inv
  /\ rejected_before_devices Demo.fresh
       (print_spice_regular_inverter_subckt Demo.ext Demo.fresh
          Demo.module_manager 0%nat Demo.two_input_lib Demo.inv Demo.tech_lib 0%nat)
  /\ rejected_before_devices Demo.fresh
       (print_spice_powergated_inverter_subckt Demo.ext Demo.fresh
          Demo.module_manager 0%nat Demo.two_input_lib Demo.inv Demo.tech_lib 0%nat)
  /\ rejected_before_devices Demo.fresh
       (print_spice_regular_buffer_subckt Demo.ext Demo.fresh
          Demo.module_manager 0%nat Demo.two_input_lib Demo.inv Demo.tech_lib 0%nat)
  /\ rejected_before_devices Demo.fresh
       (print_spice_powergated_buffer_subckt Demo.ext Demo.fresh
          Demo.module_manager 0%nat Demo.two_input_lib Demo.inv Demo.tech_lib 0%nat).
Proof.
  assert (Hbad : ~ one_scalar_input_and_output Demo.two_input_lib Demo.inv).
  { intros [[p [Hp _]] _]. discriminate Hp. }
  split; [reflexivity | split; [exact Hbad |]].
  apply (port_precondition_rejected Demo.ext Demo.fresh Demo.module_manager
           0%nat Demo.two_input_lib Demo.inv Demo.tech_lib 0%nat);
    [reflexivity | exact Hbad].
Defined.

(** ** Streams stay open while the writers run *)

Section StaysOpen.
Context {F : Type} `{CxxFloat F} {NetlistManager : Type}.
Variable ext : Externals F NetlistManager.

Lemma for_bins_is_open (body : nat -> fstream -> exit_code * fstream) :
  (forall ibin fp, is_open (snd (body ibin fp)) = is_open fp) ->
  forall ibins st fp,
    is_open (exit_stream (for_bins body ibins st fp)) = is_open fp.
Proof.
  intros Hbody ibins. induction ibins as [|ibin rest IH]; intros st fp; simpl.
  - reflexivity.
  - specialize (Hbody ibin fp). destruct (body ibin fp) as [st' fp'].
    simpl in Hbody. destruct st'; simpl.
    + now rewrite IH.
    + exact Hbody.
Qed.

Lemma for_levels_is_open
  (body : nat -> exit_code -> fstream ->
          (exit_code * fstream) + (exit_code * fstream)) :
  (forall level st fp, is_open (exit_stream (body level st fp)) = is_open fp) ->
  forall levels st fp,
    is_open (exit_stream (for_levels body levels st fp)) = is_open fp.
Proof.
  intros Hbody levels. induction levels as [|level rest IH]; intros st fp; simpl.
  - reflexivity.
  - specialize (Hbody level st fp).
    destruct (body level st fp) as [[st' fp'] | [st' fp']]; simpl in *.
    + exact Hbody.
    + now rewrite IH.
Qed.

Lemma powergated_pmos_chain_is_open post out cl port tl tm w ps first last fp :
  is_open (powergated_pmos_chain ext post out cl port tl tm w ps first last fp)
  = is_open fp.
Proof.
  revert first last fp. induction ps as [|p rest IH]; intros first last fp;
    simpl; [reflexivity|]. now rewrite IH, put_is_open.
Qed.

Lemma powergated_nmos_chain_is_open post out cl port tl tm w ps first last fp :
  is_open (powergated_nmos_chain ext post out cl port tl tm w ps first last fp)
  = is_open fp.
Proof.
  revert first last fp. induction ps as [|p rest IH]; intros first last fp;
    simpl; [reflexivity|]. now rewrite IH, put_is_open.
Qed.

Lemma powergated_pmos_modeling_is_open fp post i o cl port tl tm w :
  is_open (snd (print_spice_powergated_inverter_pmos_modeling ext fp post i o
                  cl port tl tm w)) = is_open fp.
Proof.
  unfold print_spice_powergated_inverter_pmos_modeling.
  destruct (valid_file_stream fp); simpl; [|reflexivity].
  now rewrite put_is_open, powergated_pmos_chain_is_open.
Qed.

Lemma powergated_nmos_modeling_is_open fp post i o cl port tl tm w :
  is_open (snd (print_spice_powergated_inverter_nmos_modeling ext fp post i o
                  cl port tl tm w)) = is_open fp.
Proof.
  unfold print_spice_powergated_inverter_nmos_modeling.
  destruct (valid_file_stream fp); simpl; [|reflexivity].
  now rewrite put_is_open, powergated_nmos_chain_is_open.
Qed.

Lemma regular_pmos_modeling_is_open fp post i o tl tm w :
  is_open (snd (print_spice_regular_inverter_pmos_modeling ext fp post i o
                  tl tm w)) = is_open fp.
Proof.
  unfold print_spice_regular_inverter_pmos_modeling.
  destruct (valid_file_stream fp); simpl; [|reflexivity]. apply put_is_open.
Qed.

Lemma regular_nmos_modeling_is_open fp post i o tl tm w :
  is_open (snd (print_spice_regular_inverter_nmos_modeling ext fp post i o
                  tl tm w)) = is_open fp.
Proof.
  unfold print_spice_regular_inverter_nmos_modeling.
  destruct (valid_file_stream fp); simpl; [|reflexivity]. apply put_is_open.
Qed.

(** Splits on the result of the first loop over bins in the goal. *)
Ltac split_for_bins lem :=
  match goal with
  | |- context [for_bins ?b ?i ?s ?f] =>
      let Hb := fresh "Hb" in
      assert (Hb : is_open (exit_stream (for_bins b i s f)) = is_open f)
        by (apply for_bins_is_open; intros; cbv beta; apply lem);
      destruct (for_bins b i s f) as [[? ?] | [? ?]]; cbn [exit_stream] in Hb
  end.

Lemma regular_inverter_subckt_is_open fp mm mid cl cm tl tm :
  is_open (snd (print_spice_regular_inverter_subckt ext fp mm mid cl cm tl tm))
  = is_open fp.
Proof.
  unfold print_spice_regular_inverter_subckt.
  destruct (valid_file_stream fp); cbn [negb]; [|reflexivity]. cbv zeta.
  do 2 (destruct (one_port_of_size_one _ _); cbn [negb];
        [|cbn [snd]; apply puts_is_open]).
  split_for_bins regular_pmos_modeling_is_open;
    [cbn [snd]; now rewrite Hb, puts_is_open|].
  split_for_bins regular_nmos_modeling_is_open; cbn [snd];
    [|rewrite puts_is_open]; now rewrite Hb0, Hb, puts_is_open.
Qed.

Lemma powergated_inverter_subckt_is_open fp mm mid cl cm tl tm :
  is_open (snd (print_spice_powergated_inverter_subckt ext fp mm mid cl cm tl tm))
  = is_open fp.
Proof.
  unfold print_spice_powergated_inverter_subckt.
  destruct (valid_file_stream fp); cbn [negb]; [|reflexivity]. cbv zeta.
  do 2 (destruct (one_port_of_size_one _ _); cbn [negb];
        [|cbn [snd]; apply puts_is_open]).
  destruct (is_power_gated cl cm); cbn [negb]; [|cbn [snd]; apply puts_is_open].
  do 2 (destruct (valid_circuit_port_id _ _); cbn [negb];
        [|cbn [snd]; apply puts_is_open]).
  split_for_bins powergated_pmos_modeling_is_open;
    [cbn [snd]; now rewrite Hb, puts_is_open|].
  split_for_bins powergated_nmos_modeling_is_open; cbn [snd];
    [|rewrite puts_is_open]; now rewrite Hb0, Hb, puts_is_open.
Qed.

Lemma regular_buffer_level_is_open cl ips ops tl tm ws level st fp :
  is_open (exit_stream (regular_buffer_level ext cl ips ops tl tm ws level st fp))
  = is_open fp.
Proof.
  unfold regular_buffer_level. cbv zeta.
  split_for_bins regular_pmos_modeling_is_open; [exact Hb|].
  rewrite <- Hb. apply for_bins_is_open. intros. apply regular_nmos_modeling_is_open.
Qed.

Lemma powergated_buffer_level_is_open cl ips ops en enb tl tm ws level st fp :
  is_open (exit_stream
             (powergated_buffer_level ext cl ips ops en enb tl tm ws level st fp))
  = is_open fp.
Proof.
  unfold powergated_buffer_level. cbv zeta.
  split_for_bins powergated_pmos_modeling_is_open; [exact Hb|].
  rewrite <- Hb. apply for_bins_is_open. intros.
  apply powergated_nmos_modeling_is_open.
Qed.

Lemma regular_buffer_subckt_is_open fp mm mid cl cm tl tm :
  is_open (snd (print_spice_regular_buffer_subckt ext fp mm mid cl cm tl tm))
  = is_open fp.
Proof.
  unfold print_spice_regular_buffer_subckt.
  destruct (valid_file_stream fp); cbn [negb]; [|reflexivity]. cbv zeta.
  do 2 (destruct (one_port_of_size_one _ _); cbn [negb];
        [|cbn [snd]; apply puts_is_open]).
  destruct (2 <=? buffer_num_levels cl cm)%nat; cbn [negb];
    [|cbn [snd]; apply puts_is_open].
  match goal with
  | |- context [for_levels ?b ?l ?s ?f] =>
      assert (Hl : is_open (exit_stream (for_levels b l s f)) = is_open f)
        by (apply for_levels_is_open; intros; apply regular_buffer_level_is_open);
      destruct (for_levels b l s f) as [[? ?] | [? ?]]; cbn [exit_stream] in Hl
  end; cbn [snd]; [|rewrite puts_is_open]; now rewrite Hl, puts_is_open.
Qed.

Lemma powergated_buffer_subckt_is_open fp mm mid cl cm tl tm :
  is_open (snd (print_spice_powergated_buffer_subckt ext fp mm mid cl cm tl tm))
  = is_open fp.
Proof.
  unfold print_spice_powergated_buffer_subckt.
  destruct (valid_file_stream fp); cbn [negb]; [|reflexivity]. cbv zeta.
  do 2 (destruct (one_port_of_size_one _ _); cbn [negb];
        [|cbn [snd]; apply puts_is_open]).
  destruct (is_power_gated cl cm); cbn [negb]; [|cbn [snd]; apply puts_is_open].
  do 2 (destruct (valid_circuit_port_id _ _); cbn [negb];
        [|cbn [snd]; apply puts_is_open]).
  destruct (2 <=? buffer_num_levels cl cm)%nat; cbn [negb];
    [|cbn [snd]; apply puts_is_open].
  match goal with
  | |- context [for_levels ?b ?l ?s ?f] =>
      assert (Hl : is_open (exit_stream (for_levels b l s f)) = is_open f)
        by (apply for_levels_is_open; intros;
            apply powergated_buffer_level_is_open);
      destruct (for_levels b l s f) as [[? ?] | [? ?]]; cbn [exit_stream] in Hl
  end; cbn [snd]; [|rewrite puts_is_open]; now rewrite Hl, puts_is_open.
Qed.

Lemma write_invbuf_is_open fp mm mid cl cm tl tm :
  is_open (snd (write_invbuf ext fp mm mid cl cm tl tm)) = is_open fp.
Proof.
  unfold write_invbuf, print_spice_inverter_subckt, print_spice_buffer_subckt.
  destruct (buffer_type cl cm); [| |reflexivity].
  - destruct (valid_module_id mm mid); cbn [negb]; [|reflexivity].
    destruct (is_power_gated cl cm);
      [apply powergated_inverter_subckt_is_open
      |apply regular_inverter_subckt_is_open].
  - destruct (is_power_gated cl cm);
      [apply powergated_buffer_subckt_is_open
      |apply regular_buffer_subckt_is_open].
Qed.

Lemma essential_gates_turn_is_open mm cl tl binding cm st fp :
  is_open (turn_stream (essential_gates_turn ext mm cl tl binding cm st fp))
  = is_open fp.
Proof.
  unfold essential_gates_turn.
  destruct (has_extern_netlist cl cm); [reflexivity|]. cbv zeta.
  destruct (needs_technology_binding (model_type cl cm)).
  - destruct (binding !! cm) as [tm|]; [|reflexivity].
    destruct (valid_model_id tl tm); cbn [negb]; [|reflexivity].
    destruct (tech_model_type tl tm); [|reflexivity].
    destruct (model_type cl cm); try reflexivity.
    pose proof (write_invbuf_is_open fp mm
                  (find_module mm (model_name cl cm)) cl cm tl tm) as Hw.
    destruct (write_invbuf ext fp mm (find_module mm (model_name cl cm))
                cl cm tl tm) as [[[]| |] fp']; exact Hw.
  - destruct (model_type cl cm); reflexivity.
Qed.

Lemma essential_gates_loop_is_open mm cl tl binding ms st fp :
  is_open (turn_stream (essential_gates_loop ext mm cl tl binding ms st fp))
  = is_open fp.
Proof.
  revert st fp. induction ms as [|cm rest IH]; intros st fp; simpl;
    [reflexivity|].
  pose proof (essential_gates_turn_is_open mm cl tl binding cm st fp) as Ht.
  destruct (essential_gates_turn ext mm cl tl binding cm st fp); simpl in Ht;
    try exact Ht.
  now rewrite IH.
Qed.

End StaysOpen.

(** ** The driver *)

Section Driver.
Context {F : Type} `{CxxFloat F} {NetlistManager : Type}.
Variable ext : Externals F NetlistManager.

(** The loop over a list of models that continues into a second list. *)
Lemma essential_gates_loop_app mm (cl : CircuitLibrary F) tl binding pre rest st fp :
  essential_gates_loop ext mm cl tl binding (pre ++ rest) st fp =
  match essential_gates_loop ext mm cl tl binding pre st fp with
  | Continue st' fp' => essential_gates_loop ext mm cl tl binding rest st' fp'
  | stop => stop
  end.
Proof.
  revert st fp. induction pre as [|cm pre IH]; intros st fp; simpl;
    [reflexivity|].
  destruct (essential_gates_turn ext mm cl tl binding cm st fp);
    try reflexivity. apply IH.
Qed.

(** A model that needs a binding and has none ends its turn with the
    fatal return, whatever the stream. *)
Lemma turn_without_binding mm (cl : CircuitLibrary F) tl
  (binding : gmap CircuitModelId TechnologyModelId) cm st fp :
  has_extern_netlist cl cm = false ->
  needs_technology_binding (model_type cl cm) = true ->
  binding !! cm = None ->
  essential_gates_turn ext mm cl tl binding cm st fp
  = ReturnNow CMD_EXEC_FATAL_ERROR fp.
Proof.
  intros Hn Ht Hb. unfold essential_gates_turn. rewrite Hn, Ht, Hb.
  reflexivity.
Qed.

(** The pass when the loop returns from the turn of [cm]. *)
Lemma pass_without_binding fp nm mm (cl : CircuitLibrary F) tl
  (binding : gmap CircuitModelId TechnologyModelId) dir pre cm post st1 fp1 :
  models cl = (pre ++ cm :: post)%list ->
  has_extern_netlist cl cm = false ->
  needs_technology_binding (model_type cl cm) = true ->
  binding !! cm = None ->
  check_file_stream ext (dir ++ ESSENTIALS_SPICE_FILE_NAME ext) fp = true ->
  essential_gates_loop ext mm cl tl binding pre CMD_EXEC_SUCCESS
    (puts fp (map (Line FileHeader)
                (print_spice_file_header ext "Essential gates")))
  = Continue st1 fp1 ->
  print_spice_essential_gates ext fp nm mm cl tl binding dir
  = (Returned CMD_EXEC_FATAL_ERROR, fp1, nm).
Proof.
  intros Hms Hn Ht Hb Hck Hpre. unfold print_spice_essential_gates.
  rewrite Hck. cbn [negb]. cbv zeta.
  rewrite Hms, essential_gates_loop_app, Hpre. simpl.
  rewrite (turn_without_binding mm cl tl binding cm st1 fp1 Hn Ht Hb).
  reflexivity.
Qed.

(** C6.  A model of type INVBUF, PASSGATE or GATE that names no external
    netlist and has no entry in the binding map ends its turn of the loop
    with the fatal return and the stream untouched; a pass whose loop comes
    to such a model returns the fatal status with the file exactly as the
    models before it left it, so nothing is written for this model or a
    later one. *)
Theorem missing_binding_is_fatal
  (fp : fstream) (netlist_manager : NetlistManager)
  (module_manager : ModuleManager) (circuit_lib : CircuitLibrary F)
  (tech_lib : TechnologyLibrary F)
  (circuit_tech_binding : gmap CircuitModelId TechnologyModelId)
  (submodule_dir : string)
  (before : list CircuitModelId) (circuit_model : CircuitModelId)
  (after : list CircuitModelId) (st1 : exit_code) (fp1 : fstream) :
  models circuit_lib = (before ++ circuit_model :: after)%list ->
  has_extern_netlist circuit_lib circuit_model = false ->
  needs_technology_binding (model_type circuit_lib circuit_model) = true ->
  circuit_tech_binding !! circuit_model = None ->
  check_file_stream ext (submodule_dir ++ ESSENTIALS_SPICE_FILE_NAME ext) fp
  = true ->
  essential_gates_loop ext module_manager circuit_lib tech_lib
    circuit_tech_binding before CMD_EXEC_SUCCESS
    (puts fp (map (Line FileHeader)
                (print_spice_file_header ext "Essential gates")))
  = Continue st1 fp1 ->
  (forall st fp',
      essential_gates_turn ext module_manager circuit_lib tech_lib
        circuit_tech_binding circuit_model st fp'
      = ReturnNow CMD_EXEC_FATAL_ERROR fp')
  /\ print_spice_essential_gates ext fp netlist_manager module_manager
       circuit_lib tech_lib circuit_tech_binding submodule_dir
     = (Returned CMD_EXEC_FATAL_ERROR, fp1, netlist_manager).
Proof.
  intros Hms Hn Ht Hb Hck Hpre. split.
  - intros st fp'. now apply turn_without_binding.
  - now apply pass_without_binding with (pre := before) (cm := circuit_model)
                                         (post := after) (st1 := st1).
Qed.

(** C10, as the code has it.  When the writer of an INVBUF model returns
    the fatal status, the loop stops there, the body closes the stream,
    registers the file and tags it as a submodule netlist, and the pass
    returns the fatal status.  When instead a model on the way lacks its
    binding, the pass returns the fatal status from inside the loop: the
    call of [fp.close()] and the registration are skipped and the netlist
    manager is as it was; the stream, a local of the function, is closed by
    its destructor at that return.  Once the call has returned the file is
    closed on both paths, with the lines the stream had accepted: the two
    paths differ in the registration alone. *)
Theorem invbuf_fatal_closes_and_registers
  (fp : fstream) (netlist_manager : NetlistManager)
  (module_manager : ModuleManager) (circuit_lib : CircuitLibrary F)
  (tech_lib : TechnologyLibrary F)
  (circuit_tech_binding : gmap CircuitModelId TechnologyModelId)
  (submodule_dir : string)
  (before : list CircuitModelId) (circuit_model : CircuitModelId)
  (after : list CircuitModelId) (st1 : exit_code) (fp1 fp2 : fstream)
  (tech_model : TechnologyModelId)
  (netlist_manager' : NetlistManager) (nlist_id : NetlistId) :
  models circuit_lib = (before ++ circuit_model :: after)%list ->
  check_file_stream ext (submodule_dir ++ ESSENTIALS_SPICE_FILE_NAME ext) fp
  = true ->
  essential_gates_loop ext module_manager circuit_lib tech_lib
    circuit_tech_binding before CMD_EXEC_SUCCESS
    (puts fp (map (Line FileHeader)
                (print_spice_file_header ext "Essential gates")))
  = Continue st1 fp1 ->
  has_extern_netlist circuit_lib circuit_model = false ->
  model_type circuit_lib circuit_model = CIRCUIT_MODEL_INVBUF ->
  circuit_tech_binding !! circuit_model = Some tech_model ->
  valid_model_id tech_lib tech_model = true ->
  tech_model_type tech_lib tech_model = TECH_LIB_MODEL_TRANSISTOR ->
  write_invbuf ext fp1 module_manager
    (find_module module_manager (model_name circuit_lib circuit_model))
    circuit_lib circuit_model tech_lib tech_model
  = (Returned CMD_EXEC_FATAL_ERROR, fp2) ->
  add_netlist ext netlist_manager
    (submodule_dir ++ ESSENTIALS_SPICE_FILE_NAME ext)
  = (netlist_manager', Some nlist_id) ->
  print_spice_essential_gates ext fp netlist_manager module_manager
    circuit_lib tech_lib circuit_tech_binding submodule_dir
  = (Returned CMD_EXEC_FATAL_ERROR, close fp2,
     set_netlist_type ext netlist_manager' nlist_id SUBMODULE_NETLIST)
  /\ at_return
       (print_spice_essential_gates ext fp netlist_manager module_manager
          circuit_lib tech_lib circuit_tech_binding submodule_dir)
     = (Returned CMD_EXEC_FATAL_ERROR, close fp2,
        set_netlist_type ext netlist_manager' nlist_id SUBMODULE_NETLIST)
  /\ is_open (close fp2) = false
  /\ written (close fp2) = written fp2
  /\ forall (unbound : gmap CircuitModelId TechnologyModelId) st1' fp1',
       unbound !! circuit_model = None ->
       essential_gates_loop ext module_manager circuit_lib tech_lib
         unbound before CMD_EXEC_SUCCESS
         (puts fp (map (Line FileHeader)
                     (print_spice_file_header ext "Essential gates")))
       = Continue st1' fp1' ->
       print_spice_essential_gates ext fp netlist_manager module_manager
         circuit_lib tech_lib unbound submodule_dir
       = (Returned CMD_EXEC_FATAL_ERROR, fp1', netlist_manager)
       /\ at_return
            (print_spice_essential_gates ext fp netlist_manager module_manager
               circuit_lib tech_lib unbound submodule_dir)
          = (Returned CMD_EXEC_FATAL_ERROR, close fp1', netlist_manager)
       /\ is_open (close fp1') = false
       /\ written (close fp1') = written fp1'.
Proof.
  intros Hms Hck Hpre Hn Hty Hb Hvalid Htr Hw Hadd.
  assert (Hpass : print_spice_essential_gates ext fp netlist_manager
                    module_manager circuit_lib tech_lib circuit_tech_binding
                    submodule_dir
                  = (Returned CMD_EXEC_FATAL_ERROR, close fp2,
                     set_netlist_type ext netlist_manager' nlist_id
                       SUBMODULE_NETLIST)).
  { unfold print_spice_essential_gates. rewrite Hck. cbn [negb]. cbv zeta.
    rewrite Hms, essential_gates_loop_app, Hpre. simpl.
    unfold essential_gates_turn. rewrite Hn, Hty. cbn [needs_technology_binding].
    rewrite Hb, Hvalid. cbn [negb]. rewrite Htr, Hw.
    unfold close_and_register. rewrite Hadd. reflexivity. }
  split; [exact Hpass|].
  split; [rewrite Hpass; reflexivity|].
  split; [reflexivity|]. split; [reflexivity|].
  intros unbound st1' fp1' Hu Hpre'.
  assert (Hret : print_spice_essential_gates ext fp netlist_manager
                   module_manager circuit_lib tech_lib unbound submodule_dir
                 = (Returned CMD_EXEC_FATAL_ERROR, fp1', netlist_manager)).
  { apply (pass_without_binding fp netlist_manager module_manager circuit_lib
             tech_lib unbound submodule_dir before circuit_model after
             st1' fp1'); auto.
    rewrite Hty. reflexivity. }
  split; [exact Hret|].
  split; [rewrite Hret; reflexivity|].
  split; reflexivity.
Qed.

End Driver.

(** The gate of the demonstration library has no binding: the pass stops at
    it with the file as the four models before it left it. *)
Lemma missing_binding_is_fatal_witness :
  Demo.binding !! Demo.and2 = None
  /\ (forall st fp',
        essential_gates_turn Demo.ext Demo.module_manager Demo.circuit_lib
          Demo.tech_lib Demo.binding Demo.and2 st fp'
        = ReturnNow CMD_EXEC_FATAL_ERROR fp')
  /\ print_spice_essential_gates Demo.ext Demo.fresh [] Demo.module_manager
       Demo.circuit_lib Demo.tech_lib Demo.binding "dir/"
     = (Returned CMD_EXEC_FATAL_ERROR, Demo.before_the_gate, []).
Proof.
  split; [reflexivity|].
  apply (missing_binding_is_fatal Demo.ext Demo.fresh [] Demo.module_manager
           Demo.circuit_lib Demo.tech_lib Demo.binding "dir/"
           [Demo.inv; Demo.inv_pg; Demo.buf; Demo.buf_pg] Demo.and2 []
           CMD_EXEC_SUCCESS Demo.before_the_gate);
    vm_compute; reflexivity.
Defined.

(** On a stream whose write fails after 500 lines the writer of the wide
    inverter returns the fatal status: the pass closes and registers the
    file. *)
Lemma invbuf_fatal_closes_and_registers_witness :
  write_invbuf Demo.ext (Demo.with_banner (Demo.cramped 500))
    Demo.module_manager
    (find_module Demo.module_manager (model_name Demo.wide_lib Demo.inv))
    Demo.wide_lib Demo.inv Demo.tech_lib 0%nat
  = (Returned CMD_EXEC_FATAL_ERROR, Demo.inverter_cut_short)
  /\ length (written Demo.inverter_cut_short) = 500%nat
  /\ print_spice_essential_gates Demo.ext (Demo.cramped 500) []
       Demo.module_manager Demo.wide_lib Demo.tech_lib Demo.binding "dir/"
     = (Returned CMD_EXEC_FATAL_ERROR, close Demo.inverter_cut_short,
        [("dir/essential_gates.sp", Some SUBMODULE_NETLIST)]).
Proof.
  assert (Hw : write_invbuf Demo.ext (Demo.with_banner (Demo.cramped 500))
                 Demo.module_manager
                 (find_module Demo.module_manager
                    (model_name Demo.wide_lib Demo.inv))
                 Demo.wide_lib Demo.inv Demo.tech_lib 0%nat
               = (Returned CMD_EXEC_FATAL_ERROR, Demo.inverter_cut_short))
    by (vm_compute; reflexivity).
  split; [exact Hw|]. split; [vm_compute; reflexivity|].
  exact (proj1
           (invbuf_fatal_closes_and_registers Demo.ext (Demo.cramped 500) []
              Demo.module_manager Demo.wide_lib Demo.tech_lib Demo.binding
              "dir/" [] Demo.inv
              [Demo.inv_pg; Demo.buf; Demo.buf_pg; Demo.and2]
              CMD_EXEC_SUCCESS (Demo.with_banner (Demo.cramped 500))
              Demo.inverter_cut_short 0%nat
              [("dir/essential_gates.sp", None)] 0%nat
              eq_refl eq_refl eq_refl eq_refl eq_refl eq_refl eq_refl eq_refl
              Hw eq_refl)).
Defined.

(** C10, counterexample.  The gate of the demonstration library has no
    binding: the pass returns the fatal status from inside the loop and
    the netlist manager is not told of the file, but once the call has
    returned the stream is closed, not left open: the destructor of the
    local stream has closed the file. *)
Lemma missing_binding_leaves_stream_open_counterexample :
  print_spice_essential_gates Demo.ext Demo.fresh [] Demo.module_manager
    Demo.circuit_lib Demo.tech_lib Demo.binding "dir/"
  = (Returned CMD_EXEC_FATAL_ERROR, Demo.before_the_gate, [])
  /\ at_return
       (print_spice_essential_gates Demo.ext Demo.fresh [] Demo.module_manager
          Demo.circuit_lib Demo.tech_lib Demo.binding "dir/")
     = (Returned CMD_EXEC_FATAL_ERROR, close Demo.before_the_gate, [])
  /\ is_open (close Demo.before_the_gate) = false
  /\ ~ is_open
         (snd (fst (at_return
                      (print_spice_essential_gates Demo.ext Demo.fresh []
                         Demo.module_manager Demo.circuit_lib Demo.tech_lib
                         Demo.binding "dir/"))))
       = true.
Proof.
  assert (E : print_spice_essential_gates Demo.ext Demo.fresh []
                Demo.module_manager Demo.circuit_lib Demo.tech_lib
                Demo.binding "dir/"
              = (Returned CMD_EXEC_FATAL_ERROR, Demo.before_the_gate, []))
    by (vm_compute; reflexivity).
  split; [exact E|]. rewrite E. cbn [at_return fst snd].
  split; [reflexivity|]. split; [reflexivity|].
  cbn [close is_open]. discriminate.
Qed.

(** ** Transistor wrappers *)

Section Wrappers.
Context {F : Type} `{CxxFloat F} {NetlistManager : Type}.
Variable ext : Externals F NetlistManager.

Lemma model_wrapper_steady fp (tech_lib : TechnologyLibrary F) model :
  steady fp ->
  print_spice_transistor_model_wrapper ext fp tech_lib model
  = (CMD_EXEC_SUCCESS,
     puts (puts fp (transistor_wrapper_lines ext tech_lib model
                      TECH_LIB_TRANSISTOR_PMOS))
          (transistor_wrapper_lines ext tech_lib model TECH_LIB_TRANSISTOR_NMOS)).
Proof.
  intros [Hv _]. unfold print_spice_transistor_model_wrapper. rewrite Hv.
  reflexivity.
Qed.

(** On a steady stream the loop leaves at the first transistor model. *)
Lemma transistor_wrapper_loop_first (tech_lib : TechnologyLibrary F) ms fp m :
  steady fp ->
  first_transistor tech_lib ms = Some m ->
  transistor_wrapper_loop ext tech_lib ms fp
  = inl (CMD_EXEC_FATAL_ERROR,
         puts (puts fp (transistor_wrapper_lines ext tech_lib m
                          TECH_LIB_TRANSISTOR_PMOS))
              (transistor_wrapper_lines ext tech_lib m TECH_LIB_TRANSISTOR_NMOS)).
Proof.
  intros Hs. unfold first_transistor.
  induction ms as [|x rest IH];
    cbn [List.find transistor_wrapper_loop]; [discriminate|].
  destruct (tech_model_type tech_lib x) eqn:Hx.
  - intros Hfind. injection Hfind as <-.
    rewrite (model_wrapper_steady fp tech_lib x Hs). reflexivity.
  - exact IH.
Qed.

(** C3, as the code has it.  On a stream that is open and stays writable,
    with a technology library that holds a transistor model, the function
    returns the fatal status from inside its loop: the file holds the banner
    and the wrapper pair of the first transistor model only, the stream is
    not closed and the netlist manager is not told of the file. *)
Theorem transistor_wrapper_returns_fatal
  (fp : fstream) (netlist_manager : NetlistManager)
  (tech_lib : TechnologyLibrary F) (submodule_dir : string)
  (model : TechnologyModelId) :
  check_file_stream ext (submodule_dir ++ TRANSISTORS_SPICE_FILE_NAME ext) fp
  = true ->
  steady fp ->
  first_transistor tech_lib (tech_models tech_lib) = Some model ->
  exists fp',
    print_spice_transistor_wrapper ext fp netlist_manager tech_lib submodule_dir
    = (Returned CMD_EXEC_FATAL_ERROR, fp', netlist_manager)
    /\ is_open fp' = is_open fp
    /\ written fp'
       = (written fp
          ++ map (Line FileHeader)
               (print_spice_file_header ext "Transistor wrappers")
          ++ transistor_wrapper_lines ext tech_lib model TECH_LIB_TRANSISTOR_PMOS
          ++ transistor_wrapper_lines ext tech_lib model TECH_LIB_TRANSISTOR_NMOS)%list.
Proof.
  intros Hck Hs Hfirst. unfold print_spice_transistor_wrapper.
  rewrite Hck. cbn [negb]. cbv zeta.
  destruct (puts_steady
              (map (Line FileHeader)
                 (print_spice_file_header ext "Transistor wrappers")) fp Hs)
    as [Hs1 Hw1].
  rewrite (transistor_wrapper_loop_first tech_lib _ _ model Hs1 Hfirst).
  eexists. split; [reflexivity|].
  destruct (puts_steady
              (transistor_wrapper_lines ext tech_lib model
                 TECH_LIB_TRANSISTOR_PMOS) _ Hs1) as [Hs2 Hw2].
  destruct (puts_steady
              (transistor_wrapper_lines ext tech_lib model
                 TECH_LIB_TRANSISTOR_NMOS) _ Hs2) as [Hs3 Hw3].
  split.
  - now rewrite !puts_is_open.
  - rewrite Hw3, Hw2, Hw1, <- !app_assoc. reflexivity.
Qed.

End Wrappers.

(** The technology library of the demonstration has two transistor models:
    the call returns the fatal status and the file holds the wrappers of the
    first one alone. *)
Lemma transistor_wrapper_returns_fatal_witness :
  steady Demo.fresh
  /\ first_transistor Demo.tech_lib (tech_models Demo.tech_lib) = Some 0%nat
  /\ exists fp',
      print_spice_transistor_wrapper Demo.ext Demo.fresh [] Demo.tech_lib "dir/"
      = (Returned CMD_EXEC_FATAL_ERROR, fp', [])
      /\ is_open fp' = is_open Demo.fresh
      /\ written fp'
         = (written Demo.fresh
            ++ map (Line FileHeader)
                 (print_spice_file_header Demo.ext "Transistor wrappers")
            ++ transistor_wrapper_lines Demo.ext Demo.tech_lib 0%nat
                 TECH_LIB_TRANSISTOR_PMOS
            ++ transistor_wrapper_lines Demo.ext Demo.tech_lib 0%nat
                 TECH_LIB_TRANSISTOR_NMOS)%list.
Proof.
  split; [split; reflexivity | split; [reflexivity|]].
  apply (transistor_wrapper_returns_fatal Demo.ext Demo.fresh [] Demo.tech_lib
           "dir/" 0%nat); [reflexivity | split; reflexivity | reflexivity].
Defined.

(** ** Power-gate chains *)

Section Chains.
Context {F : Type} `{CxxFloat F} {NetlistManager : Type}.
Variable ext : Externals F NetlistManager.

Lemma count_kind_app k (l1 l2 : list line) :
  count_kind k (l1 ++ l2) = (count_kind k l1 + count_kind k l2)%nat.
Proof. unfold count_kind. now rewrite List.filter_app, length_app. Qed.

Lemma count_kind_one k k' s : count_kind k [Line k' s] = hit k k'.
Proof.
  unfold count_kind, hit, has_kind. simpl.
  destruct k' as [| | | | | |[]|[]], k as [| | | | | |[]|[]]; reflexivity.
Qed.

Lemma count_kind_uniform k k' (ls : list line) :
  Forall (fun l => kind l = k') ls ->
  count_kind k ls = (length ls * hit k k')%nat.
Proof.
  induction ls as [|[kl s] ls IH]; intros Hall; [reflexivity|].
  pose proof (List.Forall_inv Hall) as Hk.
  pose proof (List.Forall_inv_tail Hall) as Hrest. simpl in Hk. subst kl.
  change (Line k' s :: ls) with ([Line k' s] ++ ls)%list.
  rewrite count_kind_app, count_kind_one, (IH Hrest). simpl. lia.
Qed.

Lemma adds_chain_and_device_counts t k fp fp' kd :
  adds_chain_and_device t k fp fp' ->
  adds_of_kind kd (k * hit kd (PowerGateDevice t) + hit kd (StageDevice t))
    fp fp'.
Proof.
  intros [chain [[kc sc] [Hw [Hlen [Hall Hcore]]]]]. simpl in Hcore. subst kc.
  unfold adds_of_kind. rewrite Hw, !count_kind_app, count_kind_one.
  rewrite (count_kind_uniform kd _ chain Hall), Hlen. lia.
Qed.

Lemma powergated_pmos_chain_steady post out (cl : CircuitLibrary F) port tl tm w
  ps first last fp :
  steady fp ->
  exists chain,
    steady (powergated_pmos_chain ext post out cl port tl tm w ps first last fp)
    /\ written (powergated_pmos_chain ext post out cl port tl tm w ps first last fp)
       = (written fp ++ chain)%list
    /\ length chain = length ps
    /\ Forall (fun l => kind l = PowerGateDevice TECH_LIB_TRANSISTOR_PMOS) chain.
Proof.
  revert first last fp. induction ps as [|p rest IH]; intros first last fp Hs.
  - exists []. simpl. rewrite app_nil_r. auto.
  - simpl. match goal with |- context [put fp ?l] =>
      destruct (put_steady fp l Hs) as [Hs' Hw'];
      destruct (IH false p (put fp l) Hs') as [chain [Hs2 [Hw2 [Hlen Hall]]]];
      exists (l :: chain) end.
    split; [exact Hs2|]. split; [|split].
    + rewrite Hw2, Hw', <- app_assoc. reflexivity.
    + simpl. now rewrite Hlen.
    + constructor; [reflexivity | exact Hall].
Qed.

Lemma powergated_nmos_chain_steady post out (cl : CircuitLibrary F) port tl tm w
  ps first last fp :
  steady fp ->
  exists chain,
    steady (powergated_nmos_chain ext post out cl port tl tm w ps first last fp)
    /\ written (powergated_nmos_chain ext post out cl port tl tm w ps first last fp)
       = (written fp ++ chain)%list
    /\ length chain = length ps
    /\ Forall (fun l => kind l = PowerGateDevice TECH_LIB_TRANSISTOR_NMOS) chain.
Proof.
  revert first last fp. induction ps as [|p rest IH]; intros first last fp Hs.
  - exists []. simpl. rewrite app_nil_r. auto.
  - simpl. match goal with |- context [put fp ?l] =>
      destruct (put_steady fp l Hs) as [Hs' Hw'];
      destruct (IH false p (put fp l) Hs') as [chain [Hs2 [Hw2 [Hlen Hall]]]];
      exists (l :: chain) end.
    split; [exact Hs2|]. split; [|split].
    + rewrite Hw2, Hw', <- app_assoc. reflexivity.
    + simpl. now rewrite Hlen.
    + constructor; [reflexivity | exact Hall].
Qed.

(** One bin of the PMOS side. *)
Lemma powergated_pmos_modeling_steady fp post i o (cl : CircuitLibrary F)
  enb_port tl tm w :
  steady fp ->
  exists fp',
    print_spice_powergated_inverter_pmos_modeling ext fp post i o cl enb_port
      tl tm w = (CMD_EXEC_SUCCESS, fp')
    /\ steady fp'
    /\ adds_chain_and_device TECH_LIB_TRANSISTOR_PMOS
         (length (pins cl enb_port)) fp fp'.
Proof.
  intros Hs. unfold print_spice_powergated_inverter_pmos_modeling.
  destruct Hs as [Hv Hr]. rewrite Hv. cbn [negb]. cbv zeta.
  destruct (powergated_pmos_chain_steady post o cl enb_port tl tm w
              (pins cl enb_port) true 0%nat fp (conj Hv Hr))
    as [chain [Hs1 [Hw1 [Hlen Hall]]]].
  eexists. split; [reflexivity|].
  match goal with |- context [put ?f ?l] =>
    destruct (put_steady f l Hs1) as [Hs2 Hw2]; split; [exact Hs2|];
    exists chain, l end.
  split; [|auto]. rewrite Hw2, Hw1, <- app_assoc. reflexivity.
Qed.

(** One bin of the NMOS side. *)
Lemma powergated_nmos_modeling_steady fp post i o (cl : CircuitLibrary F)
  en_port tl tm w :
  steady fp ->
  exists fp',
    print_spice_powergated_inverter_nmos_modeling ext fp post i o cl en_port
      tl tm w = (CMD_EXEC_SUCCESS, fp')
    /\ steady fp'
    /\ adds_chain_and_device TECH_LIB_TRANSISTOR_NMOS
         (length (pins cl en_port)) fp fp'.
Proof.
  intros Hs. unfold print_spice_powergated_inverter_nmos_modeling.
  destruct Hs as [Hv Hr]. rewrite Hv. cbn [negb]. cbv zeta.
  destruct (powergated_nmos_chain_steady post o cl en_port tl tm w
              (pins cl en_port) true 0%nat fp (conj Hv Hr))
    as [chain [Hs1 [Hw1 [Hlen Hall]]]].
  eexists. split; [reflexivity|].
  match goal with |- context [put ?f ?l] =>
    destruct (put_steady f l Hs1) as [Hs2 Hw2]; split; [exact Hs2|];
    exists chain, l end.
  split; [|auto]. rewrite Hw2, Hw1, <- app_assoc. reflexivity.
Qed.

(** A loop over bins whose body, on a steady stream, succeeds and adds
    [c k] lines of each kind [k], adds [c k] lines per bin. *)
Lemma for_bins_counts (body : nat -> fstream -> exit_code * fstream)
  (c : line_kind -> nat) :
  (forall ibin fp, steady fp ->
     exists fp', body ibin fp = (CMD_EXEC_SUCCESS, fp') /\ steady fp'
                 /\ forall k, adds_of_kind k (c k) fp fp') ->
  forall ibins st fp, steady fp ->
    exists st' fp',
      for_bins body ibins st fp = inr (st', fp') /\ steady fp'
      /\ (st = CMD_EXEC_SUCCESS -> st' = CMD_EXEC_SUCCESS)
      /\ forall k, adds_of_kind k (length ibins * c k) fp fp'.
Proof.
  intros Hbody ibins. induction ibins as [|ibin rest IH]; intros st fp Hs.
  - exists st, fp. simpl. split; [reflexivity|]. split; [exact Hs|].
    split; [auto|]. intros k. unfold adds_of_kind. lia.
  - simpl. destruct (Hbody ibin fp Hs) as [fp1 [Hb [Hs1 Hc1]]]. rewrite Hb.
    cbn [exit_code_eqb].
    destruct (IH CMD_EXEC_SUCCESS fp1 Hs1) as [st' [fp' [Hl [Hs' [Hst Hc']]]]].
    exists st', fp'. split; [exact Hl|]. split; [exact Hs'|].
    split; [auto|]. intros k. specialize (Hc1 k). specialize (Hc' k).
    unfold adds_of_kind in *. lia.
Qed.

Lemma adds_of_kind_trans k a b fp1 fp2 fp3 :
  adds_of_kind k a fp1 fp2 -> adds_of_kind k b fp2 fp3 ->
  adds_of_kind k (a + b) fp1 fp3.
Proof. unfold adds_of_kind. lia. Qed.

(** Frame lines are not counted among the device lines. *)
Lemma puts_frame_adds_none k k' (ss : list string) fp :
  is_device_kind k = true -> is_device_kind k' = false ->
  steady fp ->
  steady (puts fp (map (Line k') ss))
  /\ adds_of_kind k 0 fp (puts fp (map (Line k') ss)).
Proof.
  intros Hk Hk' Hs. destruct (puts_steady (map (Line k') ss) fp Hs) as [Hs' Hw].
  split; [exact Hs'|]. unfold adds_of_kind. rewrite Hw, count_kind_app.
  rewrite (count_kind_uniform k k' (map (Line k') ss)).
  - assert (Hz : hit k k' = 0%nat)
      by (destruct k as [| | | | | |[]|[]], k' as [| | | | | |[]|[]];
          try discriminate; reflexivity).
    rewrite Hz. lia.
  - clear. induction ss; simpl; constructor; auto.
Qed.

(** The two bin loops of one power-gated stage, run one after the other on
    a steady stream. *)
Lemma powergated_stage_counts (cl : CircuitLibrary F) tl tm en_port enb_port
  (postfix : nat -> string) i o (wP wN : nat -> F) (binsP binsN : list nat)
  st fp :
  steady fp ->
  exists st1 fp1 st2 fp2,
    for_bins
      (fun ibin fp =>
         print_spice_powergated_inverter_pmos_modeling ext fp (postfix ibin)
           i o cl enb_port tl tm (wP ibin)) binsP st fp = inr (st1, fp1)
    /\ for_bins
      (fun ibin fp =>
         print_spice_powergated_inverter_nmos_modeling ext fp (postfix ibin)
           i o cl en_port tl tm (wN ibin)) binsN st1 fp1 = inr (st2, fp2)
    /\ steady fp2
    /\ (st = CMD_EXEC_SUCCESS -> st2 = CMD_EXEC_SUCCESS)
    /\ forall k, adds_of_kind k
         (length binsP
          * (length (pins cl enb_port)
             * hit k (PowerGateDevice TECH_LIB_TRANSISTOR_PMOS)
             + hit k (StageDevice TECH_LIB_TRANSISTOR_PMOS))
          + length binsN
            * (length (pins cl en_port)
               * hit k (PowerGateDevice TECH_LIB_TRANSISTOR_NMOS)
               + hit k (StageDevice TECH_LIB_TRANSISTOR_NMOS)))
         fp fp2.
Proof.
  intros Hs.
  destruct (for_bins_counts
              (fun ibin fp =>
                 print_spice_powergated_inverter_pmos_modeling ext fp
                   (postfix ibin) i o cl enb_port tl tm (wP ibin))
              (fun k => (length (pins cl enb_port)
                         * hit k (PowerGateDevice TECH_LIB_TRANSISTOR_PMOS)
                         + hit k (StageDevice TECH_LIB_TRANSISTOR_PMOS))%nat))
    with (ibins := binsP) (st := st) (fp := fp)
    as [st1 [fp1 [Hl1 [Hs1 [Hst1 Hc1]]]]]; [|exact Hs|].
  { intros ibin fp0 Hs0.
    destruct (powergated_pmos_modeling_steady fp0 (postfix ibin) i o cl
                enb_port tl tm (wP ibin) Hs0) as [fp' [He [Hs' Ha]]].
    exists fp'. split; [exact He|]. split; [exact Hs'|].
    intros k0. now apply adds_chain_and_device_counts. }
  destruct (for_bins_counts
              (fun ibin fp =>
                 print_spice_powergated_inverter_nmos_modeling ext fp
                   (postfix ibin) i o cl en_port tl tm (wN ibin))
              (fun k => (length (pins cl en_port)
                         * hit k (PowerGateDevice TECH_LIB_TRANSISTOR_NMOS)
                         + hit k (StageDevice TECH_LIB_TRANSISTOR_NMOS))%nat))
    with (ibins := binsN) (st := st1) (fp := fp1)
    as [st2 [fp2 [Hl2 [Hs2 [Hst2 Hc2]]]]]; [|exact Hs1|].
  { intros ibin fp0 Hs0.
    destruct (powergated_nmos_modeling_steady fp0 (postfix ibin) i o cl
                en_port tl tm (wN ibin) Hs0) as [fp' [He [Hs' Ha]]].
    exists fp'. split; [exact He|]. split; [exact Hs'|].
    intros k0. now apply adds_chain_and_device_counts. }
  exists st1, fp1, st2, fp2. split; [exact Hl1|]. split; [exact Hl2|].
  split; [exact Hs2|]. split; [auto|].
  intros k. eapply adds_of_kind_trans; [apply Hc1 | apply Hc2].
Qed.

(** The four device kinds, read off the count of every kind. *)
Lemma adds_stage_lines_of_counts nP kb nN ke fp fp' :
  (forall k, is_device_kind k = true -> adds_of_kind k
     (nP * (kb * hit k (PowerGateDevice TECH_LIB_TRANSISTOR_PMOS)
            + hit k (StageDevice TECH_LIB_TRANSISTOR_PMOS))
      + nN * (ke * hit k (PowerGateDevice TECH_LIB_TRANSISTOR_NMOS)
              + hit k (StageDevice TECH_LIB_TRANSISTOR_NMOS))) fp fp') ->
  adds_stage_lines nP kb nN ke fp fp'.
Proof.
  intros Hc. unfold adds_stage_lines, adds_of_kind in *.
  pose proof (Hc (PowerGateDevice TECH_LIB_TRANSISTOR_PMOS) eq_refl) as H1.
  pose proof (Hc (StageDevice TECH_LIB_TRANSISTOR_PMOS) eq_refl) as H2.
  pose proof (Hc (PowerGateDevice TECH_LIB_TRANSISTOR_NMOS) eq_refl) as H3.
  pose proof (Hc (StageDevice TECH_LIB_TRANSISTOR_NMOS) eq_refl) as H4.
  cbn [hit has_kind kind] in H1, H2, H3, H4. repeat split; lia.
Qed.

(** C7, as the code has it.  On a stream that stays writable, one call of
    the device writer of a power-gated stage (one width bin of one polarity)
    adds exactly k chain switch lines, k >= 1 the number of pins of the
    enable-bar port on the PMOS side and of the enable port on the NMOS
    side, followed by exactly one stage device line.  The bin loop calls
    the writer once per bin, so one stage of a power-gated inverter or of a
    level of a power-gated buffer adds, per polarity, (number of bins) * k
    chain lines and (number of bins) stage device lines.  A port without
    pins is left out: the stage device is named after the last pin. *)
Theorem power_gate_chain_per_bin
  (fp : fstream) (module_manager : ModuleManager) (module_id : ModuleId)
  (circuit_lib : CircuitLibrary F) (circuit_model : CircuitModelId)
  (tech_lib : TechnologyLibrary F) (tech_model : TechnologyModelId) :
  steady fp ->
  (forall postfix i o enb_port w,
     pins circuit_lib enb_port <> [] ->
     exists fp',
       print_spice_powergated_inverter_pmos_modeling ext fp postfix i o
         circuit_lib enb_port tech_lib tech_model w = (CMD_EXEC_SUCCESS, fp')
       /\ adds_chain_and_device TECH_LIB_TRANSISTOR_PMOS
            (length (pins circuit_lib enb_port)) fp fp')
  /\ (forall postfix i o en_port w,
     pins circuit_lib en_port <> [] ->
     exists fp',
       print_spice_powergated_inverter_nmos_modeling ext fp postfix i o
         circuit_lib en_port tech_lib tech_model w = (CMD_EXEC_SUCCESS, fp')
       /\ adds_chain_and_device TECH_LIB_TRANSISTOR_NMOS
            (length (pins circuit_lib en_port)) fp fp')
  /\ (one_scalar_input_and_output circuit_lib circuit_model ->
      is_power_gated circuit_lib circuit_model = true ->
      valid_circuit_port_id circuit_lib
        (find_circuit_model_power_gate_en_port ext circuit_lib circuit_model)
      = true ->
      valid_circuit_port_id circuit_lib
        (find_circuit_model_power_gate_enb_port ext circuit_lib circuit_model)
      = true ->
      pins circuit_lib
        (find_circuit_model_power_gate_en_port ext circuit_lib circuit_model)
      <> [] ->
      pins circuit_lib
        (find_circuit_model_power_gate_enb_port ext circuit_lib circuit_model)
      <> [] ->
      exists fp',
        print_spice_powergated_inverter_subckt ext fp module_manager module_id
          circuit_lib circuit_model tech_lib tech_model
        = (Returned CMD_EXEC_SUCCESS, fp')
        /\ adds_stage_lines
             (bin_count
                (total_pmos_width tech_lib tech_model
                   (buffer_size circuit_lib circuit_model))
                (transistor_model_max_width tech_lib tech_model
                   TECH_LIB_TRANSISTOR_PMOS))
             (length (pins circuit_lib
                        (find_circuit_model_power_gate_enb_port ext
                           circuit_lib circuit_model)))
             (bin_count
                (total_nmos_width tech_lib tech_model
                   (buffer_size circuit_lib circuit_model))
                (transistor_model_max_width tech_lib tech_model
                   TECH_LIB_TRANSISTOR_NMOS))
             (length (pins circuit_lib
                        (find_circuit_model_power_gate_en_port ext
                           circuit_lib circuit_model)))
             fp fp')
  /\ (forall input_ports output_ports en_port enb_port buffer_widths level st,
      pins circuit_lib en_port <> [] ->
      pins circuit_lib enb_port <> [] ->
      exists st' fp',
        powergated_buffer_level ext circuit_lib input_ports output_ports
          en_port enb_port tech_lib tech_model buffer_widths level st fp
        = inr (st', fp')
        /\ adds_stage_lines
             (bin_count
                (total_pmos_width tech_lib tech_model
                   (nth level buffer_widths f_one))
                (transistor_model_max_width tech_lib tech_model
                   TECH_LIB_TRANSISTOR_PMOS))
             (length (pins circuit_lib enb_port))
             (bin_count
                (total_nmos_width tech_lib tech_model
                   (nth level buffer_widths f_one))
                (transistor_model_max_width tech_lib tech_model
                   TECH_LIB_TRANSISTOR_NMOS))
             (length (pins circuit_lib en_port))
             fp fp').
Proof.
  intros Hs. split; [|split; [|split]].
  - intros postfix i o enb_port w _.
    destruct (powergated_pmos_modeling_steady fp postfix i o circuit_lib
                enb_port tech_lib tech_model w Hs) as [fp' [He [_ Ha]]].
    exists fp'. auto.
  - intros postfix i o en_port w _.
    destruct (powergated_nmos_modeling_steady fp postfix i o circuit_lib
                en_port tech_lib tech_model w Hs) as [fp' [He [_ Ha]]].
    exists fp'. auto.
  - intros [Hin Hout] Hpg Hen Henb _ _.
    unfold print_spice_powergated_inverter_subckt.
    destruct Hs as [Hv Hr]. rewrite Hv. cbn [negb]. cbv zeta.
    apply one_port_of_size_one_iff in Hin. apply one_port_of_size_one_iff in Hout.
    rewrite Hin, Hout, Hpg, Hen, Henb. cbn [negb].
    assert (Hs1 : steady (puts fp (subckt_definition_lines ext module_manager
                                     module_id))
                  /\ forall k, is_device_kind k = true ->
                       adds_of_kind k 0 fp
                         (puts fp (subckt_definition_lines ext module_manager
                                     module_id))).
    { split; [apply puts_steady; split; assumption|].
      intros k Hk. apply puts_frame_adds_none; [exact Hk | reflexivity | split; assumption]. }
    destruct Hs1 as [Hs1 Hc1].
    match goal with
    | |- context [for_bins (fun ibin fp => print_spice_powergated_inverter_pmos_modeling
                    ext fp (@?pf ibin) ?i ?o ?cl ?enb ?tl ?tm (@?wP ibin))
                    ?bP ?st ?f] =>
        match goal with
        | |- context [for_bins (fun ibin fp => print_spice_powergated_inverter_nmos_modeling
                    ext fp _ _ _ _ ?en _ _ (@?wN ibin)) ?bN _ _] =>
            destruct (powergated_stage_counts cl tl tm en enb pf i o wP wN bP bN
                        st f Hs1)
              as [st1 [fp1 [st2 [fp2 [Hl1 [Hl2 [Hs2 [Hst Hc2]]]]]]]]
        end
    end.
    rewrite Hl1, Hl2.
    eexists. split; [reflexivity|].
    apply adds_stage_lines_of_counts. intros k Hk.
    destruct (puts_frame_adds_none k SubcktEnd
                (print_spice_subckt_end ext (module_name module_manager module_id))
                fp2 Hk eq_refl Hs2) as [_ Hc3].
    specialize (Hc1 k Hk). specialize (Hc2 k).
    unfold subckt_end_lines, bin_count, adds_of_kind in *. lia.
  - intros input_ports output_ports en_port enb_port buffer_widths level st
      _ _.
    unfold powergated_buffer_level. cbv zeta.
    match goal with
    | |- context [for_bins (fun ibin fp => print_spice_powergated_inverter_pmos_modeling
                    ext fp (@?pf ibin) ?i ?o ?cl ?enb ?tl ?tm (@?wP ibin))
                    ?bP ?st0 ?f] =>
        match goal with
        | |- context [for_bins (fun ibin fp => print_spice_powergated_inverter_nmos_modeling
                    ext fp _ _ _ _ ?en _ _ (@?wN ibin)) ?bN _ _] =>
            destruct (powergated_stage_counts cl tl tm en enb pf i o wP wN bP bN
                        st0 f Hs)
              as [st1 [fp1 [st2 [fp2 [Hl1 [Hl2 [Hs2 [Hst Hc2]]]]]]]]
        end
    end.
    rewrite Hl1, Hl2. exists st2, fp2. split; [reflexivity|].
    apply adds_stage_lines_of_counts. intros k _. apply Hc2.
Qed.

End Chains.

(** The power-gated inverter of the demonstration: two pins on each enable
    port, two PMOS bins, one NMOS bin. *)
Lemma power_gate_chain_per_bin_witness :
  steady Demo.fresh
  /\ exists fp',
      print_spice_powergated_inverter_subckt Demo.ext Demo.fresh
        Demo.module_manager 1%nat Demo.circuit_lib Demo.inv_pg Demo.tech_lib 0%nat
      = (Returned CMD_EXEC_SUCCESS, fp')
      /\ adds_stage_lines 2 2 1 2 Demo.fresh fp'.
Proof.
  assert (Hs : steady Demo.fresh) by (split; reflexivity).
  split; [exact Hs|].
  destruct (power_gate_chain_per_bin Demo.ext Demo.fresh Demo.module_manager
              1%nat Demo.circuit_lib Demo.inv_pg Demo.tech_lib 0%nat Hs)
    as [_ [_ [Hstage _]]].
  apply Hstage; try reflexivity; try discriminate.
  split; eexists; split; reflexivity.
Defined.

(** C7, counterexample.  The PMOS side of the one stage of the power-gated
    inverter of the demonstration is split into two bins; its enable-bar
    port has two pins.  The file holds four PMOS chain switch lines and two
    PMOS stage device lines, not two and one. *)
Lemma power_gate_chain_per_stage_counterexample :
  length (pins Demo.circuit_lib Demo.enb_port) = 2%nat
  /\ count_kind (PowerGateDevice TECH_LIB_TRANSISTOR_PMOS)
       (written Demo.inv_pg_file) = 4%nat
  /\ count_kind (StageDevice TECH_LIB_TRANSISTOR_PMOS)
       (written Demo.inv_pg_file) = 2%nat
  /\ ~ (count_kind (PowerGateDevice TECH_LIB_TRANSISTOR_PMOS)
          (written Demo.inv_pg_file)
        = length (pins Demo.circuit_lib Demo.enb_port)
        /\ count_kind (StageDevice TECH_LIB_TRANSISTOR_PMOS)
             (written Demo.inv_pg_file) = 1%nat).
Proof.
  split; [reflexivity|]. split; [vm_compute; reflexivity|].
  split; [vm_compute; reflexivity|].
  intros [_ Hone]. vm_compute in Hone. discriminate Hone.
Qed.

(** ** Stage scaling *)

(** Filling a vector of length [n] slot by slot, from slot 0 up. *)
Lemma fill_slots {A : Type} (g : nat -> A) (k : nat) (ws : list A) :
  (k <= length ws)%nat ->
  fold_left (fun ws level => <[level := g level]> ws) (seq 0 k) ws
  = (map g (seq 0 k) ++ drop k ws)%list.
Proof.
  induction k as [|k IH]; intros Hk.
  - simpl. now rewrite drop_0.
  - rewrite seq_S, fold_left_app, IH by lia. simpl.
    rewrite insert_app_r_alt by (rewrite length_map, length_seq; lia).
    rewrite length_map, length_seq, Nat.sub_diag.
    destruct (lookup_lt_is_Some_2 ws k ltac:(lia)) as [x Hx].
    rewrite (drop_S ws x k Hx). simpl.
    rewrite map_app, <- app_assoc. reflexivity.
Qed.

(** The vector of stage widths holds [s * std::pow(f, level)] at every
    level, whatever the arithmetic. *)
Lemma build_buffer_widths_map {F : Type} `{CxxFloat F}
  (circuit_lib : CircuitLibrary F) (circuit_model : CircuitModelId) :
  build_buffer_widths circuit_lib circuit_model
  = map (f_mul_pow (buffer_size circuit_lib circuit_model)
                   (buffer_f_per_stage circuit_lib circuit_model))
        (seq 0 (buffer_num_levels circuit_lib circuit_model)).
Proof.
  unfold build_buffer_widths. rewrite fill_slots.
  - rewrite drop_ge by (rewrite length_replicate; lia). apply app_nil_r.
  - rewrite length_replicate. lia.
Qed.

(** *** Rounding to nearest even is monotone *)

Lemma pw_pos z : (0 < pw z)%Q.
Proof. unfold pw. apply Qpower_0_lt. reflexivity. Qed.

Lemma pw_add a b : (pw (a + b) == pw a * pw b)%Q.
Proof. unfold pw. apply Qpower_plus. discriminate. Qed.

Lemma pw_0 : (pw 0 == 1)%Q.
Proof. reflexivity. Qed.

Lemma pw_1 : (pw 1 == 2)%Q.
Proof. reflexivity. Qed.

Lemma pw_le a b : a <= b -> (pw a <= pw b)%Q.
Proof. intros H. unfold pw. apply Qpower_le_compat_l; [exact H | discriminate]. Qed.

Lemma pw_succ a : (pw (a + 1) == 2 * pw a)%Q.
Proof. rewrite pw_add, pw_1. ring. Qed.

Lemma pw_lt a b : a < b -> (pw a < pw b)%Q.
Proof.
  intros H. assert (Hle : (pw (a + 1) <= pw b)%Q) by (apply pw_le; lia).
  rewrite pw_succ in Hle. pose proof (pw_pos a). lra.
Qed.

Lemma pw_Z n : 0 <= n -> (pw n == inject_Z (2 ^ n))%Q.
Proof.
  intros H. unfold pw. rewrite Zpower_Qpower by exact H. reflexivity.
Qed.

Lemma pw_le_inv a b : (pw a <= pw b)%Q -> a <= b.
Proof.
  intros H. destruct (Z_le_gt_dec a b) as [|Hgt]; [assumption|].
  assert (pw b < pw a)%Q by (apply pw_lt; lia). lra.
Qed.

Lemma pw_lt_inv a b : (pw a < pw b)%Q -> a < b.
Proof.
  intros H. destruct (Z_lt_ge_dec a b) as [|Hge]; [assumption|].
  assert (pw b <= pw a)%Q by (apply pw_le; lia). lra.
Qed.

(** The number of binary digits brackets the number. *)
Lemma digits2_pos_bounds (m : positive) :
  2 ^ (Zpos (digits2_pos m) - 1) <= Zpos m < 2 ^ Zpos (digits2_pos m).
Proof.
  induction m as [m IH|m IH|]; cbn [digits2_pos].
  - rewrite Pos2Z.inj_succ.
    replace (Z.succ (Z.pos (digits2_pos m)) - 1) with (Z.succ (Z.pos (digits2_pos m) - 1)) by lia.
    rewrite !Z.pow_succ_r by lia. lia.
  - rewrite Pos2Z.inj_succ.
    replace (Z.succ (Z.pos (digits2_pos m)) - 1) with (Z.succ (Z.pos (digits2_pos m) - 1)) by lia.
    rewrite !Z.pow_succ_r by lia. lia.
  - cbn. lia.
Qed.

Lemma dy_binade (m : positive) (e : Z) :
  (pw (Zpos (digits2_pos m) + e - 1) <= dy (Zpos m) e
   /\ dy (Zpos m) e < pw (Zpos (digits2_pos m) + e))%Q.
Proof.
  pose proof (digits2_pos_bounds m) as [Hl Hu].
  set (d := Zpos (digits2_pos m)) in *.
  assert (Hd : 1 <= d) by (unfold d; lia).
  unfold dy. pose proof (pw_pos e) as He.
  replace (d + e - 1) with ((d - 1) + e) by lia.
  rewrite !pw_add. rewrite (pw_Z (d - 1)) by lia. rewrite (pw_Z d) by lia.
  split.
  - apply Qmult_le_compat_r; [|lra]. rewrite <- Zle_Qle. exact Hl.
  - apply Qmult_lt_compat_r; [exact He|]. rewrite <- Zlt_Qlt. exact Hu.
Qed.

Lemma binade_mono (m1 m2 : positive) e1 e2 :
  (dy (Zpos m1) e1 <= dy (Zpos m2) e2)%Q ->
  Zpos (digits2_pos m1) + e1 <= Zpos (digits2_pos m2) + e2.
Proof.
  intros H. pose proof (dy_binade m1 e1) as [H1 _].
  pose proof (dy_binade m2 e2) as [_ H2].
  assert (Hlt : (pw (Zpos (digits2_pos m1) + e1 - 1) < pw (Zpos (digits2_pos m2) + e2))%Q) by lra.
  apply pw_lt_inv in Hlt. lia.
Qed.

(** One more digit shifted out. *)
Lemma shr_1_inv m k mrs :
  0 <= k -> shr_inv m k mrs -> shr_inv m (k + 1) (shr_1 mrs).
Proof.
  intros Hk [Hm [t [Ht [E Hs]]]].
  assert (HN : 0 < 2 ^ k) by (apply Z.pow_pos_nonneg; lia).
  assert (HN1 : 2 ^ (k + 1) = 2 * 2 ^ k) by (rewrite Z.pow_add_r by lia; lia).
  destruct mrs as [m' r s]. cbn [shr_m shr_r shr_s] in *.
  assert (Hor : (r || s = false <-> b2z r * 2 ^ k + t = 0)).
  { destruct r, s; cbn [orb b2z].
    - split; [discriminate | lia].
    - split; [discriminate | lia].
    - split; [discriminate|]. intros H0. apply Hs. lia.
    - split; [intros _; destruct Hs as [Hs _]; rewrite (Hs eq_refl); lia
             | reflexivity]. }
  assert (Hb : 0 <= b2z r * 2 ^ k + t < 2 ^ (k + 1)) by (destruct r; cbn [b2z]; nia).
  destruct m' as [|[p|p|]|p]; cbn [shr_1]; unfold shr_inv;
    cbn [shr_m shr_r shr_s]; try lia.
  - split; [lia|]. exists (b2z r * 2 ^ k + t). split; [exact Hb|].
    split; [cbn [b2z]; rewrite HN1, E; set (N := 2 ^ k); lia | exact Hor].
  - split; [lia|]. exists (b2z r * 2 ^ k + t). split; [exact Hb|].
    split; [cbn [b2z]; rewrite HN1, E, Pos2Z.inj_xI; set (N := 2 ^ k); lia | exact Hor].
  - split; [lia|]. exists (b2z r * 2 ^ k + t). split; [exact Hb|].
    split; [cbn [b2z]; rewrite HN1, E, Pos2Z.inj_xO; set (N := 2 ^ k); lia | exact Hor].
  - split; [lia|]. exists (b2z r * 2 ^ k + t). split; [exact Hb|].
    split; [cbn [b2z]; rewrite HN1, E; set (N := 2 ^ k); lia | exact Hor].
Qed.

Lemma iter_pos_shr_inv m n : forall k mrs,
  0 <= k -> shr_inv m k mrs -> shr_inv m (k + Zpos n) (SpecFloat.iter_pos shr_1 n mrs).
Proof.
  induction n as [n IH|n IH|]; intros k mrs Hk H; cbn [SpecFloat.iter_pos].
  - replace (k + Z.pos n~1) with (((k + 1) + Z.pos n) + Z.pos n) by lia.
    apply IH; [lia|]. apply IH; [lia|]. now apply shr_1_inv.
  - replace (k + Z.pos n~0) with ((k + Z.pos n) + Z.pos n) by lia.
    apply IH; [lia|]. now apply IH.
  - now apply shr_1_inv.
Qed.

Lemma shr_inv_start m : 0 <= m -> shr_inv m 0 (shr_record_of_loc m loc_Exact).
Proof.
  intros Hm. split; [exact Hm|]. exists 0. cbn. split; [lia|]. split; [lia|].
  split; reflexivity.
Qed.

(** Rounding a shift record to nearest even gives a nearest integer to
    the number shifted, the even one at a tie. *)
Lemma rne_near m k mrs :
  0 <= k -> shr_inv m k mrs ->
  nearZ (round_nearest_even (shr_m mrs) (loc_of_shr_record mrs)) m (2 ^ k)
  /\ 0 <= round_nearest_even (shr_m mrs) (loc_of_shr_record mrs).
Proof.
  intros Hk [Hm [t [Ht [E Hs]]]].
  assert (HN : 0 < 2 ^ k) by (apply Z.pow_pos_nonneg; lia).
  destruct mrs as [q r s]. cbn [shr_m shr_r shr_s] in *.
  unfold nearZ.
  destruct r, s; cbn [loc_of_shr_record round_nearest_even b2z] in *.
  - assert (t <> 0) by (intros H0; apply Hs in H0; discriminate).
    split; [|lia]. split; [nia|]. intros [H1|H1]; exfalso; nia.
  - assert (t = 0) by (apply Hs; reflexivity). subst t.
    destruct (Z.even q) eqn:Hev.
    + split; [|lia]. split; [nia|]. intros _. exact Hev.
    + split; [|lia]. split; [nia|]. intros _.
      replace (q + 1) with (Z.succ q) by lia.
      rewrite Z.even_succ, <- Z.negb_even, Hev. reflexivity.
  - assert (t <> 0) by (intros H0; apply Hs in H0; discriminate).
    split; [|lia]. split; [nia|]. intros [H1|H1]; exfalso; nia.
  - assert (t = 0) by (apply Hs; reflexivity). subst t.
    split; [|lia]. split; [nia|]. intros [H1|H1]; exfalso; nia.
Qed.

Lemma nearZ_nearQ R m n e :
  0 <= n -> nearZ R m (2 ^ n) -> nearQ R (dy m e) (e + n).
Proof.
  intros Hn [[Hl Hu] Ht]. unfold nearQ, dy.
  pose proof (pw_pos e) as He.
  assert (Hc : forall z, (inject_Z z * pw (e + n) == inject_Z (z * 2 ^ n) * pw e)%Q).
  { intros z. rewrite pw_add, (pw_Z n) by exact Hn. rewrite inject_Z_mult. ring. }
  assert (Hv : (2 * (inject_Z m * pw e) == inject_Z (2 * m) * pw e)%Q).
  { rewrite inject_Z_mult. ring. }
  rewrite !Hc, Hv. split; [split|].
  - apply Qmult_le_compat_r; [|lra]. rewrite <- Zle_Qle. exact Hl.
  - apply Qmult_le_compat_r; [|lra]. rewrite <- Zle_Qle. exact Hu.
  - intros [H|H]; apply Ht; [left | right];
      apply Qmult_inj_r in H; try lra; rewrite inject_Z_injective in H; exact H.
Qed.

Section RoundAux.
Variables prec emax : Z.
Hypothesis Hprec : 0 < prec.

Lemma fexp_ge_emin e : emin prec emax <= fexp prec emax e.
Proof. unfold fexp. lia. Qed.

Lemma pow2_pos k : 0 <= k -> 0 < 2 ^ k.
Proof. intros. apply Z.pow_pos_nonneg; lia. Qed.

(** [binary_round_aux] on a number at or below the exponent of the format:
    the mantissa is a nearest integer at the exponent of the format, of
    full length in the range of the normal numbers. *)
Lemma binary_round_aux_spec (m : positive) (e : Z) :
  e <= fexp prec emax (Zpos (digits2_pos m) + e) ->
  exists R,
    0 <= R <= 2 ^ prec
    /\ nearQ R (dy (Zpos m) e) (fexp prec emax (Zpos (digits2_pos m) + e))
    /\ (fexp prec emax (Zpos (digits2_pos m) + e)
        = Zpos (digits2_pos m) + e - prec -> 2 ^ (prec - 1) <= R)
    /\ binary_round_aux prec emax false (Zpos m) e loc_Exact
       = rounded prec emax R (fexp prec emax (Zpos (digits2_pos m) + e)).
Proof.
  intros Hec.
  pose proof (digits2_pos_bounds m) as [Hdl Hdu].
  set (d := Zpos (digits2_pos m)) in *.
  set (c := fexp prec emax (d + e)) in *.
  assert (Hcmin : emin prec emax <= c) by apply fexp_ge_emin.
  assert (Hcd : d + e - prec <= c) by (unfold c, fexp; lia).
  assert (Hd : 1 <= d) by (unfold d; lia).
  unfold binary_round_aux, shr_fexp. cbn [Zdigits2]. fold d. fold c.
  set (n := c - e). assert (Hn : 0 <= n) by (unfold n; lia).
  assert (Hshr : exists mrs,
             shr (shr_record_of_loc (Zpos m) loc_Exact) e n = (mrs, c)
             /\ shr_inv (Zpos m) n mrs).
  { destruct n as [|pn|pn] eqn:En; [| |lia].
    - exists (shr_record_of_loc (Zpos m) loc_Exact). split.
      + cbn [shr]. f_equal. lia.
      + apply shr_inv_start. lia.
    - exists (SpecFloat.iter_pos shr_1 pn (shr_record_of_loc (Zpos m) loc_Exact)).
      split.
      + cbn [shr]. f_equal. lia.
      + apply (iter_pos_shr_inv (Zpos m) pn 0); [lia|]. apply shr_inv_start. lia. }
  destruct Hshr as [mrs [Hshr Hinv]]. rewrite Hshr.
  destruct (rne_near (Zpos m) n mrs Hn Hinv) as [Hnear HR0].
  set (R := round_nearest_even (shr_m mrs) (loc_of_shr_record mrs)) in *.
  assert (HN : 0 < 2 ^ n) by (apply pow2_pos; exact Hn).
  assert (HP : 0 < 2 ^ prec) by (apply pow2_pos; lia).
  assert (HP1 : 2 ^ prec = 2 * 2 ^ (prec - 1)).
  { replace prec with (Z.succ (prec - 1)) at 1 by lia.
    rewrite Z.pow_succ_r by lia. reflexivity. }
  assert (HRu : R <= 2 ^ prec).
  { assert (Hdn : 2 ^ d <= 2 ^ n * 2 ^ prec).
    { rewrite <- Z.pow_add_r by lia. apply Z.pow_le_mono_r; lia. }
    destruct Hnear as [[Hl _] _]. set (N := 2 ^ n) in *. set (P := 2 ^ prec) in *.
    nia. }
  assert (HRl : c = d + e - prec -> 2 ^ (prec - 1) <= R).
  { intros Hnorm. assert (Hdn : 2 ^ (d - 1) = 2 ^ n * 2 ^ (prec - 1)).
    { rewrite <- Z.pow_add_r by lia. f_equal. lia. }
    destruct Hnear as [[_ Hu] _]. set (N := 2 ^ n) in *.
    set (P := 2 ^ (prec - 1)) in *. nia. }
  exists R. split; [lia|]. split.
  { replace c with (e + n) by (unfold n; lia). apply nearZ_nearQ; assumption. }
  split; [exact HRl|].
  unfold rounded.
  destruct (Z.eqb_spec R 0) as [HR|HR].
  - rewrite HR. cbn [Zdigits2]. 
    assert (Hn2 : fexp prec emax (0 + c) - c <= 0) by (unfold fexp; lia).
    destruct (fexp prec emax (0 + c) - c) as [|p2|p2] eqn:E2; [| lia |];
      cbn [shr shr_record_of_loc shr_m]; reflexivity.
  - destruct R as [|r|r] eqn:ER; [lia | | lia].
    cbn [Zdigits2].
    pose proof (digits2_pos_bounds r) as [Hrl Hru].
    set (dR := Zpos (digits2_pos r)) in *.
    assert (HdR : 1 <= dR) by (unfold dR; lia).
    destruct (Z.eqb_spec (Zpos r) (2 ^ prec)) as [Htop|Htop].
    + assert (HdRe : dR = prec + 1).
      { rewrite Htop in Hrl, Hru.
        apply Z.pow_le_mono_r_iff in Hrl; [|lia|lia].
        apply Z.pow_lt_mono_r_iff in Hru; [|lia|lia]. lia. }
      assert (Hn2 : fexp prec emax (dR + c) - c = 1) by (unfold fexp; lia).
      rewrite Hn2. cbn [shr SpecFloat.iter_pos shr_record_of_loc].
      destruct r as [r'|r'|].
      * exfalso. rewrite Pos2Z.inj_xI in Htop. lia.
      * cbn [shr_1 shr_m]. rewrite Pos2Z.inj_xO in Htop.
        assert (Hr' : 2 ^ (prec - 1) = Zpos r') by lia.
        rewrite Hr'. cbn [Z.to_pos]. reflexivity.
      * exfalso. lia.
    + assert (HdRp : dR <= prec).
      { assert (Hlt : 2 ^ (dR - 1) < 2 ^ prec) by lia.
        apply Z.pow_lt_mono_r_iff in Hlt; [|lia|lia]. lia. }
      assert (Hn2 : fexp prec emax (dR + c) - c <= 0) by (unfold fexp; lia).
      destruct (fexp prec emax (dR + c) - c) as [|p2|p2] eqn:E2; [| lia |];
        cbn [shr shr_record_of_loc shr_m Z.to_pos]; reflexivity.
Qed.

End RoundAux.

Lemma float_le_trans x y z :
  float_le x y -> float_le y z -> float_le x z.
Proof.
  destruct x as [sx|[|]| |sx mx ex], y as [sy|[|]| |sy my ey],
    z as [sz|[|]| |sz mz ez]; cbn [float_le]; intros H1 H2;
    try contradiction; try discriminate; try exact I; try reflexivity;
    try exact (Qle_trans _ _ _ H1 H2).
Qed.

Section RoundMonotone.
Variables prec emax : Z.
Hypothesis Hprec : 0 < prec.

Lemma rounded_not_negative R c : not_negative (rounded prec emax R c).
Proof.
  unfold rounded.
  destruct (R =? 0); [exact I|].
  destruct (R =? 2 ^ prec).
  - destruct (c + 1 <=? emax - prec); exact I.
  - destruct (c <=? emax - prec); exact I.
Qed.

Lemma fexp_mono a b : a <= b -> fexp prec emax a <= fexp prec emax b.
Proof. unfold fexp. lia. Qed.

Lemma value_rounded R c :
  0 <= R ->
  match rounded prec emax R c with
  | S754_zero _ | S754_finite _ _ _ => (Binary32.value (rounded prec emax R c) == at_exp R c)%Q
  | _ => True
  end.
Proof.
  intros HR. unfold rounded, at_exp.
  destruct (Z.eqb_spec R 0) as [H0|H0].
  - subst R. cbn [Binary32.value]. ring.
  - destruct (Z.eqb_spec R (2 ^ prec)) as [Ht|Ht].
    + destruct (c + 1 <=? emax - prec); [|exact I].
      cbn [Binary32.value Binary32.signed_mantissa cond_Zopp].
      rewrite Z2Pos.id by (apply pow2_pos; lia).
      fold (pw (c + 1)). rewrite pw_succ, Ht.
      replace prec with (Z.succ (prec - 1)) at 2 by lia.
      rewrite Z.pow_succ_r by lia. rewrite inject_Z_mult. ring.
    + destruct (c <=? emax - prec); [|exact I].
      cbn [Binary32.value Binary32.signed_mantissa cond_Zopp]. rewrite Z2Pos.id by lia. reflexivity.
Qed.

Lemma rounded_cases R c :
  0 < R ->
  (out_exp prec R c <= emax - prec
   /\ exists m, rounded prec emax R c = S754_finite false m (out_exp prec R c))
  \/ (emax - prec < out_exp prec R c
      /\ rounded prec emax R c = S754_infinity false).
Proof.
  intros HR. unfold rounded, out_exp.
  destruct (Z.eqb_spec R 0); [lia|].
  destruct (R =? 2 ^ prec).
  - destruct (Z.leb_spec (c + 1) (emax - prec)); [left | right]; eauto.
  - destruct (Z.leb_spec c (emax - prec)); [left | right]; eauto.
Qed.

(** At one exponent the nearest mantissa grows with the number. *)
Lemma near_same_exp R1 R2 v1 v2 c :
  nearQ R1 v1 c -> nearQ R2 v2 c -> (v1 <= v2)%Q -> R1 <= R2.
Proof.
  intros [[Hl1 Hu1] Ht1] [[Hl2 Hu2] Ht2] Hv.
  pose proof (pw_pos c) as HP.
  assert (Hle : (inject_Z (2 * R1 - 1) * pw c <= inject_Z (2 * R2 + 1) * pw c)%Q) by lra.
  apply Qmult_lt_0_le_reg_r in Hle; [|exact HP].
  rewrite <- Zle_Qle in Hle.
  destruct (Z_le_gt_dec R1 R2) as [|Hgt]; [assumption|exfalso].
  assert (HR : R1 = R2 + 1) by lia. subst R1.
  assert (E : (inject_Z (2 * (R2 + 1) - 1) == inject_Z (2 * R2 + 1))%Q)
    by (rewrite inject_Z_injective; lia).
  rewrite E in Hl1.
  assert (Hev1 : Z.even (R2 + 1) = true).
  { apply Ht1. right. rewrite E. lra. }
  assert (Hev2 : Z.even R2 = true).
  { apply Ht2. left. lra. }
  replace (R2 + 1) with (Z.succ R2) in Hev1 by lia.
  rewrite Z.even_succ, <- Z.negb_even, Hev2 in Hev1. discriminate.
Qed.

(** The float rounded to grows with the number, also from one binade to
    the next and into the overflow. *)
Lemma rounded_mono R1 R2 v1 v2 D1 D2 :
  0 <= R1 <= 2 ^ prec -> 0 <= R2 <= 2 ^ prec ->
  (pw (D1 - 1) <= v1 /\ v1 < pw D1)%Q ->
  (pw (D2 - 1) <= v2 /\ v2 < pw D2)%Q ->
  nearQ R1 v1 (fexp prec emax D1) -> nearQ R2 v2 (fexp prec emax D2) ->
  (fexp prec emax D2 = D2 - prec -> 2 ^ (prec - 1) <= R2) ->
  (v1 <= v2)%Q ->
  float_le (rounded prec emax R1 (fexp prec emax D1))
           (rounded prec emax R2 (fexp prec emax D2)).
Proof.
  intros HR1 HR2 [Hb1l Hb1u] [Hb2l Hb2u] Hn1 Hn2 Hnorm Hv.
  assert (HD : D1 <= D2).
  { assert (Hlt : (pw (D1 - 1) < pw D2)%Q) by lra. apply pw_lt_inv in Hlt. lia. }
  pose proof (fexp_mono D1 D2 HD) as Hc.
  set (c1 := fexp prec emax D1) in *. set (c2 := fexp prec emax D2) in *.
  assert (Hc1 : emin prec emax <= c1) by apply fexp_ge_emin.
  assert (HP : 0 < 2 ^ prec) by (apply pow2_pos; lia).
  (* the values before the range is cut, and the exponents *)
  assert (HU : (at_exp R1 c1 <= at_exp R2 c2)%Q
               /\ (0 < R1 -> out_exp prec R1 c1 <= out_exp prec R2 c2)).
  { destruct (Z.eq_dec c1 c2) as [Heq|Hneq].
    - rewrite <- Heq in *. 
      assert (HR : R1 <= R2) by (eapply near_same_exp; eassumption).
      split.
      + unfold at_exp. apply Qmult_le_compat_r; [|pose proof (pw_pos c1); lra].
        rewrite <- Zle_Qle. exact HR.
      + intros _. unfold out_exp.
        destruct (Z.eqb_spec R1 (2 ^ prec)), (Z.eqb_spec R2 (2 ^ prec)); lia.
    - assert (Hlt : c1 < c2) by lia.
      assert (Hc2 : c2 = D2 - prec) by (unfold c2, fexp in *; lia).
      assert (HDlt : D1 < D2).
      { destruct (Z.eq_dec D1 D2) as [E|E]; [|lia]. exfalso.
        unfold c1, c2 in Hneq. rewrite E in Hneq. lia. }
      specialize (Hnorm Hc2).
      (* the lower value is at most the least number of the upper binade *)
      assert (HU2 : (pw (D2 - 1) <= at_exp R2 c2)%Q).
      { unfold at_exp. replace (D2 - 1) with ((prec - 1) + c2) by lia.
        rewrite pw_add, (pw_Z (prec - 1)) by lia.
        apply Qmult_le_compat_r; [|pose proof (pw_pos c2); lra].
        rewrite <- Zle_Qle. exact Hnorm. }
      assert (HU1 : (at_exp R1 c1 <= pw (D2 - 1))%Q).
      { destruct Hn1 as [[Hl1 _] _]. pose proof (pw_pos c1) as HP1.
        destruct (Z_le_gt_dec c1 D1) as [Hcd|Hcd].
        - (* R1 <= 2^(D1 - c1) *)
          assert (Hlt1 : (inject_Z (2 * R1 - 1) * pw c1
                          < inject_Z (2 * 2 ^ (D1 - c1)) * pw c1)%Q).
          { assert (E1 : (pw D1 == pw (D1 - c1) * pw c1)%Q).
            { rewrite <- pw_add. replace (D1 - c1 + c1) with D1 by lia.
              reflexivity. }
            assert (E2 : (inject_Z (2 * 2 ^ (D1 - c1)) == 2 * pw (D1 - c1))%Q).
            { rewrite inject_Z_mult, (pw_Z (D1 - c1)) by lia. reflexivity. }
            rewrite E2. rewrite E1 in Hb1u. lra. }
          apply Qmult_lt_r in Hlt1; [|exact HP1].
          rewrite <- Zlt_Qlt in Hlt1.
          assert (HRle : R1 <= 2 ^ (D1 - c1)) by lia.
          apply Qle_trans with (pw D1); [|apply pw_le; lia].
          assert (E3 : (pw D1 == inject_Z (2 ^ (D1 - c1)) * pw c1)%Q).
          { rewrite <- (pw_Z (D1 - c1)), <- pw_add by lia.
            replace (D1 - c1 + c1) with D1 by lia. reflexivity. }
          rewrite E3. unfold at_exp.
          apply Qmult_le_compat_r; [|lra]. rewrite <- Zle_Qle. exact HRle.
        - (* R1 <= 1 *)
          assert (Hlt0 : (pw D1 < pw c1)%Q) by (apply pw_lt; lia).
          assert (Hlt1 : (inject_Z (2 * R1 - 1) * pw c1 < inject_Z 2 * pw c1)%Q).
          { change (inject_Z 2) with 2%Q. lra. }
          apply Qmult_lt_r in Hlt1; [|exact HP1].
          rewrite <- Zlt_Qlt in Hlt1.
          assert (HRle : R1 <= 1) by lia.
          apply Qle_trans with (pw c1); [|apply pw_le; lia].
          unfold at_exp. rewrite <- (Qmult_1_l (pw c1)) at 2.
          apply Qmult_le_compat_r; [|lra].
          change 1%Q with (inject_Z 1). rewrite <- Zle_Qle. exact HRle. }
      split; [lra|].
      intros _. unfold out_exp.
      destruct (Z.eqb_spec R1 (2 ^ prec)), (Z.eqb_spec R2 (2 ^ prec)); lia. }
  destruct HU as [HU HE].
  pose proof (value_rounded R1 c1 (proj1 HR1)) as Hf1.
  pose proof (value_rounded R2 c2 (proj1 HR2)) as Hf2.
  destruct (Z.eq_dec R1 0) as [H10|H10].
  - (* the lower one is zero *)
    pose proof (rounded_not_negative R2 c2) as Hnn.
    assert (E1 : rounded prec emax R1 c1 = S754_zero false)
      by (unfold rounded; rewrite H10; reflexivity).
    rewrite E1 in *.
    destruct (rounded prec emax R2 c2) as [s2|[|]| |[|] m2 e2];
      cbn [not_negative float_le] in *; try contradiction; try reflexivity.
    + cbn [Binary32.value]. lra.
    + rewrite Hf2. cbn [Binary32.value]. unfold at_exp.
      apply Qmult_le_0_compat; [|pose proof (pw_pos c2); lra].
      change 0%Q with (inject_Z 0). rewrite <- Zle_Qle. lia.
  - assert (H1pos : 0 < R1) by lia.
    assert (H2pos : 0 < R2).
    { destruct (Z.eq_dec R2 0) as [H20|H20]; [|lia]. exfalso.
      subst R2. unfold at_exp in HU.
      assert (0 < inject_Z R1 * pw c1)%Q.
      { apply Qmult_lt_0_compat; [|apply pw_pos].
        change 0%Q with (inject_Z 0). rewrite <- Zlt_Qlt. exact H1pos. }
      assert (inject_Z 0 * pw c2 == 0)%Q by ring. lra. }
    specialize (HE H1pos).
    destruct (rounded_cases R2 c2 H2pos) as [[Hr2 [m2 E2]]|[Hr2 E2]].
    + destruct (rounded_cases R1 c1 H1pos) as [[Hr1 [m1 E1]]|[Hr1 E1]]; [|lia].
      rewrite E1, E2 in *. cbn [float_le]. rewrite Hf1, Hf2. exact HU.
    + rewrite E2.
      pose proof (rounded_not_negative R1 c1) as Hnn.
      destruct (rounded prec emax R1 c1) as [s1|[|]| |[|] m1 e1];
        cbn [not_negative float_le] in *; try contradiction; reflexivity || exact I.
Qed.

Lemma binary_round_aux_mono (m1 m2 : positive) (e1 e2 : Z) :
  e1 <= fexp prec emax (Zpos (digits2_pos m1) + e1) ->
  e2 <= fexp prec emax (Zpos (digits2_pos m2) + e2) ->
  (dy (Zpos m1) e1 <= dy (Zpos m2) e2)%Q ->
  float_le (binary_round_aux prec emax false (Zpos m1) e1 loc_Exact)
           (binary_round_aux prec emax false (Zpos m2) e2 loc_Exact).
Proof.
  intros H1 H2 Hv.
  destruct (binary_round_aux_spec prec emax Hprec m1 e1 H1)
    as [R1 [HR1 [Hn1 [_ E1]]]].
  destruct (binary_round_aux_spec prec emax Hprec m2 e2 H2)
    as [R2 [HR2 [Hn2 [Hnorm2 E2]]]].
  rewrite E1, E2.
  apply (rounded_mono R1 R2 (dy (Zpos m1) e1) (dy (Zpos m2) e2)); try assumption.
  - apply dy_binade.
  - apply dy_binade.
Qed.

End RoundMonotone.

Lemma iter_xO_value (m d : positive) :
  Zpos (Pos.iter xO m d) = Zpos m * 2 ^ Zpos d.
Proof.
  induction d as [|d IH] using Pos.peano_ind.
  - cbn [Pos.iter]. rewrite Pos2Z.inj_xO. change (2 ^ 1) with 2. lia.
  - rewrite Pos.iter_succ, Pos2Z.inj_xO, IH, Pos2Z.inj_succ.
    rewrite Z.pow_succ_r by lia. lia.
Qed.

Lemma iter_xO_digits (m d : positive) :
  Zpos (digits2_pos (Pos.iter xO m d)) = Zpos (digits2_pos m) + Zpos d.
Proof.
  induction d as [|d IH] using Pos.peano_ind.
  - cbn [Pos.iter digits2_pos]. lia.
  - rewrite Pos.iter_succ. cbn [digits2_pos].
    rewrite Pos2Z.inj_succ, IH. lia.
Qed.

Section RoundToFormat.
Variables prec emax : Z.
Hypothesis Hprec : 0 < prec.

(** [binary_round] brings the exponent down to the one of the format, then
    rounds. *)
Lemma binary_round_as_aux (m : positive) (e : Z) :
  exists m' e',
    binary_round prec emax false m e
    = binary_round_aux prec emax false (Zpos m') e' loc_Exact
    /\ (dy (Zpos m') e' == dy (Zpos m) e)%Q
    /\ Zpos (digits2_pos m') + e' = Zpos (digits2_pos m) + e
    /\ e' <= fexp prec emax (Zpos (digits2_pos m') + e').
Proof.
  unfold binary_round, shl_align.
  set (c := fexp prec emax (Zpos (digits2_pos m) + e)).
  destruct (c - e) as [|p|p] eqn:E.
  - exists m, e. split; [reflexivity|]. split; [reflexivity|].
    split; [reflexivity|]. fold c. lia.
  - exists m, e. split; [reflexivity|]. split; [reflexivity|].
    split; [reflexivity|]. fold c. lia.
  - exists (Pos.iter xO m p), c. split; [reflexivity|].
    assert (He : e = c + Zpos p) by lia.
    split; [|split].
    + unfold dy. rewrite iter_xO_value, inject_Z_mult.
      rewrite <- (pw_Z (Zpos p)) by lia.
      assert (Epw : (pw e == pw c * pw (Zpos p))%Q).
      { rewrite <- pw_add. replace (c + Zpos p) with e by lia. reflexivity. }
      rewrite Epw. ring.
    + rewrite iter_xO_digits. lia.
    + rewrite iter_xO_digits.
      replace (Z.pos (digits2_pos m) + Z.pos p + c)
        with (Zpos (digits2_pos m) + e) by lia.
      fold c. lia.
Qed.

(** Rounding to a format is monotone on positive numbers. *)
Lemma binary_round_mono (m1 m2 : positive) (e1 e2 : Z) :
  (dy (Zpos m1) e1 <= dy (Zpos m2) e2)%Q ->
  float_le (binary_round prec emax false m1 e1)
           (binary_round prec emax false m2 e2).
Proof.
  intros Hv.
  destruct (binary_round_as_aux m1 e1) as [m1' [e1' [E1 [V1 [_ H1]]]]].
  destruct (binary_round_as_aux m2 e2) as [m2' [e2' [E2 [V2 [_ H2]]]]].
  rewrite E1, E2. apply binary_round_aux_mono; try assumption.
  rewrite V1, V2. exact Hv.
Qed.

Lemma binary_round_aux_not_negative (m : positive) (e : Z) :
  e <= fexp prec emax (Zpos (digits2_pos m) + e) ->
  not_negative (binary_round_aux prec emax false (Zpos m) e loc_Exact).
Proof.
  intros H. destruct (binary_round_aux_spec prec emax Hprec m e H)
    as [R [_ [_ [_ E]]]].
  rewrite E. apply rounded_not_negative.
Qed.

Lemma binary_round_not_negative (m : positive) (e : Z) :
  not_negative (binary_round prec emax false m e).
Proof.
  destruct (binary_round_as_aux m e) as [m' [e' [E [_ [_ H]]]]].
  rewrite E. now apply binary_round_aux_not_negative.
Qed.

(** A number in the range of the normal numbers is rounded to a mantissa
    of full length. *)
Lemma binary_round_aux_normal (m : positive) (e : Z) :
  e <= fexp prec emax (Zpos (digits2_pos m) + e) ->
  emin prec emax <= Zpos (digits2_pos m) + e - prec ->
  binary_round_aux prec emax false (Zpos m) e loc_Exact = S754_infinity false
  \/ exists m' e',
       binary_round_aux prec emax false (Zpos m) e loc_Exact
       = S754_finite false m' e'
       /\ 2 ^ (prec - 1) <= Zpos m'.
Proof.
  intros H Hnorm.
  destruct (binary_round_aux_spec prec emax Hprec m e H)
    as [R [HR [_ [Hl E]]]].
  assert (Hc : fexp prec emax (Zpos (digits2_pos m) + e)
               = Zpos (digits2_pos m) + e - prec) by (unfold fexp; lia).
  specialize (Hl Hc). rewrite E. unfold rounded.
  assert (HP : 0 < 2 ^ (prec - 1)) by (apply pow2_pos; lia).
  destruct (Z.eqb_spec R 0); [lia|].
  destruct (R =? 2 ^ prec).
  - destruct (_ <=? _); [right | left; reflexivity].
    eexists. eexists. split; [reflexivity|]. rewrite Z2Pos.id by lia. lia.
  - destruct (_ <=? _); [right | left; reflexivity].
    eexists. eexists. split; [reflexivity|]. rewrite Z2Pos.id by lia. lia.
Qed.

Lemma binary_round_normal (m : positive) (e : Z) :
  emin prec emax <= Zpos (digits2_pos m) + e - prec ->
  binary_round prec emax false m e = S754_infinity false
  \/ exists m' e',
       binary_round prec emax false m e = S754_finite false m' e'
       /\ 2 ^ (prec - 1) <= Zpos m'.
Proof.
  intros Hnorm.
  destruct (binary_round_as_aux m e) as [m1 [e1 [E [_ [HD H]]]]].
  rewrite E. apply binary_round_aux_normal; [exact H | lia].
Qed.

End RoundToFormat.

Lemma dy_pos (m : positive) e : (0 < dy (Zpos m) e)%Q.
Proof.
  unfold dy. apply Qmult_lt_0_compat; [|apply pw_pos].
  change 0%Q with (inject_Z 0). rewrite <- Zlt_Qlt. lia.
Qed.

Lemma dy_mul (a b : positive) (e1 e2 : Z) :
  (dy (Zpos (a * b)) (e1 + e2) == dy (Zpos a) e1 * dy (Zpos b) e2)%Q.
Proof.
  unfold dy. rewrite Pos2Z.inj_mul, inject_Z_mult, pw_add. ring.
Qed.

Lemma float_le_refl x : not_negative x -> float_le x x.
Proof.
  destruct x as [[|]|[|]| |[|] m e]; cbn [not_negative float_le];
    intros H; try contradiction; try exact I; apply Qle_refl.
Qed.

Lemma zero_le_not_negative y :
  not_negative y -> float_le (S754_zero false) y.
Proof.
  destruct y as [[|]|[|]| |[|] m e]; cbn [not_negative float_le];
    intros H; try contradiction; try reflexivity.
  - apply Qle_refl.
  - cbn [Binary32.value Binary32.signed_mantissa cond_Zopp].
    pose proof (dy_pos m e) as Hp. unfold dy, pw in Hp.
    apply Qlt_le_weak. exact Hp.
Qed.

Lemma not_negative_le_infinity x :
  not_negative x -> float_le x (S754_infinity false).
Proof.
  destruct x as [[|]|[|]| |[|] m e]; cbn [not_negative float_le];
    intros H; try contradiction; try reflexivity; exact I.
Qed.

(** The store of a double into a float is monotone. *)
Lemma round_to_mono p em x y :
  0 < p -> not_negative x -> not_negative y -> float_le x y ->
  float_le (Binary32.round_to p em x) (Binary32.round_to p em y).
Proof.
  intros Hp Hx Hy Hle.
  destruct x as [[|]|[|]| |[|] mx ex]; cbn [not_negative] in Hx;
    try contradiction; cbn [Binary32.round_to].
  - destruct y as [[|]|[|]| |[|] my ey]; cbn [not_negative] in Hy;
      try contradiction; cbn [Binary32.round_to]; try exact Hle.
    apply zero_le_not_negative. now apply binary_round_not_negative.
  - destruct y as [[|]|[|]| |[|] my ey]; cbn [not_negative float_le] in Hy, Hle;
      try contradiction; cbn [Binary32.round_to]; exact I.
  - destruct y as [[|]|[|]| |[|] my ey]; cbn [not_negative] in Hy;
      try contradiction; cbn [Binary32.round_to].
    + exfalso. cbn [float_le Binary32.value Binary32.signed_mantissa cond_Zopp] in Hle.
      pose proof (dy_pos mx ex) as Hpos. unfold dy, pw in Hpos. lra.
    + apply not_negative_le_infinity. now apply binary_round_not_negative.
    + apply binary_round_mono; [exact Hp|]. exact Hle.
Qed.

Section Scaling.
Variables (mS : positive) (eS : Z) (mf : positive) (ef : Z).
Hypothesis Hf : (1 <= dy (Zpos mf) ef)%Q.

Local Abbreviation size := (S754_finite false mS eS).
Local Abbreviation factor := (S754_finite false mf ef).

(** [std::pow(f, level)] is the exact power, rounded once. *)
Lemma pow64_form (level : nat) :
  exists a b,
    Binary32.pow64 factor level = binary_round 53 1024 false a b
    /\ (dy (Zpos a) b == dy (Zpos mf) ef ^ Z.of_nat level)%Q.
Proof.
  destruct level as [|l].
  - exists 1%positive, 0. split; reflexivity.
  - exists (mf ^ Pos.of_nat (S l))%positive, (ef * Z.of_nat (S l)).
    split; [reflexivity|].
    unfold dy. rewrite Pos2Z.inj_pow.
    assert (E : Zpos (Pos.of_nat (S l)) = Z.of_nat (S l)) by lia.
    rewrite E. set (n := Z.of_nat (S l)).
    assert (Hn : 0 <= n) by (unfold n; lia).
    rewrite Zpower_Qpower by exact Hn.
    rewrite Qmult_power. unfold pw. rewrite Qpower_mult. reflexivity.
Qed.

Lemma pow64_mono (level : nat) :
  float_le (Binary32.pow64 factor level) (Binary32.pow64 factor (S level)).
Proof.
  destruct (pow64_form level) as [a1 [b1 [E1 V1]]].
  destruct (pow64_form (S level)) as [a2 [b2 [E2 V2]]].
  rewrite E1, E2. apply binary_round_mono; [lia|].
  rewrite V1, V2. apply Qpower_le_compat_l; [lia | exact Hf].
Qed.

(** A power of a number not below 1 is a normal number or overflows. *)
Lemma pow64_shape (level : nat) :
  Binary32.pow64 factor level = S754_infinity false
  \/ exists m e,
       Binary32.pow64 factor level = S754_finite false m e /\ 2 ^ 52 <= Zpos m.
Proof.
  destruct (pow64_form level) as [a [b [E V]]]. rewrite E.
  apply (binary_round_normal 53 1024); [lia|].
  pose proof (dy_binade a b) as [_ Hu].
  assert (H1 : (1 <= dy (Zpos a) b)%Q).
  { rewrite V. apply Qpower_1_le; [exact Hf | lia]. }
  assert (Hlt : (pw 0 < pw (Zpos (digits2_pos a) + b))%Q).
  { rewrite pw_0. lra. }
  apply pw_lt_inv in Hlt. unfold emin. lia.
Qed.

Lemma mul64_precondition (m : positive) (e : Z) :
  2 ^ 52 <= Zpos m ->
  eS + e <= fexp 53 1024 (Zpos (digits2_pos (mS * m)) + (eS + e)).
Proof.
  intros Hm. pose proof (digits2_pos_bounds (mS * m)) as [_ Hu].
  assert (Hlt : 2 ^ 52 < 2 ^ Zpos (digits2_pos (mS * m))).
  { rewrite Pos2Z.inj_mul in Hu. nia. }
  apply Z.pow_lt_mono_r_iff in Hlt; [|lia|lia].
  unfold fexp. lia.
Qed.

Lemma mul64_not_negative (level : nat) :
  not_negative (SFmul 53 1024 size (Binary32.pow64 factor level)).
Proof.
  destruct (pow64_shape level) as [E|[m [e [E Hm]]]]; rewrite E.
  - exact I.
  - cbn [SFmul xorb].
    apply (binary_round_aux_not_negative 53 1024); [lia|].
    now apply mul64_precondition.
Qed.

(** The product in double precision grows with the level. *)
Lemma mul64_mono (level : nat) :
  float_le (SFmul 53 1024 size (Binary32.pow64 factor level))
           (SFmul 53 1024 size (Binary32.pow64 factor (S level))).
Proof.
  pose proof (pow64_mono level) as Hle.
  pose proof (mul64_not_negative level) as Hnn.
  destruct (pow64_shape (S level)) as [E2|[m2 [e2 [E2 Hm2]]]];
    rewrite E2 in *.
  - cbn [SFmul xorb]. now apply not_negative_le_infinity.
  - destruct (pow64_shape level) as [E1|[m1 [e1 [E1 Hm1]]]]; rewrite E1 in *.
    + cbn [float_le] in Hle. contradiction.
    + cbn [SFmul xorb].
      apply (binary_round_aux_mono 53 1024); [lia | | |].
      * now apply mul64_precondition.
      * now apply mul64_precondition.
      * rewrite !dy_mul. cbn [float_le] in Hle.
        apply Qmult_le_l; [apply dy_pos|]. exact Hle.
Qed.

Lemma mul_pow_step (level : nat) :
  float_le (Binary32.mul_pow size factor level)
           (Binary32.mul_pow size factor (S level)).
Proof.
  unfold Binary32.mul_pow. apply round_to_mono.
  - reflexivity.
  - apply mul64_not_negative.
  - apply mul64_not_negative.
  - apply mul64_mono.
Qed.

Lemma mul_pow_not_negative (level : nat) :
  not_negative (Binary32.mul_pow size factor level).
Proof.
  unfold Binary32.mul_pow.
  pose proof (mul64_not_negative level) as Hnn.
  destruct (SFmul 53 1024 size (Binary32.pow64 factor level)) as [[|]|[|]| |[|] m e];
    cbn [not_negative] in Hnn; try contradiction; cbn [Binary32.round_to];
    try exact I.
  apply binary_round_not_negative. reflexivity.
Qed.

(** The width stored grows with the level. *)
Lemma mul_pow_mono (i j : nat) :
  (i <= j)%nat ->
  float_le (Binary32.mul_pow size factor i) (Binary32.mul_pow size factor j).
Proof.
  induction 1 as [|j Hij IH].
  - apply float_le_refl, mul_pow_not_negative.
  - eapply float_le_trans; [exact IH | apply mul_pow_step].
Qed.

End Scaling.

(** *** The widths of the stages *)

Lemma float_le_finite x y :
  not_negative x -> float_le x y -> is_finite y = true ->
  (Binary32.value x <= Binary32.value y)%Q.
Proof.
  destruct x as [[|]|[|]| |[|] mx ex]; cbn [not_negative]; intros Hx;
    try contradiction;
    destruct y as [sy|[|]| |sy my ey]; cbn [float_le is_finite];
    intros Hle Hfin; try contradiction; try discriminate; exact Hle.
Qed.

(** C8, as the code has it.  The vector of stage widths holds at every
    level below L the float that [S * std::pow(f, level)] is stored as:
    the power and the product are taken in double precision, [std::pow]
    rounding correctly, and the store rounds to float.  When S is a positive finite float and f a finite
    float not below 1, the vector is non-decreasing in the level, a width
    that overflows being +infinity; between finite widths the values
    denoted are in order. *)
Theorem buffer_widths_geometric
  (circuit_lib : CircuitLibrary Binary32.float) (circuit_model : CircuitModelId) :
  build_buffer_widths circuit_lib circuit_model
  = map (Binary32.mul_pow (buffer_size circuit_lib circuit_model)
                          (buffer_f_per_stage circuit_lib circuit_model))
        (seq 0 (buffer_num_levels circuit_lib circuit_model))
  /\ (forall mS eS mf ef,
        buffer_size circuit_lib circuit_model = S754_finite false mS eS ->
        buffer_f_per_stage circuit_lib circuit_model = S754_finite false mf ef ->
        (1 <= Binary32.value (buffer_f_per_stage circuit_lib circuit_model))%Q ->
        forall i j,
          (i <= j)%nat -> (j < buffer_num_levels circuit_lib circuit_model)%nat ->
          float_le
            (nth i (build_buffer_widths circuit_lib circuit_model) Binary32.one)
            (nth j (build_buffer_widths circuit_lib circuit_model) Binary32.one)
          /\ (is_finite
                (nth j (build_buffer_widths circuit_lib circuit_model)
                     Binary32.one) = true ->
              (Binary32.value
                 (nth i (build_buffer_widths circuit_lib circuit_model)
                      Binary32.one)
               <= Binary32.value
                    (nth j (build_buffer_widths circuit_lib circuit_model)
                         Binary32.one))%Q)).
Proof.
  split; [rewrite (build_buffer_widths_map circuit_lib circuit_model); reflexivity|].
  intros mS eS mf ef HS Hf H1 i j Hij Hj.
  assert (Hnth : forall n,
            (n < buffer_num_levels circuit_lib circuit_model)%nat ->
            nth n (build_buffer_widths circuit_lib circuit_model) Binary32.one
            = Binary32.mul_pow (buffer_size circuit_lib circuit_model)
                (buffer_f_per_stage circuit_lib circuit_model) n).
  { intros n Hn.
    rewrite (build_buffer_widths_map circuit_lib circuit_model).
    rewrite (nth_indep _ Binary32.one
               (f_mul_pow (buffer_size circuit_lib circuit_model)
                  (buffer_f_per_stage circuit_lib circuit_model) 0%nat))
      by (rewrite length_map, length_seq; exact Hn).
    rewrite List.map_nth, seq_nth by exact Hn. reflexivity. }
  rewrite (Hnth i) by lia. rewrite (Hnth j) by exact Hj.
  rewrite Hf in H1. rewrite HS, Hf.
  pose proof (mul_pow_mono mS eS mf ef H1 i j Hij) as Hle.
  split; [exact Hle|].
  intros Hfin. apply float_le_finite; [|exact Hle | exact Hfin].
  apply mul_pow_not_negative. exact H1.
Qed.

(** The example of the design document: S = 1, f = 4, L = 3. *)
Lemma buffer_widths_geometric_witness :
  build_buffer_widths (Demo.buffer_lib (Demo.f32 1 1) (Demo.f32 4 1) 3) 0%nat
  = [Demo.f32 1 1; Demo.f32 4 1; Demo.f32 16 1]
  /\ (1 <= Binary32.value (Demo.f32 4 1))%Q
  /\ forall i j, (i <= j)%nat -> (j < 3)%nat ->
       float_le
         (nth i (build_buffer_widths
                   (Demo.buffer_lib (Demo.f32 1 1) (Demo.f32 4 1) 3) 0%nat)
              Binary32.one)
         (nth j (build_buffer_widths
                   (Demo.buffer_lib (Demo.f32 1 1) (Demo.f32 4 1) 3) 0%nat)
              Binary32.one).
Proof.
  split; [vm_compute; reflexivity|]. split; [vm_compute; discriminate|].
  intros i j Hij Hj.
  exact (proj1 (proj2 (buffer_widths_geometric
                         (Demo.buffer_lib (Demo.f32 1 1) (Demo.f32 4 1) 3) 0%nat)
                  8388608%positive (-23) 8388608%positive (-21)
                  eq_refl eq_refl ltac:(vm_compute; discriminate)
                  i j Hij Hj)).
Defined.

(** C8, counterexample.  In the arithmetic of the code, three buffers
    with f >= 1.  Base size -1, f = 2, two levels: the widths are -1 and
    -2, a decreasing list.  Base size 0.1f, f = 3: the width of level 1 is
    not the product of the base size and f, the store rounds it.  Base
    size 0, f = 2^100, twelve levels: the power of level 11 overflows and
    the width is a NaN, which is in no order with the widths before it. *)
Lemma buffer_widths_decrease_counterexample :
  ((1 <= Binary32.value (Demo.f32 2 1))%Q
   /\ build_buffer_widths
        (Demo.buffer_lib (Demo.f32 (-1) 1) (Demo.f32 2 1) 2) 0%nat
      = [Demo.f32 (-1) 1; Demo.f32 (-2) 1]
   /\ ~ float_le
          (nth 0 (build_buffer_widths
                    (Demo.buffer_lib (Demo.f32 (-1) 1) (Demo.f32 2 1) 2) 0%nat)
               Binary32.one)
          (nth 1 (build_buffer_widths
                    (Demo.buffer_lib (Demo.f32 (-1) 1) (Demo.f32 2 1) 2) 0%nat)
               Binary32.one))
  /\ ((1 <= Binary32.value (Demo.f32 3 1))%Q
      /\ nth 1 (build_buffer_widths
                  (Demo.buffer_lib (Demo.f32 1 10) (Demo.f32 3 1) 2) 0%nat)
             Binary32.one
         = S754_finite false 10066330 (-25)
      /\ ~ (Binary32.value
              (nth 1 (build_buffer_widths
                        (Demo.buffer_lib (Demo.f32 1 10) (Demo.f32 3 1) 2) 0%nat)
                   Binary32.one)
            == Binary32.value (Demo.f32 1 10)
               * Binary32.value (Demo.f32 3 1) ^ 1)%Q)
  /\ ((1 <= Binary32.value (Demo.f32 (2 ^ 100) 1))%Q
      /\ nth 11 (build_buffer_widths
                   (Demo.buffer_lib (Demo.f32 0 1) (Demo.f32 (2 ^ 100) 1) 12)
                   0%nat)
             Binary32.one
         = S754_nan).
Proof.
  split; [|split].
  - split; [vm_compute; discriminate|]. split; [vm_compute; reflexivity|].
    intros Hle. vm_compute in Hle. apply Hle. reflexivity.
  - split; [vm_compute; discriminate|]. split; [vm_compute; reflexivity|].
    intros Heq. vm_compute in Heq. discriminate Heq.
  - split; [vm_compute; discriminate|]. vm_compute. reflexivity.
Qed.

(** ** Width binning *)

(** *** In exact arithmetic the bins are complete *)

Section ExactBinning.
Variables t m : Q.
Hypothesis Ht : (0 < t)%Q.
Hypothesis Hm : (0 < m)%Q.

Local Open Scope Q_scope.

Lemma quotient_pos : 0 < t / m.
Proof. apply Qlt_shift_div_l; [exact Hm | lra]. Qed.

Lemma quotient_times_max : (t / m) * m == t.
Proof. field. lra. Qed.

Lemma floor_bounds :
  inject_Z (Qfloor (t / m)) * m <= t
  /\ t < (inject_Z (Qfloor (t / m)) + 1) * m.
Proof.
  pose proof (Qfloor_le (t / m)) as H1. pose proof (Qlt_floor (t / m)) as H2.
  pose proof quotient_times_max as Hqm.
  rewrite inject_Z_plus in H2. change (inject_Z 1) with 1 in H2.
  remember (t / m) as q eqn:Hq. rewrite <- Hqm. split.
  - apply Qmult_le_compat_r; [exact H1 | lra].
  - apply Qmult_lt_compat_r; [exact Hm | exact H2].
Qed.

Lemma fmod_floor : Exact.fmod t m == t - inject_Z (Qfloor (t / m)) * m.
Proof.
  unfold Exact.fmod, Exact.Qtrunc.
  assert (Hq : Qle_bool 0 (t / m) = true).
  { apply Qle_bool_iff. pose proof quotient_pos. lra. }
  rewrite Hq. reflexivity.
Qed.

Lemma fmod_bounds : 0 <= Exact.fmod t m /\ Exact.fmod t m < m.
Proof.
  pose proof floor_bounds as [H1 H2]. pose proof fmod_floor as Hr.
  split; lra.
Qed.

Lemma fmod_zero_iff :
  Exact.fmod t m == 0 <-> t / m == inject_Z (Qfloor (t / m)).
Proof.
  pose proof fmod_floor as Hr. pose proof quotient_times_max as Hqm.
  remember (t / m) as q eqn:Hq. remember (Exact.fmod t m) as r eqn:Hrdef.
  split; intros Hz.
  - assert (Hp : (q - inject_Z (Qfloor q)) * m == 0) by lra.
    apply Qmult_integral in Hp. destruct Hp as [Hp | Hp]; lra.
  - rewrite Hz in Hqm. lra.
Qed.

(** The ceiling is the floor when the remainder is zero, one more when it
    is not. *)
Lemma ceiling_cases :
  (Qceiling (t / m) = Qfloor (t / m) /\ Exact.fmod t m == 0)
  \/ (Qceiling (t / m) = (Qfloor (t / m) + 1)%Z /\ ~ Exact.fmod t m == 0).
Proof.
  pose proof (Qfloor_le (t / m)) as H1. pose proof (Qlt_floor (t / m)) as H2.
  pose proof (Qle_ceiling (t / m)) as H3.
  pose proof (Qceiling_lt (t / m)) as H4.
  pose proof fmod_zero_iff as Hiff.
  remember (t / m) as q eqn:Hq. remember (Exact.fmod t m) as r eqn:Hrdef.
  unfold Z.sub in H4. rewrite inject_Z_plus in H2, H4.
  change (inject_Z 1) with 1 in H2.
  rewrite inject_Z_opp in H4. change (inject_Z 1) with 1 in H4.
  assert (Hle : (Qfloor q <= Qceiling q)%Z) by (rewrite Zle_Qle; lra).
  assert (Hlt : (Qceiling q < Qfloor q + 2)%Z)
    by (rewrite Zlt_Qlt, inject_Z_plus; change (inject_Z 2) with 2; lra).
  destruct (Qeq_dec r 0) as [Hz | Hnz].
  - left. split; [|exact Hz]. apply Hiff in Hz.
    assert (Hlt2 : (Qceiling q < Qfloor q + 1)%Z)
      by (rewrite Zlt_Qlt, inject_Z_plus; change (inject_Z 1) with 1; lra).
    lia.
  - right. split; [|exact Hnz].
    assert (Hne : Qceiling q <> Qfloor q).
    { intros He. apply Hnz, Hiff. rewrite He in H3. lra. }
    lia.
Qed.

Lemma floor_nonneg : (0 <= Qfloor (t / m))%Z.
Proof.
  pose proof (Qlt_floor (t / m)) as H2. pose proof quotient_pos as Hq.
  assert (Hlt : (0 < Qfloor (t / m) + 1)%Z)
    by (rewrite Zlt_Qlt; exact (Qlt_trans _ _ _ Hq H2)).
  lia.
Qed.

Lemma map_const_seq {A : Type} (g : nat -> A) (c : A) (a n : nat) :
  (forall i, (a <= i < a + n)%nat -> g i = c) ->
  map g (seq a n) = repeat c n.
Proof.
  revert a. induction n as [|n IH]; intros a Hg; [reflexivity|].
  simpl. rewrite (Hg a) by lia. f_equal. apply IH. intros i Hi. apply Hg. lia.
Qed.

Lemma width_sum_repeat (c : Q) (n : nat) :
  width_sum (repeat c n) == inject_Z (Z.of_nat n) * c.
Proof.
  induction n as [|n IH].
  - change (0 == 0 * c). lra.
  - rewrite Nat2Z.inj_succ. unfold Z.succ. rewrite inject_Z_plus.
    change (inject_Z 1) with 1. simpl repeat. simpl width_sum.
    simpl width_sum in IH. rewrite IH. cbn [f_value exact]. lra.
Qed.

Lemma width_sum_snoc (ws : list Q) (w : Q) :
  width_sum (ws ++ [w]) == width_sum ws + w.
Proof.
  induction ws as [|x ws IH]; simpl in *.
  - lra.
  - rewrite IH. lra.
Qed.

(** The bins: floor(t/m) copies of the maximum width, then the remainder
    when it is not zero. *)
Lemma exact_bins_shape :
  bin_widths t m
  = (repeat m (Z.to_nat (Qfloor (t / m)))
     ++ (if Qeq_bool (Exact.fmod t m) 0 then [] else [Exact.fmod t m]))%list.
Proof.
  pose proof floor_nonneg as Hfl.
  unfold bin_widths, bin_indices, curr_bin_width, num_bins, last_bin_width.
  cbn [f_ceil_to_int f_div f_fmod f_neq_zero exact].
  unfold Exact.neq_zero.
  destruct ceiling_cases as [[Hc Hz] | [Hc Hnz]]; rewrite Hc.
  - apply Qeq_bool_iff in Hz. rewrite Hz. rewrite app_nil_r.
    apply map_const_seq. intros i _. now rewrite andb_false_r.
  - assert (Hb : Qeq_bool (Exact.fmod t m) 0 = false).
    { destruct (Qeq_bool (Exact.fmod t m) 0) eqn:Hb; [|reflexivity].
      apply Qeq_bool_iff in Hb. contradiction. }
    rewrite Hb.
    replace (Z.to_nat (Qfloor (t / m) + 1))
      with (S (Z.to_nat (Qfloor (t / m)))) by lia.
    rewrite seq_S, map_app. f_equal.
    + apply map_const_seq. intros i Hi. simpl negb. rewrite andb_true_r.
      destruct (Z.eqb_spec (Z.of_nat i) (Qfloor (t / m) + 1 - 1));
        [lia | reflexivity].
    + cbn [map negb Nat.add]. rewrite andb_true_r.
      destruct (Z.eqb_spec (Z.of_nat (Z.to_nat (Qfloor (t / m))))
                  (Qfloor (t / m) + 1 - 1)); [reflexivity | lia].
Qed.

(** What the design document asks of the binning holds of the algorithm in
    arithmetic without rounding, which is not the arithmetic of the code:
    over the rationals, for a positive total width and a positive maximum
    width, the bins sum to the total width, every bin is positive and at
    most the maximum width, every bin but the last is the maximum width,
    and their number is the ceiling of the quotient. *)
Lemma exact_binning_complete :
  width_sum (bin_widths t m) == t
  /\ List.Forall (fun w => 0 < w /\ w <= m) (bin_widths t m)
  /\ (forall i, (S i < length (bin_widths t m))%nat ->
        nth i (bin_widths t m) 0 = m)
  /\ length (bin_widths t m) = Z.to_nat (Qceiling (t / m)).
Proof.
  pose proof floor_nonneg as Hfl. pose proof fmod_floor as Hr.
  pose proof fmod_bounds as [Hr0 Hrm].
  split; [|split; [|split]].
  - rewrite exact_bins_shape.
    destruct (Qeq_bool (Exact.fmod t m) 0) eqn:Hb.
    + apply Qeq_bool_iff in Hb. rewrite app_nil_r, width_sum_repeat.
      rewrite Z2Nat.id by exact Hfl. lra.
    + rewrite width_sum_snoc, width_sum_repeat.
      rewrite Z2Nat.id by exact Hfl. lra.
  - rewrite exact_bins_shape. apply List.Forall_app. split.
    + apply List.Forall_forall. intros w Hw. apply repeat_spec in Hw. subst w.
      split; lra.
    + destruct (Qeq_bool (Exact.fmod t m) 0) eqn:Hb; constructor; [|constructor].
      split; [|lra].
      destruct (Qeq_dec (Exact.fmod t m) 0) as [Hz|Hnz]; [|lra].
      apply Qeq_bool_iff in Hz. congruence.
  - intros i Hi. rewrite exact_bins_shape in *.
    rewrite List.length_app, List.repeat_length in Hi.
    assert (Hlt : (i < Z.to_nat (Qfloor (t / m)))%nat).
    { destruct (Qeq_bool (Exact.fmod t m) 0); cbn [length] in Hi; lia. }
    rewrite app_nth1 by (rewrite List.repeat_length; exact Hlt).
    apply nth_repeat_lt. exact Hlt.
  - unfold bin_widths, bin_indices.
    rewrite List.length_map, List.length_seq. reflexivity.
Qed.

End ExactBinning.

(** The first example of the design document: 2.5 over 1.0. *)
Example exact_bins_two_and_a_half :
  bin_widths (5 # 2)%Q 1%Q = [1%Q; 1%Q; (1 # 2)%Q].
Proof. reflexivity. Qed.

(** *** In binary32 a bin can be lost *)

(** C1, at the failing input.  The inverter [inv] of the demonstration has
    buffer size 6 over a transistor of minimum width 0.1 and maximum width
    0.2.  Its total NMOS width is the binary32 product 6 * 0.1, a little
    above three times the binary32 number 0.2; the binary32 quotient rounds
    to 3, so the loop runs three times where the exact quotient asks for
    four bins, and the remainder, which is not zero, takes the place of the
    third full bin: the widths are 0.2, 0.2 and 2^-26 and their sum falls
    short of the total width. *)
Theorem binning_drops_a_bin_binary32 :
  total_nmos_width Demo.tech_lib 0%nat (buffer_size Demo.circuit_lib Demo.inv)
  = Demo.nmos_total
  /\ transistor_model_max_width Demo.tech_lib 0%nat TECH_LIB_TRANSISTOR_NMOS
     = Demo.nmos_max
  /\ (0 < f_value Demo.nmos_total)%Q
  /\ (0 < f_value Demo.nmos_max)%Q
  /\ f_div Demo.nmos_total Demo.nmos_max = Demo.f32 3 1
  /\ num_bins Demo.nmos_total Demo.nmos_max = 3
  /\ Qceiling (f_value Demo.nmos_total / f_value Demo.nmos_max) = 4
  /\ bin_widths Demo.nmos_total Demo.nmos_max
     = [Demo.nmos_max; Demo.nmos_max; S754_finite false 8388608 (-49)]
  /\ (width_sum (bin_widths Demo.nmos_total Demo.nmos_max)
      < f_value Demo.nmos_total)%Q
  /\ ~ (width_sum (bin_widths Demo.nmos_total Demo.nmos_max)
        == f_value Demo.nmos_total)%Q.
Proof.
  repeat (split; [vm_compute; reflexivity|]).
  intros Heq. vm_compute in Heq. discriminate Heq.
Qed.

(** ** Nets of the written devices *)

(** C2, at the failing input.  The two-level buffers of the demonstration,
    input port "in", output port "out".  The level loop computes
    "out_level0" as the output name of level 0 and "in_level0" as the input
    name of level 1, but hands the bare port prefixes to the device writers:
    every stage device of every level, in the regular and in the power-gated
    buffer, has drain "out" and gate "in". *)
Theorem buffer_levels_share_nets :
  level_output_port_name Demo.circuit_lib Demo.out_port 0 = "out_level0"
  /\ level_input_port_name Demo.circuit_lib Demo.in_port 1 = "in_level0"
  /\ map name_drain_gate (stage_devices (written Demo.buf_file))
     = [("Xpmos_level0_bin0", "out", "in");
        ("Xnmos_level0_bin0", "out", "in");
        ("Xpmos_level1_bin0", "out", "in");
        ("Xpmos_level1_bin1", "out", "in");
        ("Xpmos_level1_bin2", "out", "in");
        ("Xpmos_level1_bin3", "out", "in");
        ("Xnmos_level1_bin0", "out", "in");
        ("Xnmos_level1_bin1", "out", "in")]
  /\ map name_drain_gate (stage_devices (written Demo.buf_pg_file))
     = [("Xpmos_level0_bin0", "out", "in");
        ("Xnmos_level0_bin0", "out", "in");
        ("Xpmos_level1_bin0", "out", "in");
        ("Xpmos_level1_bin1", "out", "in");
        ("Xpmos_level1_bin2", "out", "in");
        ("Xpmos_level1_bin3", "out", "in");
        ("Xnmos_level1_bin0", "out", "in");
        ("Xnmos_level1_bin1", "out", "in")].
Proof.
  repeat (apply conj; [vm_compute; reflexivity|]). vm_compute; reflexivity.
Qed.

(** C4, at the failing input.  The power-gated inverter of the
    demonstration, enable ports of two pins.  The PMOS stage devices have
    the node of the last pin, "out_pmos_pg_1", as source and LVDD as bulk.
    The NMOS stage device line carries a blank inside the node name, so it
    has eight tokens instead of seven: its source is "out" and its bulk is
    "_nmos_pg_1". *)
Theorem nmos_stage_source_is_split :
  back (pins Demo.circuit_lib Demo.en_port) = 1%nat
  /\ back (pins Demo.circuit_lib Demo.enb_port) = 1%nat
  /\ map name_source_bulk (stage_devices (written Demo.inv_pg_file))
     = [("Xpmos_0", "out_pmos_pg_1", "LVDD");
        ("Xpmos_1", "out_pmos_pg_1", "LVDD");
        ("Xnmos_0", "out", "_nmos_pg_1")]
  /\ map (fun l => words (text l))
       (lines_of_kind (StageDevice TECH_LIB_TRANSISTOR_NMOS)
          (written Demo.inv_pg_file))
     = [["Xnmos_0"; "out"; "in"; "out"; "_nmos_pg_1"; "LGND"; "nch_wrapper";
         "W=13421773p-26"]].
Proof.
  repeat (apply conj; [vm_compute; reflexivity|]). vm_compute; reflexivity.
Qed.

(** C5, at the failing input.  The same inverter.  Every PMOS chain switch
    has the pin-indexed net of its pin as gate; the NMOS chain switch of
    pin 0 has too, but the one of pin 1 has the bare port prefix "en",
    where [generate_spice_port] gives "en[1]". *)
Theorem nmos_chain_gate_is_bare_prefix :
  map name_gate (power_gate_devices (written Demo.inv_pg_file))
  = [("Xpmos_powergate_0_pin_0", "enb[0]");
     ("Xpmos_powergate_0_pin_1", "enb[1]");
     ("Xpmos_powergate_1_pin_0", "enb[0]");
     ("Xpmos_powergate_1_pin_1", "enb[1]");
     ("Xnmos_powergate_0_pin_0", "en[0]");
     ("Xnmos_powergate_0_pin_1", "en")]
  /\ generate_spice_port Demo.ext
       {| get_name := port_prefix Demo.circuit_lib Demo.en_port;
          get_lsb := 1; get_msb := 1 |} = "en[1]"
  /\ port_prefix Demo.circuit_lib Demo.en_port = "en".
Proof.
  repeat (apply conj; [vm_compute; reflexivity|]). vm_compute; reflexivity.
Qed.

(** ** Tokens *)

Lemma string_app_cons (x : ascii) (a b : string) :
  (String x a ++ b)%string = String x (a ++ b).
Proof. reflexivity. Qed.

Lemma string_app_assoc (a b c : string) :
  ((a ++ b) ++ c)%string = (a ++ b ++ c)%string.
Proof.
  induction a as [|x a IH]; [reflexivity|].
  now rewrite !string_app_cons, IH.
Qed.

Lemma string_app_empty_r (a : string) : (a ++ "")%string = a.
Proof.
  induction a as [|x a IH]; [reflexivity|]. now rewrite string_app_cons, IH.
Qed.

Lemma no_blank_app (a b : string) :
  no_blank (a ++ b) = no_blank a && no_blank b.
Proof.
  induction a as [|x a IH]; [reflexivity|].
  rewrite string_app_cons. cbn [no_blank]. rewrite IH.
  now destruct (Ascii.eqb x " "%char).
Qed.

Lemma words_aux_no_blank (a cur rest : string) :
  no_blank a = true ->
  words_aux cur (a ++ rest) = words_aux (cur ++ a) rest.
Proof.
  revert cur. induction a as [|x a IH]; intros cur Ha.
  - now rewrite string_app_empty_r.
  - cbn [no_blank] in Ha. apply andb_true_iff in Ha. destruct Ha as [Hx Ha].
    apply negb_true_iff in Hx. rewrite string_app_cons. cbn [words_aux].
    rewrite Hx, IH by exact Ha. now rewrite string_app_assoc.
Qed.

Lemma words_aux_blank (cur rest : string) :
  cur <> "" ->
  words_aux cur (String " " rest) = cur :: words_aux "" rest.
Proof. intros Hne. cbn [words_aux Ascii.eqb]. destruct cur; [congruence | reflexivity]. Qed.

Lemma words_aux_end (cur : string) :
  cur <> "" -> words_aux cur "" = [cur].
Proof. intros Hne. destruct cur; [congruence | reflexivity]. Qed.

(** The tokens of fields joined by blanks are the fields. *)
Lemma words_join (fields : list string) :
  List.Forall token fields -> words (join fields) = fields.
Proof.
  unfold words, join. induction fields as [|f rest IH]; intros Hall;
    [reflexivity|].
  pose proof (List.Forall_inv Hall) as [Hf Hne].
  pose proof (List.Forall_inv_tail Hall) as Hrest.
  destruct rest as [|g rest].
  - cbn [String.concat].
    assert (E : words_aux "" (f ++ "") = [f]).
    { rewrite words_aux_no_blank by exact Hf. change ("" ++ f)%string with f.
      now apply words_aux_end. }
    rewrite string_app_empty_r in E. exact E.
  - change (String.concat " " (f :: g :: rest))
      with (f ++ String " " (String.concat " " (g :: rest)))%string.
    rewrite words_aux_no_blank by exact Hf.
    rewrite words_aux_blank by exact Hne.
    f_equal. apply IH. exact Hrest.
Qed.

Lemma no_blank_uint (d : Decimal.uint) :
  no_blank (NilEmpty.string_of_uint d) = true.
Proof. induction d; cbn [NilEmpty.string_of_uint no_blank]; auto. Qed.

(** A number in decimal is a token. *)
Lemma token_to_string (n : nat) : token (to_string n).
Proof.
  unfold token, to_string, NilZero.string_of_uint.
  destruct (Nat.to_uint n) eqn:Hd; try (split; [reflexivity | discriminate]);
    (split; [apply (no_blank_uint (_ u)) | discriminate]).
Qed.

(** ** Regular stages *)

Section RegularStages.
Context {F : Type} `{CxxFloat F} {NetlistManager : Type}.
Variable ext : Externals F NetlistManager.

Lemma regular_pmos_modeling_line fp post i o (tl : TechnologyLibrary F) tm w :
  print_spice_regular_inverter_pmos_modeling ext fp post i o tl tm w
  = if negb (valid_file_stream fp) then (CMD_EXEC_FATAL_ERROR, fp)
    else (CMD_EXEC_SUCCESS,
          put fp (regular_stage_line ext TECH_LIB_TRANSISTOR_PMOS post i o tl tm w)).
Proof. reflexivity. Qed.

Lemma regular_nmos_modeling_line fp post i o (tl : TechnologyLibrary F) tm w :
  print_spice_regular_inverter_nmos_modeling ext fp post i o tl tm w
  = if negb (valid_file_stream fp) then (CMD_EXEC_FATAL_ERROR, fp)
    else (CMD_EXEC_SUCCESS,
          put fp (regular_stage_line ext TECH_LIB_TRANSISTOR_NMOS post i o tl tm w)).
Proof. reflexivity. Qed.

(** A loop over bins whose body, on a steady stream, succeeds and writes
    the one line [g ibin]. *)
Lemma for_bins_writes (body : nat -> fstream -> exit_code * fstream)
  (g : nat -> line) :
  (forall ibin fp, steady fp ->
     body ibin fp = (CMD_EXEC_SUCCESS, put fp (g ibin))) ->
  forall ibins st fp, steady fp ->
    exists st' fp',
      for_bins body ibins st fp = inr (st', fp') /\ steady fp'
      /\ (st = CMD_EXEC_SUCCESS -> st' = CMD_EXEC_SUCCESS)
      /\ written fp' = (written fp ++ map g ibins)%list.
Proof.
  intros Hbody ibins. induction ibins as [|ibin rest IH]; intros st fp Hs.
  - exists st, fp. cbn [for_bins map]. rewrite app_nil_r. auto.
  - cbn [for_bins]. rewrite (Hbody ibin fp Hs). cbn [exit_code_eqb].
    destruct (put_steady fp (g ibin) Hs) as [Hs1 Hw1].
    destruct (IH CMD_EXEC_SUCCESS _ Hs1) as [st' [fp' [Hl [Hs' [Hst Hw']]]]].
    exists st', fp'. split; [exact Hl|]. split; [exact Hs'|]. split; [auto|].
    rewrite Hw', Hw1, <- app_assoc. reflexivity.
Qed.

(** One polarity side of a regular stage on a steady stream. *)
Lemma regular_side_writes (t : e_tech_lib_transistor_type)
  (postfix : nat -> string) i o (tl : TechnologyLibrary F) tm (w : nat -> F)
  ibins st fp :
  steady fp ->
  exists st' fp',
    for_bins
      (fun ibin fp =>
         match t with
         | TECH_LIB_TRANSISTOR_PMOS =>
             print_spice_regular_inverter_pmos_modeling ext fp (postfix ibin)
               i o tl tm (w ibin)
         | TECH_LIB_TRANSISTOR_NMOS =>
             print_spice_regular_inverter_nmos_modeling ext fp (postfix ibin)
               i o tl tm (w ibin)
         end) ibins st fp = inr (st', fp')
    /\ steady fp'
    /\ (st = CMD_EXEC_SUCCESS -> st' = CMD_EXEC_SUCCESS)
    /\ written fp'
       = (written fp
          ++ map (fun ibin =>
                    regular_stage_line ext t (postfix ibin) i o tl tm (w ibin))
               ibins)%list.
Proof.
  intros Hs. apply for_bins_writes; [|exact Hs].
  intros ibin fp0 [Hv Hr]. destruct t.
  - rewrite regular_pmos_modeling_line, Hv. reflexivity.
  - rewrite regular_nmos_modeling_line, Hv. reflexivity.
Qed.

(** X2.  A regular inverter with one input and one output port of size 1,
    written on a stream that stays writable: the writer returns success
    and adds, in this order, the subckt definition, one PMOS stage device
    per PMOS bin, one NMOS stage device per NMOS bin, and the subckt end.
    Every device sits between the output net (drain) and the input net
    (gate); the bins are named by their index. *)
Theorem regular_inverter_file
  (fp : fstream) (module_manager : ModuleManager) (module_id : ModuleId)
  (circuit_lib : CircuitLibrary F) (circuit_model : CircuitModelId)
  (tech_lib : TechnologyLibrary F) (tech_model : TechnologyModelId) :
  steady fp ->
  one_scalar_input_and_output circuit_lib circuit_model ->
  exists fp',
    print_spice_regular_inverter_subckt ext fp module_manager module_id
      circuit_lib circuit_model tech_lib tech_model
    = (Returned CMD_EXEC_SUCCESS, fp')
    /\ steady fp'
    /\ written fp'
       = (written fp
          ++ subckt_definition_lines ext module_manager module_id
          ++ regular_inverter_side ext TECH_LIB_TRANSISTOR_PMOS
               (input_net circuit_lib circuit_model)
               (output_net circuit_lib circuit_model) tech_lib tech_model
               (total_pmos_width tech_lib tech_model
                  (buffer_size circuit_lib circuit_model))
          ++ regular_inverter_side ext TECH_LIB_TRANSISTOR_NMOS
               (input_net circuit_lib circuit_model)
               (output_net circuit_lib circuit_model) tech_lib tech_model
               (total_nmos_width tech_lib tech_model
                  (buffer_size circuit_lib circuit_model))
          ++ subckt_end_lines ext module_manager module_id)%list.
Proof.
  intros Hs [Hin Hout]. unfold print_spice_regular_inverter_subckt.
  destruct Hs as [Hv Hr]. rewrite Hv. cbn [negb]. cbv zeta.
  apply one_port_of_size_one_iff in Hin. apply one_port_of_size_one_iff in Hout.
  rewrite Hin, Hout. cbn [negb].
  destruct (puts_steady (subckt_definition_lines ext module_manager module_id)
              fp (conj Hv Hr)) as [Hs1 Hw1].
  match goal with
  | |- context [for_bins _ ?bP ?st ?f] =>
      pose proof (regular_side_writes TECH_LIB_TRANSISTOR_PMOS to_string
                    (input_net circuit_lib circuit_model)
                    (output_net circuit_lib circuit_model) tech_lib tech_model
                    (curr_bin_width
                       (total_pmos_width tech_lib tech_model
                          (buffer_size circuit_lib circuit_model))
                       (transistor_model_max_width tech_lib tech_model
                          TECH_LIB_TRANSISTOR_PMOS))
                    bP st f Hs1) as HP
  end.
  cbv beta iota in HP. destruct HP as [st1 [fp1 [Hl1 [Hs2 [Hst1 Hw2]]]]].
  unfold input_net, output_net in Hl1. rewrite Hl1.
  match goal with
  | |- context [for_bins _ ?bN st1 fp1] =>
      pose proof (regular_side_writes TECH_LIB_TRANSISTOR_NMOS to_string
                    (input_net circuit_lib circuit_model)
                    (output_net circuit_lib circuit_model) tech_lib tech_model
                    (curr_bin_width
                       (total_nmos_width tech_lib tech_model
                          (buffer_size circuit_lib circuit_model))
                       (transistor_model_max_width tech_lib tech_model
                          TECH_LIB_TRANSISTOR_NMOS))
                    bN st1 fp1 Hs2) as HN
  end.
  cbv beta iota in HN. destruct HN as [st2 [fp2 [Hl2 [Hs3 [Hst2 Hw3]]]]].
  unfold input_net, output_net in Hl2. rewrite Hl2.
  destruct (puts_steady (subckt_end_lines ext module_manager module_id)
              fp2 Hs3) as [Hs4 Hw4].
  eexists. split; [rewrite (Hst2 (Hst1 eq_refl)); reflexivity|].
  split; [exact Hs4|].
  rewrite Hw4, Hw3, Hw2, Hw1. unfold regular_inverter_side.
  rewrite <- !app_assoc. reflexivity.
Qed.

End RegularStages.

(** ** Terminals of the stage devices *)

Section Terminals.
Context {F : Type} `{CxxFloat F} {NetlistManager : Type}.
Variable ext : Externals F NetlistManager.

Lemma app_not_empty_r (a b : string) : b <> "" -> (a ++ b)%string <> "".
Proof. destruct a; [auto | discriminate]. Qed.

Lemma app_not_empty_l (a b : string) : a <> "" -> (a ++ b)%string <> "".
Proof. destruct a; [congruence | discriminate]. Qed.

Lemma token_app_l (a b : string) :
  token a -> no_blank b = true -> token (a ++ b).
Proof.
  intros [Ha Hne] Hb. split.
  - now rewrite no_blank_app, Ha, Hb.
  - now apply app_not_empty_l.
Qed.

Lemma token_app_r (a b : string) :
  no_blank a = true -> token b -> token (a ++ b).
Proof.
  intros Ha [Hb Hne]. split.
  - now rewrite no_blank_app, Ha, Hb.
  - now apply app_not_empty_r.
Qed.

Lemma token_rail t : token (rail t).
Proof. destruct t; split; (reflexivity || discriminate). Qed.

Lemma token_instance_head t : token (instance_head t).
Proof. destruct t; split; (reflexivity || discriminate). Qed.

Lemma regular_stage_fields_tokens t post i o (tl : TechnologyLibrary F) tm w :
  no_blank post = true -> token i -> token o ->
  token (wrapper_name ext tl tm t) -> no_blank (f_to_string w) = true ->
  List.Forall token (regular_stage_fields ext t post i o tl tm w).
Proof.
  intros Hpost Hi Ho Hwn Hw. unfold regular_stage_fields.
  repeat (apply List.Forall_cons); try assumption; try apply token_rail.
  - apply token_app_l; [apply token_instance_head | exact Hpost].
  - apply token_app_l; [split; [reflexivity | discriminate] | exact Hw].
  - constructor.
Qed.

(** X3.  The line of a stage device of a regular stage, PMOS or NMOS, when
    the names involved are blank-free tokens: the instance name, then the
    output net as drain, the input net as gate, the rail of the polarity
    (LVDD for PMOS, LGND for NMOS) as source and as bulk, the wrapper of
    the transistor as model and the width. *)
Theorem regular_stage_device_terminals
  (fp : fstream) (trans_name_postfix input_port_name output_port_name : string)
  (tech_lib : TechnologyLibrary F) (tech_model : TechnologyModelId)
  (trans_width : F) :
  steady fp ->
  no_blank trans_name_postfix = true ->
  token input_port_name -> token output_port_name ->
  token (wrapper_name ext tech_lib tech_model TECH_LIB_TRANSISTOR_PMOS) ->
  token (wrapper_name ext tech_lib tech_model TECH_LIB_TRANSISTOR_NMOS) ->
  no_blank (f_to_string trans_width) = true ->
  (exists l,
     print_spice_regular_inverter_pmos_modeling ext fp trans_name_postfix
       input_port_name output_port_name tech_lib tech_model trans_width
     = (CMD_EXEC_SUCCESS, put fp l)
     /\ written (put fp l) = (written fp ++ [l])%list
     /\ words (text l)
        = [ "Xpmos_" ++ trans_name_postfix; output_port_name; input_port_name;
            "LVDD"; "LVDD";
            wrapper_name ext tech_lib tech_model TECH_LIB_TRANSISTOR_PMOS;
            "W=" ++ f_to_string trans_width ]
     /\ drain_net l = output_port_name /\ gate_net l = input_port_name
     /\ source_net l = "LVDD" /\ bulk_net l = "LVDD")
  /\ (exists l,
     print_spice_regular_inverter_nmos_modeling ext fp trans_name_postfix
       input_port_name output_port_name tech_lib tech_model trans_width
     = (CMD_EXEC_SUCCESS, put fp l)
     /\ written (put fp l) = (written fp ++ [l])%list
     /\ words (text l)
        = [ "Xnmos_" ++ trans_name_postfix; output_port_name; input_port_name;
            "LGND"; "LGND";
            wrapper_name ext tech_lib tech_model TECH_LIB_TRANSISTOR_NMOS;
            "W=" ++ f_to_string trans_width ]
     /\ drain_net l = output_port_name /\ gate_net l = input_port_name
     /\ source_net l = "LGND" /\ bulk_net l = "LGND").
Proof.
  intros Hs Hpost Hi Ho HwP HwN Hw.
  pose proof (regular_stage_fields_tokens TECH_LIB_TRANSISTOR_PMOS
                trans_name_postfix input_port_name output_port_name tech_lib
                tech_model trans_width Hpost Hi Ho HwP Hw) as HtP.
  pose proof (regular_stage_fields_tokens TECH_LIB_TRANSISTOR_NMOS
                trans_name_postfix input_port_name output_port_name tech_lib
                tech_model trans_width Hpost Hi Ho HwN Hw) as HtN.
  apply words_join in HtP. apply words_join in HtN.
  destruct Hs as [Hv Hr]. split.
  - exists (regular_stage_line ext TECH_LIB_TRANSISTOR_PMOS trans_name_postfix
              input_port_name output_port_name tech_lib tech_model trans_width).
    split; [rewrite regular_pmos_modeling_line, Hv; reflexivity|].
    split; [apply put_steady; split; assumption|].
    unfold drain_net, gate_net, source_net, bulk_net.
    cbn [text regular_stage_line]. rewrite HtP. repeat split; reflexivity.
  - exists (regular_stage_line ext TECH_LIB_TRANSISTOR_NMOS trans_name_postfix
              input_port_name output_port_name tech_lib tech_model trans_width).
    split; [rewrite regular_nmos_modeling_line, Hv; reflexivity|].
    split; [apply put_steady; split; assumption|].
    unfold drain_net, gate_net, source_net, bulk_net.
    cbn [text regular_stage_line]. rewrite HtN. repeat split; reflexivity.
Qed.

End Terminals.

(** The first PMOS and NMOS bin of the inverter of the demonstration. *)
Lemma regular_stage_device_terminals_witness :
  steady Demo.fresh
  /\ exists l,
      print_spice_regular_inverter_pmos_modeling Demo.ext Demo.fresh "0"
        "in" "out" Demo.tech_lib 0%nat Demo.nmos_max
      = (CMD_EXEC_SUCCESS, put Demo.fresh l)
      /\ drain_net l = "out" /\ gate_net l = "in"
      /\ source_net l = "LVDD" /\ bulk_net l = "LVDD".
Proof.
  assert (Hs : steady Demo.fresh) by (split; reflexivity).
  split; [exact Hs|].
  destruct (regular_stage_device_terminals Demo.ext Demo.fresh "0" "in" "out"
              Demo.tech_lib 0%nat Demo.nmos_max Hs)
    as [[l [He [_ [_ Hnets]]]] _];
    try (split; [reflexivity | discriminate]); try reflexivity.
  exists l. split; [exact He | exact Hnets].
Defined.

(** The regular inverter of the demonstration. *)
Lemma regular_inverter_file_witness :
  steady Demo.fresh
  /\ one_scalar_input_and_output Demo.circuit_lib Demo.inv
  /\ exists fp',
      print_spice_regular_inverter_subckt Demo.ext Demo.fresh
        Demo.module_manager 0%nat Demo.circuit_lib Demo.inv Demo.tech_lib 0%nat
      = (Returned CMD_EXEC_SUCCESS, fp')
      /\ steady fp'.
Proof.
  assert (Hs : steady Demo.fresh) by (split; reflexivity).
  assert (Hp : one_scalar_input_and_output Demo.circuit_lib Demo.inv)
    by (split; eexists; split; reflexivity).
  split; [exact Hs|]. split; [exact Hp|].
  destruct (regular_inverter_file Demo.ext Demo.fresh Demo.module_manager
              0%nat Demo.circuit_lib Demo.inv Demo.tech_lib 0%nat Hs Hp)
    as [fp' [He [Hs' _]]].
  exists fp'. split; [exact He | exact Hs'].
Defined.

(** ** Regular buffers *)

Section RegularBuffers.
Context {F : Type} `{CxxFloat F} {NetlistManager : Type}.
Variable ext : Externals F NetlistManager.

Lemma flat_map_ext_seq {B : Type} (f g : nat -> list B) (a n : nat) :
  (forall i, (a <= i < a + n)%nat -> f i = g i) ->
  flat_map f (seq a n) = flat_map g (seq a n).
Proof.
  revert a. induction n as [|n IH]; intros a Hfg; [reflexivity|].
  cbn [seq flat_map]. rewrite (Hfg a) by lia. f_equal.
  apply IH. intros i Hi. apply Hfg. lia.
Qed.

(** A loop over levels whose body, on a steady stream, runs to its end and
    writes the lines [g level]. *)
Lemma for_levels_writes
  (body : nat -> exit_code -> fstream ->
          (exit_code * fstream) + (exit_code * fstream))
  (g : nat -> list line) :
  (forall level st fp, steady fp ->
     exists st' fp',
       body level st fp = inr (st', fp') /\ steady fp'
       /\ (st = CMD_EXEC_SUCCESS -> st' = CMD_EXEC_SUCCESS)
       /\ written fp' = (written fp ++ g level)%list) ->
  forall levels st fp, steady fp ->
    exists st' fp',
      for_levels body levels st fp = inr (st', fp') /\ steady fp'
      /\ (st = CMD_EXEC_SUCCESS -> st' = CMD_EXEC_SUCCESS)
      /\ written fp' = (written fp ++ flat_map g levels)%list.
Proof.
  intros Hbody levels. induction levels as [|level rest IH]; intros st fp Hs.
  - exists st, fp. cbn [for_levels flat_map]. rewrite app_nil_r. auto.
  - cbn [for_levels flat_map].
    destruct (Hbody level st fp Hs) as [st1 [fp1 [Hb [Hs1 [Hst1 Hw1]]]]].
    rewrite Hb.
    destruct (IH st1 fp1 Hs1) as [st' [fp' [Hl [Hs' [Hst' Hw']]]]].
    exists st', fp'. split; [exact Hl|]. split; [exact Hs'|]. split; [auto|].
    rewrite Hw', Hw1, <- app_assoc. reflexivity.
Qed.

(** One level of a regular buffer on a steady stream. *)
Lemma regular_buffer_level_writes (cl : CircuitLibrary F) ips ops
  (tl : TechnologyLibrary F) tm ws level st fp :
  steady fp ->
  exists st' fp',
    regular_buffer_level ext cl ips ops tl tm ws level st fp = inr (st', fp')
    /\ steady fp'
    /\ (st = CMD_EXEC_SUCCESS -> st' = CMD_EXEC_SUCCESS)
    /\ written fp'
       = (written fp
          ++ regular_buffer_level_lines ext
               (port_prefix cl (nth 0 ips 0%nat))
               (port_prefix cl (nth 0 ops 0%nat)) tl tm level
               (nth level ws f_one))%list.
Proof.
  intros Hs. unfold regular_buffer_level. cbv zeta.
  match goal with
  | |- context [for_bins _ ?bP ?st0 ?f] =>
      pose proof (regular_side_writes ext TECH_LIB_TRANSISTOR_PMOS
                    (level_bin_postfix level)
                    (port_prefix cl (nth 0 ips 0%nat))
                    (port_prefix cl (nth 0 ops 0%nat)) tl tm
                    (curr_bin_width
                       (total_pmos_width tl tm (nth level ws f_one))
                       (transistor_model_max_width tl tm
                          TECH_LIB_TRANSISTOR_PMOS))
                    bP st0 f Hs) as HP
  end.
  cbv beta iota in HP. destruct HP as [st1 [fp1 [Hl1 [Hs1 [Hst1 Hw1]]]]].
  rewrite Hl1.
  match goal with
  | |- context [for_bins _ ?bN st1 fp1] =>
      pose proof (regular_side_writes ext TECH_LIB_TRANSISTOR_NMOS
                    (level_bin_postfix level)
                    (port_prefix cl (nth 0 ips 0%nat))
                    (port_prefix cl (nth 0 ops 0%nat)) tl tm
                    (curr_bin_width
                       (total_nmos_width tl tm (nth level ws f_one))
                       (transistor_model_max_width tl tm
                          TECH_LIB_TRANSISTOR_NMOS))
                    bN st1 fp1 Hs1) as HN
  end.
  cbv beta iota in HN. destruct HN as [st2 [fp2 [Hl2 [Hs2 [Hst2 Hw2]]]]].
  exists st2, fp2. split; [exact Hl2|]. split; [exact Hs2|]. split; [auto|].
  rewrite Hw2, Hw1. unfold regular_buffer_level_lines, regular_buffer_side.
  rewrite <- app_assoc. reflexivity.
Qed.

(** X4.  A regular buffer with one input and one output port of size 1 and
    at least two levels, written on a stream that stays writable: the
    writer returns success and adds the subckt definition, then level by
    level the PMOS bins and the NMOS bins of a stage of drive strength
    [buffer_size * pow(f_per_stage, level)], then the subckt end.  The
    devices of every level are named by level and bin and sit between the
    input net and the output net of the model. *)
Theorem regular_buffer_file
  (fp : fstream) (module_manager : ModuleManager) (module_id : ModuleId)
  (circuit_lib : CircuitLibrary F) (circuit_model : CircuitModelId)
  (tech_lib : TechnologyLibrary F) (tech_model : TechnologyModelId) :
  steady fp ->
  one_scalar_input_and_output circuit_lib circuit_model ->
  (2 <= buffer_num_levels circuit_lib circuit_model)%nat ->
  exists fp',
    print_spice_regular_buffer_subckt ext fp module_manager module_id
      circuit_lib circuit_model tech_lib tech_model
    = (Returned CMD_EXEC_SUCCESS, fp')
    /\ steady fp'
    /\ written fp'
       = (written fp
          ++ subckt_definition_lines ext module_manager module_id
          ++ flat_map
               (fun level =>
                  regular_buffer_level_lines ext
                    (input_net circuit_lib circuit_model)
                    (output_net circuit_lib circuit_model)
                    tech_lib tech_model level
                    (f_mul_pow (buffer_size circuit_lib circuit_model)
                       (buffer_f_per_stage circuit_lib circuit_model) level))
               (seq 0 (buffer_num_levels circuit_lib circuit_model))
          ++ subckt_end_lines ext module_manager module_id)%list.
Proof.
  intros Hs [Hin Hout] HL. unfold print_spice_regular_buffer_subckt.
  destruct Hs as [Hv Hr]. rewrite Hv. cbn [negb]. cbv zeta.
  apply one_port_of_size_one_iff in Hin. apply one_port_of_size_one_iff in Hout.
  rewrite Hin, Hout. cbn [negb].
  apply Nat.leb_le in HL. rewrite HL. cbn [negb].
  destruct (puts_steady (subckt_definition_lines ext module_manager module_id)
              fp (conj Hv Hr)) as [Hs1 Hw1].
  match goal with
  | |- context [for_levels ?b ?l ?st ?f] =>
      destruct (for_levels_writes b
                  (fun level =>
                     regular_buffer_level_lines ext
                       (input_net circuit_lib circuit_model)
                       (output_net circuit_lib circuit_model)
                       tech_lib tech_model level
                       (nth level
                          (build_buffer_widths circuit_lib circuit_model)
                          f_one))
                  (fun level st0 fp0 Hs0 =>
                     regular_buffer_level_writes circuit_lib
                       (model_ports_by_type circuit_lib circuit_model
                          CIRCUIT_MODEL_PORT_INPUT true)
                       (model_ports_by_type circuit_lib circuit_model
                          CIRCUIT_MODEL_PORT_OUTPUT true)
                       tech_lib tech_model
                       (build_buffer_widths circuit_lib circuit_model)
                       level st0 fp0 Hs0)
                  l st f Hs1)
        as [st1 [fp1 [Hl [Hs2 [Hst Hw2]]]]]
  end.
  rewrite Hl.
  destruct (puts_steady (subckt_end_lines ext module_manager module_id)
              fp1 Hs2) as [Hs3 Hw3].
  eexists. split; [rewrite (Hst eq_refl); reflexivity|]. split; [exact Hs3|].
  rewrite Hw3, Hw2, Hw1, <- !app_assoc. do 2 f_equal.
  f_equal. apply flat_map_ext_seq. intros level Hlevel.
  rewrite build_buffer_widths_map.
  rewrite (nth_indep _ f_one
             (f_mul_pow (buffer_size circuit_lib circuit_model)
                (buffer_f_per_stage circuit_lib circuit_model) 0%nat))
    by (rewrite List.length_map, List.length_seq; lia).
  rewrite List.map_nth, seq_nth by lia. reflexivity.
Qed.

End RegularBuffers.

(** The regular buffer of the demonstration. *)
Lemma regular_buffer_file_witness :
  steady Demo.fresh
  /\ one_scalar_input_and_output Demo.circuit_lib Demo.buf
  /\ (2 <= buffer_num_levels Demo.circuit_lib Demo.buf)%nat
  /\ exists fp',
      print_spice_regular_buffer_subckt Demo.ext Demo.fresh
        Demo.module_manager 2%nat Demo.circuit_lib Demo.buf Demo.tech_lib 0%nat
      = (Returned CMD_EXEC_SUCCESS, fp')
      /\ steady fp'.
Proof.
  assert (Hs : steady Demo.fresh) by (split; reflexivity).
  assert (Hp : one_scalar_input_and_output Demo.circuit_lib Demo.buf)
    by (split; eexists; split; reflexivity).
  assert (HL : (2 <= buffer_num_levels Demo.circuit_lib Demo.buf)%nat)
    by (apply Nat.le_refl).
  split; [exact Hs|]. split; [exact Hp|]. split; [exact HL|].
  destruct (regular_buffer_file Demo.ext Demo.fresh Demo.module_manager
              2%nat Demo.circuit_lib Demo.buf Demo.tech_lib 0%nat Hs Hp HL)
    as [fp' [He [Hs' _]]].
  exists fp'. split; [exact He | exact Hs'].
Defined.

(** ** Assertions of the buffer and of the power-gated writers *)

Section Assertions.
Context {F : Type} `{CxxFloat F} {NetlistManager : Type}.
Variable ext : Externals F NetlistManager.

(** X5.  A buffer model with fewer than two levels is stopped by an
    assertion of the buffer writer, regular or power-gated, and of their
    dispatcher, on a valid stream: the call ends on the failed assertion
    and no device line is added, whatever the ports of the model are. *)
Theorem buffer_needs_two_levels
  (fp : fstream) (module_manager : ModuleManager) (module_id : ModuleId)
  (circuit_lib : CircuitLibrary F) (circuit_model : CircuitModelId)
  (tech_lib : TechnologyLibrary F) (tech_model : TechnologyModelId) :
  valid_file_stream fp = true ->
  (buffer_num_levels circuit_lib circuit_model < 2)%nat ->
  rejected_before_devices fp
    (print_spice_regular_buffer_subckt ext fp module_manager module_id
       circuit_lib circuit_model tech_lib tech_model)
  /\ rejected_before_devices fp
    (print_spice_powergated_buffer_subckt ext fp module_manager module_id
       circuit_lib circuit_model tech_lib tech_model)
  /\ rejected_before_devices fp
    (print_spice_buffer_subckt ext fp module_manager module_id
       circuit_lib circuit_model tech_lib tech_model).
Proof.
  intros Hv HL. apply Nat.leb_gt in HL.
  assert (HR : rejected_before_devices fp
                 (print_spice_regular_buffer_subckt ext fp module_manager
                    module_id circuit_lib circuit_model tech_lib tech_model)).
  { unfold rejected_before_devices, print_spice_regular_buffer_subckt.
    rewrite Hv, HL. cbn [negb]. cbv zeta.
    repeat match goal with
           | |- context [if negb ?b then _ else _] => destruct b; cbn [negb]
           end;
      (split; [reflexivity|]); cbn [snd];
      apply puts_device_lines, subckt_definition_no_device. }
  assert (HP : rejected_before_devices fp
                 (print_spice_powergated_buffer_subckt ext fp module_manager
                    module_id circuit_lib circuit_model tech_lib tech_model)).
  { unfold rejected_before_devices, print_spice_powergated_buffer_subckt.
    rewrite Hv, HL. cbn [negb]. cbv zeta.
    repeat match goal with
           | |- context [if negb ?b then _ else _] => destruct b; cbn [negb]
           end;
      (split; [reflexivity|]); cbn [snd];
      apply puts_device_lines, subckt_definition_no_device. }
  split; [exact HR|]. split; [exact HP|].
  unfold print_spice_buffer_subckt.
  destruct (is_power_gated circuit_lib circuit_model); assumption.
Qed.

(** X6.  The two power-gated writers stop on an assertion, on a valid
    stream and before any device line, when the model is not power gated,
    or when the enable port or the enable-bar port that the library finds
    for it is not a valid port. *)
Theorem power_gating_ports_required
  (fp : fstream) (module_manager : ModuleManager) (module_id : ModuleId)
  (circuit_lib : CircuitLibrary F) (circuit_model : CircuitModelId)
  (tech_lib : TechnologyLibrary F) (tech_model : TechnologyModelId) :
  valid_file_stream fp = true ->
  is_power_gated circuit_lib circuit_model = false
  \/ valid_circuit_port_id circuit_lib
       (find_circuit_model_power_gate_en_port ext circuit_lib circuit_model)
     = false
  \/ valid_circuit_port_id circuit_lib
       (find_circuit_model_power_gate_enb_port ext circuit_lib circuit_model)
     = false ->
  rejected_before_devices fp
    (print_spice_powergated_inverter_subckt ext fp module_manager module_id
       circuit_lib circuit_model tech_lib tech_model)
  /\ rejected_before_devices fp
    (print_spice_powergated_buffer_subckt ext fp module_manager module_id
       circuit_lib circuit_model tech_lib tech_model).
Proof.
  intros Hv Hbad.
  split;
    unfold rejected_before_devices, print_spice_powergated_inverter_subckt,
      print_spice_powergated_buffer_subckt;
    rewrite Hv; cbn [negb]; cbv zeta;
    destruct (one_port_of_size_one circuit_lib
                (model_ports_by_type circuit_lib circuit_model
                   CIRCUIT_MODEL_PORT_INPUT true)); cbn [negb];
    try (split; [reflexivity|]; cbn [snd];
         apply puts_device_lines, subckt_definition_no_device);
    destruct (one_port_of_size_one circuit_lib
                (model_ports_by_type circuit_lib circuit_model
                   CIRCUIT_MODEL_PORT_OUTPUT true)); cbn [negb];
    try (split; [reflexivity|]; cbn [snd];
         apply puts_device_lines, subckt_definition_no_device);
    destruct (is_power_gated circuit_lib circuit_model) eqn:Hpg; cbn [negb];
    try (split; [reflexivity|]; cbn [snd];
         apply puts_device_lines, subckt_definition_no_device);
    destruct (valid_circuit_port_id circuit_lib
                (find_circuit_model_power_gate_en_port ext circuit_lib
                   circuit_model)) eqn:Hen; cbn [negb];
    try (split; [reflexivity|]; cbn [snd];
         apply puts_device_lines, subckt_definition_no_device);
    destruct (valid_circuit_port_id circuit_lib
                (find_circuit_model_power_gate_enb_port ext circuit_lib
                   circuit_model)) eqn:Henb; cbn [negb];
    try (split; [reflexivity|]; cbn [snd];
         apply puts_device_lines, subckt_definition_no_device);
    destruct Hbad as [Hb | [Hb | Hb]]; discriminate.
Qed.

End Assertions.

(** The regular inverter of the demonstration has one level: as a buffer it
    is refused. *)
Lemma buffer_needs_two_levels_witness :
  valid_file_stream Demo.fresh = true
  /\ (buffer_num_levels Demo.circuit_lib Demo.inv < 2)%nat
  /\ rejected_before_devices Demo.fresh
       (print_spice_buffer_subckt Demo.ext Demo.fresh Demo.module_manager
          0%nat Demo.circuit_lib Demo.inv Demo.tech_lib 0%nat).
Proof.
  split; [reflexivity|]. split; [apply Nat.lt_succ_diag_r|].
  apply (buffer_needs_two_levels Demo.ext Demo.fresh Demo.module_manager
           0%nat Demo.circuit_lib Demo.inv Demo.tech_lib 0%nat);
    [reflexivity | apply Nat.lt_succ_diag_r].
Defined.

(** The regular inverter of the demonstration is not power gated: the
    power-gated writers refuse it. *)
Lemma power_gating_ports_required_witness :
  valid_file_stream Demo.fresh = true
  /\ is_power_gated Demo.circuit_lib Demo.inv = false
  /\ rejected_before_devices Demo.fresh
       (print_spice_powergated_inverter_subckt Demo.ext Demo.fresh
          Demo.module_manager 0%nat Demo.circuit_lib Demo.inv Demo.tech_lib
          0%nat)
  /\ rejected_before_devices Demo.fresh
       (print_spice_powergated_buffer_subckt Demo.ext Demo.fresh
          Demo.module_manager 0%nat Demo.circuit_lib Demo.inv Demo.tech_lib
          0%nat).
Proof.
  split; [reflexivity|]. split; [reflexivity|].
  apply (power_gating_ports_required Demo.ext Demo.fresh Demo.module_manager
           0%nat Demo.circuit_lib Demo.inv Demo.tech_lib 0%nat);
    [reflexivity | left; reflexivity].
Defined.

(** ** When the file writers report success *)

Section Success.
Context {F : Type} `{CxxFloat F} {NetlistManager : Type}.
Variable ext : Externals F NetlistManager.

Lemma transistor_wrapper_loop_none (tech_lib : TechnologyLibrary F) ms fp :
  first_transistor tech_lib ms = None ->
  transistor_wrapper_loop ext tech_lib ms fp = inr fp.
Proof.
  unfold first_transistor. induction ms as [|m ms IH];
    cbn [List.find transistor_wrapper_loop]; [reflexivity|].
  destruct (tech_model_type tech_lib m); [discriminate | exact IH].
Qed.

Lemma close_and_register_returned nm fname st fp st' fp' nm' :
  close_and_register ext nm fname st fp = (Returned st', fp', nm') ->
  st' = st /\ fp' = close fp /\ registered_as_submodule ext fname nm nm'.
Proof.
  unfold close_and_register, registered_as_submodule.
  destruct (add_netlist ext nm fname) as [nm1 [id|]] eqn:Hadd; intros E;
    [|discriminate].
  injection E as <- <- <-. split; [reflexivity|]. split; [reflexivity|].
  exists nm1, id. split; reflexivity.
Qed.

(** X7.  On a stream that is open and stays writable, the transistor
    wrapper writer returns the success status exactly when the technology
    library holds no transistor model and the netlist manager takes the
    file: the file then holds the banner alone, the stream is closed and
    the file is registered as a submodule netlist.  No run that wrote a
    wrapper reports success. *)
Theorem transistor_wrapper_success_iff
  (fp : fstream) (netlist_manager : NetlistManager)
  (tech_lib : TechnologyLibrary F) (submodule_dir : string)
  (fp' : fstream) (netlist_manager' : NetlistManager) :
  check_file_stream ext (submodule_dir ++ TRANSISTORS_SPICE_FILE_NAME ext) fp
  = true ->
  steady fp ->
  print_spice_transistor_wrapper ext fp netlist_manager tech_lib submodule_dir
  = (Returned CMD_EXEC_SUCCESS, fp', netlist_manager')
  <-> first_transistor tech_lib (tech_models tech_lib) = None
      /\ fp' = close (puts fp (map (Line FileHeader)
                                 (print_spice_file_header ext
                                    "Transistor wrappers")))
      /\ registered_as_submodule ext
           (submodule_dir ++ TRANSISTORS_SPICE_FILE_NAME ext)
           netlist_manager netlist_manager'.
Proof.
  intros Hck Hs. unfold print_spice_transistor_wrapper.
  rewrite Hck. cbn [negb]. cbv zeta.
  destruct (puts_steady
              (map (Line FileHeader)
                 (print_spice_file_header ext "Transistor wrappers")) fp Hs)
    as [Hs1 _].
  destruct (first_transistor tech_lib (tech_models tech_lib)) as [m|] eqn:Hf.
  - rewrite (transistor_wrapper_loop_first ext tech_lib _ _ m Hs1 Hf).
    split; [discriminate | intros [E _]; discriminate].
  - rewrite (transistor_wrapper_loop_none tech_lib _ _ Hf). split.
    + intros E. apply close_and_register_returned in E.
      destruct E as [_ [E1 E2]]. auto.
    + intros [_ [-> [nm1 [id [Hadd ->]]]]].
      unfold close_and_register. rewrite Hadd. reflexivity.
Qed.

(** One turn of the loop of the driver that lets the loop go on. *)
Lemma essential_gates_turn_continue mm (cl : CircuitLibrary F) tl binding
  cm st fp st' fp' :
  essential_gates_turn ext mm cl tl binding cm st fp = Continue st' fp' ->
  passable cl tl binding cm /\ (st = CMD_EXEC_SUCCESS -> st' = CMD_EXEC_SUCCESS).
Proof.
  unfold essential_gates_turn, passable, bound_to_transistor.
  destruct (has_extern_netlist cl cm); cbv zeta.
  { intros E. injection E as <- _. auto. }
  destruct (needs_technology_binding (model_type cl cm)) eqn:Hn.
  2:{ destruct (model_type cl cm); intros E; injection E as <- _; auto. }
  destruct (binding !! cm) as [tm|] eqn:Hb; [|discriminate].
  destruct (valid_model_id tl tm) eqn:Hv; cbn [negb]; [|discriminate].
  destruct (tech_model_type tl tm) eqn:Ht; [|discriminate].
  intros E. split.
  - right. right. exists tm. auto.
  - destruct (model_type cl cm).
    + destruct (write_invbuf ext fp mm (find_module mm (model_name cl cm))
                  cl cm tl tm) as [[[]| |] fp2]; try discriminate.
      injection E as <- _. reflexivity.
    + injection E as <- _. auto.
    + injection E as <- _. auto.
    + injection E as <- _. auto.
Qed.

Lemma essential_gates_turn_stops_fatal mm (cl : CircuitLibrary F) tl binding
  cm st fp st' fp' :
  essential_gates_turn ext mm cl tl binding cm st fp = Break st' fp'
  \/ essential_gates_turn ext mm cl tl binding cm st fp = ReturnNow st' fp' ->
  st' = CMD_EXEC_FATAL_ERROR.
Proof.
  unfold essential_gates_turn.
  destruct (has_extern_netlist cl cm); cbv zeta.
  { intros [E|E]; discriminate. }
  destruct (needs_technology_binding (model_type cl cm)) eqn:Hn.
  2:{ destruct (model_type cl cm); intros [E|E]; discriminate. }
  destruct (binding !! cm) as [tm|] eqn:Hb.
  2:{ intros [E|E]; [discriminate | now injection E as <- _]. }
  destruct (valid_model_id tl tm) eqn:Hv; cbn [negb].
  2:{ intros [E|E]; discriminate. }
  destruct (tech_model_type tl tm) eqn:Ht.
  2:{ intros [E|E]; discriminate. }
  destruct (model_type cl cm); try (intros [E|E]; discriminate).
  destruct (write_invbuf ext fp mm (find_module mm (model_name cl cm))
              cl cm tl tm) as [[[]| |] fp2];
    intros [E|E]; try discriminate.
  now injection E as <- _.
Qed.

Lemma essential_gates_loop_continue mm (cl : CircuitLibrary F) tl binding
  ms st fp st' fp' :
  essential_gates_loop ext mm cl tl binding ms st fp = Continue st' fp' ->
  List.Forall (passable cl tl binding) ms
  /\ (st = CMD_EXEC_SUCCESS -> st' = CMD_EXEC_SUCCESS).
Proof.
  revert st fp. induction ms as [|cm ms IH]; intros st fp; cbn [essential_gates_loop].
  - intros E. injection E as <- _. split; [constructor | auto].
  - destruct (essential_gates_turn ext mm cl tl binding cm st fp)
      as [st1 fp1| | |] eqn:Ht; try discriminate.
    intros E. apply essential_gates_turn_continue in Ht. destruct Ht as [Hp Hst].
    apply IH in E. destruct E as [Hall Hst']. split; [constructor; assumption | auto].
Qed.

Lemma essential_gates_loop_stops_fatal mm (cl : CircuitLibrary F) tl binding
  ms st fp st' fp' :
  essential_gates_loop ext mm cl tl binding ms st fp = Break st' fp'
  \/ essential_gates_loop ext mm cl tl binding ms st fp = ReturnNow st' fp' ->
  st' = CMD_EXEC_FATAL_ERROR.
Proof.
  revert st fp. induction ms as [|cm ms IH]; intros st fp; cbn [essential_gates_loop].
  - intros [E|E]; discriminate.
  - destruct (essential_gates_turn ext mm cl tl binding cm st fp)
      as [st1 fp1|st1 fp1|st1 fp1|fp1] eqn:Ht.
    + apply IH.
    + intros [E|E]; [|discriminate]. injection E as <- <-.
      apply (essential_gates_turn_stops_fatal mm cl tl binding cm st fp st1 fp1).
      now left.
    + intros [E|E]; [discriminate|]. injection E as <- <-.
      apply (essential_gates_turn_stops_fatal mm cl tl binding cm st fp st1 fp1).
      now right.
    + intros [E|E]; discriminate.
Qed.

(** X8.  What a pass over the circuit library that returns the success
    status has done: the stream passed the check on entry, every model of
    the library named an external netlist, or was of a type that asks for
    no binding, or was bound to a valid transistor model; the stream is
    closed and the file is registered as a submodule netlist. *)
Theorem essential_gates_success
  (fp : fstream) (netlist_manager : NetlistManager)
  (module_manager : ModuleManager) (circuit_lib : CircuitLibrary F)
  (tech_lib : TechnologyLibrary F)
  (circuit_tech_binding : gmap CircuitModelId TechnologyModelId)
  (submodule_dir : string) (fp' : fstream) (netlist_manager' : NetlistManager) :
  print_spice_essential_gates ext fp netlist_manager module_manager
    circuit_lib tech_lib circuit_tech_binding submodule_dir
  = (Returned CMD_EXEC_SUCCESS, fp', netlist_manager') ->
  check_file_stream ext (submodule_dir ++ ESSENTIALS_SPICE_FILE_NAME ext) fp
  = true
  /\ List.Forall (passable circuit_lib tech_lib circuit_tech_binding)
       (models circuit_lib)
  /\ is_open fp' = false
  /\ registered_as_submodule ext
       (submodule_dir ++ ESSENTIALS_SPICE_FILE_NAME ext)
       netlist_manager netlist_manager'.
Proof.
  unfold print_spice_essential_gates.
  destruct (check_file_stream ext
              (submodule_dir ++ ESSENTIALS_SPICE_FILE_NAME ext) fp);
    cbn [negb]; [|discriminate]. cbv zeta.
  destruct (essential_gates_loop ext module_manager circuit_lib tech_lib
              circuit_tech_binding (models circuit_lib) CMD_EXEC_SUCCESS
              (puts fp (map (Line FileHeader)
                          (print_spice_file_header ext "Essential gates"))))
    as [st1 fp1|st1 fp1|st1 fp1|fp1] eqn:Hl; intros E.
  - apply close_and_register_returned in E. destruct E as [_ [-> Hreg]].
    apply essential_gates_loop_continue in Hl. destruct Hl as [Hall _].
    split; [reflexivity|]. split; [exact Hall|]. split; [reflexivity | exact Hreg].
  - apply close_and_register_returned in E. destruct E as [Hst _].
    assert (st1 = CMD_EXEC_FATAL_ERROR)
      by (eapply essential_gates_loop_stops_fatal; left; exact Hl).
    congruence.
  - assert (st1 = CMD_EXEC_FATAL_ERROR)
      by (eapply essential_gates_loop_stops_fatal; right; exact Hl).
    congruence.
  - discriminate.
Qed.

(** A turn of the loop on a model without writer leaves the stream as it
    was. *)
Lemma turn_without_writer mm (cl : CircuitLibrary F) tl binding cm st fp :
  without_writer cl cm ->
  turn_stream (essential_gates_turn ext mm cl tl binding cm st fp) = fp.
Proof.
  unfold without_writer, essential_gates_turn.
  destruct (has_extern_netlist cl cm); cbv zeta; [reflexivity|].
  intros [Hx | Hty]; [discriminate|].
  destruct (needs_technology_binding (model_type cl cm)).
  - destruct (binding !! cm) as [tm|]; [|reflexivity].
    destruct (valid_model_id tl tm); cbn [negb]; [|reflexivity].
    destruct (tech_model_type tl tm); [|reflexivity].
    destruct (model_type cl cm); [congruence | reflexivity..].
  - destruct (model_type cl cm); [congruence | reflexivity..].
Qed.

Lemma loop_without_writer mm (cl : CircuitLibrary F) tl binding ms st fp :
  List.Forall (without_writer cl) ms ->
  turn_stream (essential_gates_loop ext mm cl tl binding ms st fp) = fp.
Proof.
  revert st fp. induction ms as [|cm ms IH]; intros st fp Hall;
    cbn [essential_gates_loop]; [reflexivity|].
  pose proof (turn_without_writer mm cl tl binding cm st fp
                (List.Forall_inv Hall)) as Ht.
  destruct (essential_gates_turn ext mm cl tl binding cm st fp)
    as [st1 fp1|st1 fp1|st1 fp1|fp1]; cbn [turn_stream] in Ht |- *;
    try exact Ht.
  subst fp1. apply IH. exact (List.Forall_inv_tail Hall).
Qed.

(** X9.  The driver writes a netlist for inverters and buffers only: when
    every model of the library names an external netlist or is of another
    type (pass gate, logic gate, or any other), the file holds the banner
    and nothing else, however the pass ends. *)
Theorem only_invbuf_models_are_written
  (fp : fstream) (netlist_manager : NetlistManager)
  (module_manager : ModuleManager) (circuit_lib : CircuitLibrary F)
  (tech_lib : TechnologyLibrary F)
  (circuit_tech_binding : gmap CircuitModelId TechnologyModelId)
  (submodule_dir : string) :
  check_file_stream ext (submodule_dir ++ ESSENTIALS_SPICE_FILE_NAME ext) fp
  = true ->
  List.Forall (without_writer circuit_lib) (models circuit_lib) ->
  written (snd (fst (print_spice_essential_gates ext fp netlist_manager
                       module_manager circuit_lib tech_lib
                       circuit_tech_binding submodule_dir)))
  = written (puts fp (map (Line FileHeader)
                        (print_spice_file_header ext "Essential gates"))).
Proof.
  intros Hck Hall. unfold print_spice_essential_gates.
  rewrite Hck. cbn [negb]. cbv zeta.
  pose proof (loop_without_writer module_manager circuit_lib tech_lib
                circuit_tech_binding (models circuit_lib) CMD_EXEC_SUCCESS
                (puts fp (map (Line FileHeader)
                            (print_spice_file_header ext "Essential gates")))
                Hall) as Hl.
  destruct (essential_gates_loop ext module_manager circuit_lib tech_lib
              circuit_tech_binding (models circuit_lib) CMD_EXEC_SUCCESS
              (puts fp (map (Line FileHeader)
                          (print_spice_file_header ext "Essential gates"))))
    as [st1 fp1|st1 fp1|st1 fp1|fp1]; cbn [turn_stream] in Hl; subst fp1;
    try reflexivity;
    unfold close_and_register;
    destruct (add_netlist ext netlist_manager
                (submodule_dir ++ ESSENTIALS_SPICE_FILE_NAME ext))
      as [nm1 [id|]]; reflexivity.
Qed.

End Success.

(** A technology library without transistor model: the wrapper file holds
    its banner and the call succeeds. *)
Lemma transistor_wrapper_success_iff_witness :
  steady Demo.fresh
  /\ print_spice_transistor_wrapper Demo.ext Demo.fresh [] Samples.rram_only
       "dir/"
     = (Returned CMD_EXEC_SUCCESS,
        close (puts Demo.fresh
                 (map (Line FileHeader)
                    (print_spice_file_header Demo.ext "Transistor wrappers"))),
        [("dir/transistor.sp", Some SUBMODULE_NETLIST)]).
Proof.
  assert (Hs : steady Demo.fresh) by (split; reflexivity).
  split; [exact Hs|].
  apply (transistor_wrapper_success_iff Demo.ext Demo.fresh [] Samples.rram_only
           "dir/" _ _ eq_refl Hs).
  split; [reflexivity|]. split; [reflexivity|].
  exists [("dir/transistor.sp", None)], 0%nat. split; reflexivity.
Defined.

(** The pass over the library of the demonstration, with every model bound,
    returns success. *)
Lemma essential_gates_success_witness :
  fst (fst Samples.whole_pass) = Returned CMD_EXEC_SUCCESS
  /\ List.Forall
       (passable Demo.circuit_lib Demo.tech_lib Samples.full_binding)
       (models Demo.circuit_lib)
  /\ is_open (snd (fst Samples.whole_pass)) = false.
Proof.
  assert (E : print_spice_essential_gates Demo.ext Demo.fresh []
                Demo.module_manager Demo.circuit_lib Demo.tech_lib
                Samples.full_binding "dir/"
              = (Returned CMD_EXEC_SUCCESS, snd (fst Samples.whole_pass),
                 snd Samples.whole_pass))
    by (vm_compute; reflexivity).
  split; [vm_compute; reflexivity|].
  destruct (essential_gates_success Demo.ext Demo.fresh [] Demo.module_manager
              Demo.circuit_lib Demo.tech_lib Samples.full_binding "dir/" _ _ E)
    as [_ [Hall [Hclosed _]]].
  split; [exact Hall | exact Hclosed].
Defined.

(** With the inverters and buffers read from an external netlist, the
    essential gates file holds its banner alone. *)
Lemma only_invbuf_models_are_written_witness :
  List.Forall (without_writer Samples.all_extern) (models Samples.all_extern)
  /\ written (snd (fst (print_spice_essential_gates Demo.ext Demo.fresh []
                          Demo.module_manager Samples.all_extern Demo.tech_lib
                          Demo.binding "dir/")))
     = [Line FileHeader "* Essential gates"].
Proof.
  assert (Hall : List.Forall (without_writer Samples.all_extern)
                   (models Samples.all_extern)).
  { repeat (apply List.Forall_cons; [left; reflexivity|]).
    apply List.Forall_cons; [right; discriminate | constructor]. }
  split; [exact Hall|].
  apply (only_invbuf_models_are_written Demo.ext Demo.fresh []
           Demo.module_manager Samples.all_extern Demo.tech_lib Demo.binding
           "dir/" eq_refl Hall).
Defined.

(** ** Power-gated stages, line by line *)

Section PowerGatedLines.
Context {F : Type} `{CxxFloat F} {NetlistManager : Type}.
Variable ext : Externals F NetlistManager.

Lemma pmos_chain_writes post out (cl : CircuitLibrary F) port tl tm w ps
  first last fp :
  steady fp ->
  steady (powergated_pmos_chain ext post out cl port tl tm w ps first last fp)
  /\ written (powergated_pmos_chain ext post out cl port tl tm w ps first last fp)
     = (written fp
        ++ map (fun pp : option nat * nat =>
                  Line (PowerGateDevice TECH_LIB_TRANSISTOR_PMOS)
                    (join (pmos_switch_fields ext post out cl port tl tm w
                             (fst pp) (snd pp))))
             (with_previous (if first then None else Some last) ps))%list.
Proof.
  revert first last fp. induction ps as [|pin rest IH]; intros first last fp Hs.
  - cbn [powergated_pmos_chain with_previous map]. rewrite app_nil_r. auto.
  - cbn [powergated_pmos_chain with_previous map]. cbv zeta.
    match goal with
    | |- context [put fp ?l] =>
        destruct (put_steady fp l Hs) as [Hs1 Hw1];
        destruct (IH false pin (put fp l) Hs1) as [Hs2 Hw2]
    end.
    split; [exact Hs2|]. rewrite Hw2, Hw1, <- app_assoc. cbn [app].
    do 3 f_equal. unfold join, pmos_switch_fields, pin_net, power_gate_node.
    cbn [String.concat fst snd].
    destruct first; rewrite !string_app_assoc; reflexivity.
Qed.

Lemma nmos_chain_writes post out (cl : CircuitLibrary F) port tl tm w ps
  first last fp :
  steady fp ->
  steady (powergated_nmos_chain ext post out cl port tl tm w ps first last fp)
  /\ written (powergated_nmos_chain ext post out cl port tl tm w ps first last fp)
     = (written fp
        ++ map (fun pp : option nat * nat =>
                  Line (PowerGateDevice TECH_LIB_TRANSISTOR_NMOS)
                    (join (nmos_switch_fields ext post out cl port tl tm w
                             (fst pp) (snd pp))))
             (with_previous (if first then None else Some last) ps))%list.
Proof.
  revert first last fp. induction ps as [|pin rest IH]; intros first last fp Hs.
  - cbn [powergated_nmos_chain with_previous map]. rewrite app_nil_r. auto.
  - cbn [powergated_nmos_chain with_previous map]. cbv zeta.
    match goal with
    | |- context [put fp ?l] =>
        destruct (put_steady fp l Hs) as [Hs1 Hw1];
        destruct (IH false pin (put fp l) Hs1) as [Hs2 Hw2]
    end.
    split; [exact Hs2|]. rewrite Hw2, Hw1, <- app_assoc. cbn [app].
    do 3 f_equal. unfold join, nmos_switch_fields, pin_net, power_gate_node.
    cbn [String.concat fst snd].
    destruct first; rewrite !string_app_assoc; reflexivity.
Qed.

(** One call of a device writer of a power-gated stage on a steady
    stream. *)
Lemma powergated_pmos_modeling_writes fp post i o (cl : CircuitLibrary F)
  port tl tm w :
  steady fp ->
  exists fp',
    print_spice_powergated_inverter_pmos_modeling ext fp post i o cl port tl tm w
    = (CMD_EXEC_SUCCESS, fp')
    /\ steady fp'
    /\ written fp'
       = (written fp
          ++ powergated_bin_lines ext TECH_LIB_TRANSISTOR_PMOS post i o cl
               port tl tm w)%list.
Proof.
  intros Hs. unfold print_spice_powergated_inverter_pmos_modeling.
  destruct Hs as [Hv Hr]. rewrite Hv. cbn [negb]. cbv zeta.
  destruct (pmos_chain_writes post o cl port tl tm w (pins cl port) true 0%nat
              fp (conj Hv Hr)) as [Hs1 Hw1].
  eexists. split; [reflexivity|].
  match goal with
  | |- context [put ?f ?l] => destruct (put_steady f l Hs1) as [Hs2 Hw2]
  end.
  split; [exact Hs2|]. rewrite Hw2, Hw1, <- app_assoc.
  unfold powergated_bin_lines. do 3 f_equal.
  unfold join, pmos_core_fields, power_gate_node. cbn [String.concat].
  rewrite !string_app_assoc. reflexivity.
Qed.

Lemma powergated_nmos_modeling_writes fp post i o (cl : CircuitLibrary F)
  port tl tm w :
  steady fp ->
  exists fp',
    print_spice_powergated_inverter_nmos_modeling ext fp post i o cl port tl tm w
    = (CMD_EXEC_SUCCESS, fp')
    /\ steady fp'
    /\ written fp'
       = (written fp
          ++ powergated_bin_lines ext TECH_LIB_TRANSISTOR_NMOS post i o cl
               port tl tm w)%list.
Proof.
  intros Hs. unfold print_spice_powergated_inverter_nmos_modeling.
  destruct Hs as [Hv Hr]. rewrite Hv. cbn [negb]. cbv zeta.
  destruct (nmos_chain_writes post o cl port tl tm w (pins cl port) true 0%nat
              fp (conj Hv Hr)) as [Hs1 Hw1].
  eexists. split; [reflexivity|].
  match goal with
  | |- context [put ?f ?l] => destruct (put_steady f l Hs1) as [Hs2 Hw2]
  end.
  split; [exact Hs2|]. rewrite Hw2, Hw1, <- app_assoc.
  unfold powergated_bin_lines. reflexivity.
Qed.

End PowerGatedLines.

(** ** Terminals and files of the power-gated writers *)

Section PowerGatedFiles.
Context {F : Type} `{CxxFloat F} {NetlistManager : Type}.
Variable ext : Externals F NetlistManager.

Lemma no_blank_to_string (n : nat) : no_blank (to_string n) = true.
Proof. apply token_to_string. Qed.

Lemma token_power_gate_node t out pin :
  token out -> token (power_gate_node t out pin).
Proof.
  intros Ho. unfold power_gate_node. apply token_app_l; [exact Ho|].
  rewrite no_blank_app, no_blank_to_string. now destruct t.
Qed.

Lemma token_width (w : F) :
  no_blank (f_to_string w) = true -> token ("W=" ++ f_to_string w).
Proof.
  intros Hw. apply token_app_l; [split; [reflexivity | discriminate]|].
  exact Hw.
Qed.

Lemma token_switch_name (head post : string) (pin : nat) :
  token head -> no_blank post = true ->
  token (head ++ post ++ "_pin_" ++ to_string pin).
Proof.
  intros Hh Hp. apply token_app_l; [exact Hh|].
  rewrite !no_blank_app, Hp, no_blank_to_string. reflexivity.
Qed.

Section Side.
Variables (trans_name_postfix input_port_name output_port_name : string).
Variables (circuit_lib : CircuitLibrary F) (port : CircuitPortId).
Variables (tech_lib : TechnologyLibrary F) (tech_model : TechnologyModelId).
Variable trans_width : F.
Hypothesis Hpost : no_blank trans_name_postfix = true.
Hypothesis Hin : token input_port_name.
Hypothesis Hout : token output_port_name.
Hypothesis Hpin : forall pin, token (pin_net ext circuit_lib port pin).
Hypothesis Hwidth : no_blank (f_to_string trans_width) = true.

Lemma pmos_switch_fields_tokens prev pin :
  token (wrapper_name ext tech_lib tech_model TECH_LIB_TRANSISTOR_PMOS) ->
  List.Forall token
    (pmos_switch_fields ext trans_name_postfix output_port_name circuit_lib
       port tech_lib tech_model trans_width prev pin).
Proof.
  intros Hw. unfold pmos_switch_fields.
  repeat (apply List.Forall_cons); try assumption.
  - apply token_switch_name; [split; [reflexivity | discriminate] | exact Hpost].
  - now apply token_power_gate_node.
  - apply Hpin.
  - destruct prev; [now apply token_power_gate_node|].
    split; [reflexivity | discriminate].
  - split; [reflexivity | discriminate].
  - now apply token_width.
  - constructor.
Qed.

Lemma pmos_core_fields_tokens :
  token (wrapper_name ext tech_lib tech_model TECH_LIB_TRANSISTOR_PMOS) ->
  List.Forall token
    (pmos_core_fields ext trans_name_postfix input_port_name output_port_name
       circuit_lib port tech_lib tech_model trans_width).
Proof.
  intros Hw. unfold pmos_core_fields.
  repeat (apply List.Forall_cons); try assumption.
  - apply token_app_l; [split; [reflexivity | discriminate] | exact Hpost].
  - now apply token_power_gate_node.
  - split; [reflexivity | discriminate].
  - now apply token_width.
  - constructor.
Qed.

Lemma nmos_switch_fields_tokens prev pin :
  token (port_prefix circuit_lib port) ->
  token (wrapper_name ext tech_lib tech_model TECH_LIB_TRANSISTOR_NMOS) ->
  List.Forall token
    (nmos_switch_fields ext trans_name_postfix output_port_name circuit_lib
       port tech_lib tech_model trans_width prev pin).
Proof.
  intros Hpre Hw. unfold nmos_switch_fields.
  repeat (apply List.Forall_cons); try assumption.
  - apply token_switch_name; [split; [reflexivity | discriminate] | exact Hpost].
  - now apply token_power_gate_node.
  - destruct prev; [exact Hpre | apply Hpin].
  - destruct prev; [now apply token_power_gate_node|].
    split; [reflexivity | discriminate].
  - split; [reflexivity | discriminate].
  - now apply token_width.
  - constructor.
Qed.

Lemma nmos_core_fields_tokens :
  token (wrapper_name ext tech_lib tech_model TECH_LIB_TRANSISTOR_NMOS) ->
  List.Forall token
    (nmos_core_fields ext trans_name_postfix input_port_name output_port_name
       circuit_lib port tech_lib tech_model trans_width).
Proof.
  intros Hw. unfold nmos_core_fields.
  repeat (apply List.Forall_cons); try assumption.
  - apply token_app_l; [split; [reflexivity | discriminate] | exact Hpost].
  - apply token_app_l; [split; [reflexivity | discriminate]|].
    apply no_blank_to_string.
  - split; [reflexivity | discriminate].
  - now apply token_width.
  - constructor.
Qed.

(** X10.  One bin of the PMOS side of a power-gated stage, when the names
    involved are blank-free tokens and the enable-bar port has a pin: the
    writer adds one switch per pin, in the order of the pins, then the
    stage device.  The switches and the stage device are in series between
    LVDD and the output net: the switch of the first pin joins LVDD and the
    node of its pin, every later switch joins the node of the pin before it
    and the node of its own pin, and the stage device sits between the node
    of the last pin (source) and the output net (drain), gated by the input
    net.  Every switch is gated by the net of its pin of the enable-bar
    port, and every bulk is LVDD. *)
Theorem powergated_pmos_stage_in_series (fp : fstream) :
  steady fp ->
  pins circuit_lib port <> [] ->
  token (wrapper_name ext tech_lib tech_model TECH_LIB_TRANSISTOR_PMOS) ->
  exists fp' chain core,
    print_spice_powergated_inverter_pmos_modeling ext fp trans_name_postfix
      input_port_name output_port_name circuit_lib port tech_lib tech_model
      trans_width
    = (CMD_EXEC_SUCCESS, fp')
    /\ written fp' = (written fp ++ chain ++ [core])%list
    /\ map terminals chain
       = map (fun pp : option nat * nat =>
                (power_gate_node TECH_LIB_TRANSISTOR_PMOS output_port_name
                   (match fst pp with Some q => q | None => snd pp end),
                 pin_net ext circuit_lib port (snd pp),
                 match fst pp with
                 | Some _ =>
                     power_gate_node TECH_LIB_TRANSISTOR_PMOS output_port_name
                       (snd pp)
                 | None => "LVDD"
                 end,
                 "LVDD"))
           (with_previous None (pins circuit_lib port))
    /\ terminals core
       = (output_port_name, input_port_name,
          power_gate_node TECH_LIB_TRANSISTOR_PMOS output_port_name
            (List.last (pins circuit_lib port) 0%nat),
          "LVDD")
    /\ nth 5 (words (text core)) ""
       = wrapper_name ext tech_lib tech_model TECH_LIB_TRANSISTOR_PMOS.
Proof.
  intros Hs _ Hw.
  destruct (powergated_pmos_modeling_writes ext fp trans_name_postfix
              input_port_name output_port_name circuit_lib port tech_lib
              tech_model trans_width Hs) as [fp' [He [_ Hwr]]].
  exists fp'. eexists. eexists. split; [exact He|].
  split; [exact Hwr|]. split; [|split].
  - rewrite List.map_map. apply List.map_ext. intros [prev pin].
    unfold terminals, drain_net, gate_net, source_net, bulk_net.
    cbn [text fst snd].
    rewrite (words_join _ (pmos_switch_fields_tokens prev pin Hw)).
    destruct prev; reflexivity.
  - unfold terminals, drain_net, gate_net, source_net, bulk_net. cbn [text].
    rewrite (words_join _ (pmos_core_fields_tokens Hw)). reflexivity.
  - cbn [text]. rewrite (words_join _ (pmos_core_fields_tokens Hw)).
    reflexivity.
Qed.

(** X11.  One bin of the NMOS side of a power-gated stage, as the code
    writes it, when the names involved are blank-free tokens and the enable
    port has a pin: one switch per pin, then the stage device.  The switch
    of the first pin joins LGND and the node of its pin and is gated by the
    net of its pin; every later switch joins the node of the pin before it
    and the node of its own pin and is gated by the prefix of the enable
    port, without pin.  The line of the stage device has eight fields: its
    drain is the output net, its gate the input net, its source the output
    net again and its bulk the tail of the node name of the last pin, so
    that the field read as the model is LGND. *)
Theorem powergated_nmos_stage_as_written (fp : fstream) :
  steady fp ->
  pins circuit_lib port <> [] ->
  token (port_prefix circuit_lib port) ->
  token (wrapper_name ext tech_lib tech_model TECH_LIB_TRANSISTOR_NMOS) ->
  exists fp' chain core,
    print_spice_powergated_inverter_nmos_modeling ext fp trans_name_postfix
      input_port_name output_port_name circuit_lib port tech_lib tech_model
      trans_width
    = (CMD_EXEC_SUCCESS, fp')
    /\ written fp' = (written fp ++ chain ++ [core])%list
    /\ map terminals chain
       = map (fun pp : option nat * nat =>
                (power_gate_node TECH_LIB_TRANSISTOR_NMOS output_port_name
                   (match fst pp with Some q => q | None => snd pp end),
                 match fst pp with
                 | Some _ => port_prefix circuit_lib port
                 | None => pin_net ext circuit_lib port (snd pp)
                 end,
                 match fst pp with
                 | Some _ =>
                     power_gate_node TECH_LIB_TRANSISTOR_NMOS output_port_name
                       (snd pp)
                 | None => "LGND"
                 end,
                 "LGND"))
           (with_previous None (pins circuit_lib port))
    /\ length (words (text core)) = 8%nat
    /\ terminals core
       = (output_port_name, input_port_name, output_port_name,
          "_nmos_pg_" ++ to_string (List.last (pins circuit_lib port) 0%nat))
    /\ nth 5 (words (text core)) "" = "LGND".
Proof.
  intros Hs _ Hpre Hw.
  destruct (powergated_nmos_modeling_writes ext fp trans_name_postfix
              input_port_name output_port_name circuit_lib port tech_lib
              tech_model trans_width Hs) as [fp' [He [_ Hwr]]].
  exists fp'. eexists. eexists. split; [exact He|].
  split; [exact Hwr|]. split; [|split; [|split]].
  - rewrite List.map_map. apply List.map_ext. intros [prev pin].
    unfold terminals, drain_net, gate_net, source_net, bulk_net.
    cbn [text fst snd].
    rewrite (words_join _ (nmos_switch_fields_tokens prev pin Hpre Hw)).
    destruct prev; reflexivity.
  - cbn [text]. rewrite (words_join _ (nmos_core_fields_tokens Hw)).
    reflexivity.
  - unfold terminals, drain_net, gate_net, source_net, bulk_net. cbn [text].
    rewrite (words_join _ (nmos_core_fields_tokens Hw)). reflexivity.
  - cbn [text]. rewrite (words_join _ (nmos_core_fields_tokens Hw)).
    reflexivity.
Qed.

End Side.

(** A loop over bins whose body, on a steady stream, succeeds and adds the
    lines [g ibin]. *)
Lemma for_bins_appends (body : nat -> fstream -> exit_code * fstream)
  (g : nat -> list line) :
  (forall ibin fp, steady fp ->
     exists fp', body ibin fp = (CMD_EXEC_SUCCESS, fp') /\ steady fp'
                 /\ written fp' = (written fp ++ g ibin)%list) ->
  forall ibins st fp, steady fp ->
    exists st' fp',
      for_bins body ibins st fp = inr (st', fp') /\ steady fp'
      /\ (st = CMD_EXEC_SUCCESS -> st' = CMD_EXEC_SUCCESS)
      /\ written fp' = (written fp ++ flat_map g ibins)%list.
Proof.
  intros Hbody ibins. induction ibins as [|ibin rest IH]; intros st fp Hs.
  - exists st, fp. cbn [for_bins flat_map]. rewrite app_nil_r. auto.
  - cbn [for_bins flat_map].
    destruct (Hbody ibin fp Hs) as [fp1 [Hb [Hs1 Hw1]]]. rewrite Hb.
    cbn [exit_code_eqb].
    destruct (IH CMD_EXEC_SUCCESS fp1 Hs1) as [st' [fp' [Hl [Hs' [Hst Hw']]]]].
    exists st', fp'. split; [exact Hl|]. split; [exact Hs'|]. split; [auto|].
    rewrite Hw', Hw1, <- app_assoc. reflexivity.
Qed.

(** The two bin loops of one power-gated stage on a steady stream. *)
Lemma powergated_stage_writes (cl : CircuitLibrary F) (cm : CircuitModelId)
  tl tm (postfix : nat -> string) (size : F) st fp :
  steady fp ->
  exists st1 fp1 st2 fp2,
    for_bins
      (fun ibin fp =>
         print_spice_powergated_inverter_pmos_modeling ext fp (postfix ibin)
           (input_net cl cm) (output_net cl cm) cl
           (find_circuit_model_power_gate_enb_port ext cl cm) tl tm
           (curr_bin_width (total_pmos_width tl tm size)
              (transistor_model_max_width tl tm TECH_LIB_TRANSISTOR_PMOS)
              ibin))
      (bin_indices (total_pmos_width tl tm size)
         (transistor_model_max_width tl tm TECH_LIB_TRANSISTOR_PMOS)) st fp
    = inr (st1, fp1)
    /\ for_bins
      (fun ibin fp =>
         print_spice_powergated_inverter_nmos_modeling ext fp (postfix ibin)
           (input_net cl cm) (output_net cl cm) cl
           (find_circuit_model_power_gate_en_port ext cl cm) tl tm
           (curr_bin_width (total_nmos_width tl tm size)
              (transistor_model_max_width tl tm TECH_LIB_TRANSISTOR_NMOS)
              ibin))
      (bin_indices (total_nmos_width tl tm size)
         (transistor_model_max_width tl tm TECH_LIB_TRANSISTOR_NMOS)) st1 fp1
    = inr (st2, fp2)
    /\ steady fp2
    /\ (st = CMD_EXEC_SUCCESS -> st2 = CMD_EXEC_SUCCESS)
    /\ written fp2
       = (written fp ++ powergated_stage_lines ext postfix cl cm tl tm size)%list.
Proof.
  intros Hs.
  match goal with
  | |- exists st1 fp1 st2 fp2, for_bins ?bP ?lP _ _ = _ /\ _ =>
      destruct (for_bins_appends bP
                  (fun ibin =>
                     powergated_bin_lines ext TECH_LIB_TRANSISTOR_PMOS
                       (postfix ibin) (input_net cl cm) (output_net cl cm) cl
                       (find_circuit_model_power_gate_enb_port ext cl cm) tl tm
                       (curr_bin_width (total_pmos_width tl tm size)
                          (transistor_model_max_width tl tm
                             TECH_LIB_TRANSISTOR_PMOS) ibin))
                  (fun ibin fp0 Hs0 =>
                     powergated_pmos_modeling_writes ext fp0 (postfix ibin)
                       (input_net cl cm) (output_net cl cm) cl
                       (find_circuit_model_power_gate_enb_port ext cl cm) tl tm
                       (curr_bin_width (total_pmos_width tl tm size)
                          (transistor_model_max_width tl tm
                             TECH_LIB_TRANSISTOR_PMOS) ibin) Hs0)
                  lP st fp Hs)
        as [st1 [fp1 [Hl1 [Hs1 [Hst1 Hw1]]]]]
  end.
  match goal with
  | |- exists st1 fp1 st2 fp2, _ /\ for_bins ?bN ?lN _ _ = _ /\ _ =>
      destruct (for_bins_appends bN
                  (fun ibin =>
                     powergated_bin_lines ext TECH_LIB_TRANSISTOR_NMOS
                       (postfix ibin) (input_net cl cm) (output_net cl cm) cl
                       (find_circuit_model_power_gate_en_port ext cl cm) tl tm
                       (curr_bin_width (total_nmos_width tl tm size)
                          (transistor_model_max_width tl tm
                             TECH_LIB_TRANSISTOR_NMOS) ibin))
                  (fun ibin fp0 Hs0 =>
                     powergated_nmos_modeling_writes ext fp0 (postfix ibin)
                       (input_net cl cm) (output_net cl cm) cl
                       (find_circuit_model_power_gate_en_port ext cl cm) tl tm
                       (curr_bin_width (total_nmos_width tl tm size)
                          (transistor_model_max_width tl tm
                             TECH_LIB_TRANSISTOR_NMOS) ibin) Hs0)
                  lN st1 fp1 Hs1)
        as [st2 [fp2 [Hl2 [Hs2 [Hst2 Hw2]]]]]
  end.
  exists st1, fp1, st2, fp2. split; [exact Hl1|]. split; [exact Hl2|].
  split; [exact Hs2|]. split; [auto|].
  rewrite Hw2, Hw1, <- app_assoc. reflexivity.
Qed.

(** X12.  A power-gated inverter with one input and one output port of
    size 1 and valid enable and enable-bar ports with at least one pin
    each, written on a stream that stays writable: the writer returns success and adds the subckt
    definition, then for every PMOS bin the chain of the enable-bar port
    and the stage device, then for every NMOS bin the chain of the enable
    port and the stage device, then the subckt end. *)
Theorem powergated_inverter_file
  (fp : fstream) (module_manager : ModuleManager) (module_id : ModuleId)
  (circuit_lib : CircuitLibrary F) (circuit_model : CircuitModelId)
  (tech_lib : TechnologyLibrary F) (tech_model : TechnologyModelId) :
  steady fp ->
  one_scalar_input_and_output circuit_lib circuit_model ->
  power_gating_ready ext circuit_lib circuit_model ->
  exists fp',
    print_spice_powergated_inverter_subckt ext fp module_manager module_id
      circuit_lib circuit_model tech_lib tech_model
    = (Returned CMD_EXEC_SUCCESS, fp')
    /\ steady fp'
    /\ written fp'
       = (written fp
          ++ subckt_definition_lines ext module_manager module_id
          ++ powergated_stage_lines ext to_string circuit_lib circuit_model
               tech_lib tech_model (buffer_size circuit_lib circuit_model)
          ++ subckt_end_lines ext module_manager module_id)%list.
Proof.
  intros Hs [Hin Hout] [Hpg [Hen [Henb _]]].
  unfold print_spice_powergated_inverter_subckt.
  destruct Hs as [Hv Hr]. rewrite Hv. cbn [negb]. cbv zeta.
  apply one_port_of_size_one_iff in Hin. apply one_port_of_size_one_iff in Hout.
  rewrite Hin, Hout, Hpg, Hen, Henb. cbn [negb].
  destruct (puts_steady (subckt_definition_lines ext module_manager module_id)
              fp (conj Hv Hr)) as [Hs1 Hw1].
  destruct (powergated_stage_writes circuit_lib circuit_model tech_lib
              tech_model to_string (buffer_size circuit_lib circuit_model)
              CMD_EXEC_SUCCESS _ Hs1)
    as [st1 [fp1 [st2 [fp2 [Hl1 [Hl2 [Hs2 [_ Hw2]]]]]]]].
  unfold input_net, output_net in Hl1, Hl2. rewrite Hl1, Hl2.
  destruct (puts_steady (subckt_end_lines ext module_manager module_id)
              fp2 Hs2) as [Hs3 Hw3].
  eexists. split; [reflexivity|]. split; [exact Hs3|].
  rewrite Hw3, Hw2, Hw1, <- !app_assoc. reflexivity.
Qed.

(** One level of a power-gated buffer on a steady stream. *)
Lemma powergated_buffer_level_writes (cl : CircuitLibrary F) cm tl tm ws
  level st fp :
  steady fp ->
  exists st' fp',
    powergated_buffer_level ext cl
      (model_ports_by_type cl cm CIRCUIT_MODEL_PORT_INPUT true)
      (model_ports_by_type cl cm CIRCUIT_MODEL_PORT_OUTPUT true)
      (find_circuit_model_power_gate_en_port ext cl cm)
      (find_circuit_model_power_gate_enb_port ext cl cm)
      tl tm ws level st fp = inr (st', fp')
    /\ steady fp'
    /\ (st = CMD_EXEC_SUCCESS -> st' = CMD_EXEC_SUCCESS)
    /\ written fp'
       = (written fp
          ++ powergated_stage_lines ext (level_bin_postfix level) cl cm tl tm
               (nth level ws f_one))%list.
Proof.
  intros Hs. unfold powergated_buffer_level. cbv zeta.
  destruct (powergated_stage_writes cl cm tl tm (level_bin_postfix level)
              (nth level ws f_one) st fp Hs)
    as [st1 [fp1 [st2 [fp2 [Hl1 [Hl2 [Hs2 [Hst Hw2]]]]]]]].
  unfold input_net, output_net in Hl1, Hl2. rewrite Hl1.
  exists st2, fp2. split; [exact Hl2|]. split; [exact Hs2|].
  split; [exact Hst | exact Hw2].
Qed.

(** X13.  A power-gated buffer with one input and one output port of size
    1, valid enable and enable-bar ports with at least one pin each and at
    least two levels, written on a stream that stays writable: the writer returns success and adds
    the subckt definition, then level by level the lines of a power-gated
    stage of drive strength [buffer_size * pow(f_per_stage, level)], named
    by level and bin, then the subckt end. *)
Theorem powergated_buffer_file
  (fp : fstream) (module_manager : ModuleManager) (module_id : ModuleId)
  (circuit_lib : CircuitLibrary F) (circuit_model : CircuitModelId)
  (tech_lib : TechnologyLibrary F) (tech_model : TechnologyModelId) :
  steady fp ->
  one_scalar_input_and_output circuit_lib circuit_model ->
  power_gating_ready ext circuit_lib circuit_model ->
  (2 <= buffer_num_levels circuit_lib circuit_model)%nat ->
  exists fp',
    print_spice_powergated_buffer_subckt ext fp module_manager module_id
      circuit_lib circuit_model tech_lib tech_model
    = (Returned CMD_EXEC_SUCCESS, fp')
    /\ steady fp'
    /\ written fp'
       = (written fp
          ++ subckt_definition_lines ext module_manager module_id
          ++ flat_map
               (fun level =>
                  powergated_stage_lines ext (level_bin_postfix level)
                    circuit_lib circuit_model tech_lib tech_model
                    (f_mul_pow (buffer_size circuit_lib circuit_model)
                       (buffer_f_per_stage circuit_lib circuit_model) level))
               (seq 0 (buffer_num_levels circuit_lib circuit_model))
          ++ subckt_end_lines ext module_manager module_id)%list.
Proof.
  intros Hs [Hin Hout] [Hpg [Hen [Henb _]]] HL.
  unfold print_spice_powergated_buffer_subckt.
  destruct Hs as [Hv Hr]. rewrite Hv. cbn [negb]. cbv zeta.
  apply one_port_of_size_one_iff in Hin. apply one_port_of_size_one_iff in Hout.
  rewrite Hin, Hout, Hpg, Hen, Henb. cbn [negb].
  apply Nat.leb_le in HL. rewrite HL. cbn [negb].
  destruct (puts_steady (subckt_definition_lines ext module_manager module_id)
              fp (conj Hv Hr)) as [Hs1 Hw1].
  match goal with
  | |- context [for_levels ?b ?l ?st ?f] =>
      destruct (for_levels_writes b
                  (fun level =>
                     powergated_stage_lines ext (level_bin_postfix level)
                       circuit_lib circuit_model tech_lib tech_model
                       (nth level
                          (build_buffer_widths circuit_lib circuit_model)
                          f_one))
                  (fun level st0 fp0 Hs0 =>
                     powergated_buffer_level_writes circuit_lib circuit_model
                       tech_lib tech_model
                       (build_buffer_widths circuit_lib circuit_model)
                       level st0 fp0 Hs0)
                  l st f Hs1)
        as [st1 [fp1 [Hl [Hs2 [Hst Hw2]]]]]
  end.
  rewrite Hl.
  destruct (puts_steady (subckt_end_lines ext module_manager module_id)
              fp1 Hs2) as [Hs3 Hw3].
  eexists. split; [reflexivity|]. split; [exact Hs3|].
  rewrite Hw3, Hw2, Hw1, <- !app_assoc. do 2 f_equal.
  f_equal. apply flat_map_ext_seq. intros level Hlevel.
  rewrite build_buffer_widths_map.
  rewrite (nth_indep _ f_one
             (f_mul_pow (buffer_size circuit_lib circuit_model)
                (buffer_f_per_stage circuit_lib circuit_model) 0%nat))
    by (rewrite List.length_map, List.length_seq; lia).
  rewrite List.map_nth, seq_nth by lia. reflexivity.
Qed.

End PowerGatedFiles.

(** The nets of the pins of the demonstration are tokens. *)
Lemma demo_pin_net_token (port : CircuitPortId) (pin : nat) :
  token (pin_net Demo.ext Demo.circuit_lib port pin).
Proof.
  unfold pin_net.
  cbn [generate_spice_port Demo.ext get_name get_lsb].
  assert (Hp : token (port_prefix Demo.circuit_lib port))
    by (destruct port as [|[|[|?]]]; split; (reflexivity || discriminate)).
  destruct Hp as [Hp Hne]. split.
  - rewrite !no_blank_app, Hp, (proj1 (token_to_string pin)). reflexivity.
  - destruct (port_prefix Demo.circuit_lib port); [congruence | discriminate].
Qed.

(** The first PMOS bin of the power-gated inverter of the demonstration:
    two switches and the stage device between LVDD and the output. *)
Lemma powergated_pmos_stage_in_series_witness :
  exists fp' chain core,
    print_spice_powergated_inverter_pmos_modeling Demo.ext Demo.fresh "0"
      "in" "out" Demo.circuit_lib Demo.enb_port Demo.tech_lib 0%nat
      Demo.nmos_max
    = (CMD_EXEC_SUCCESS, fp')
    /\ written fp' = (chain ++ [core])%list
    /\ map terminals chain
       = [ ("out_pmos_pg_0", "enb[0]", "LVDD", "LVDD");
           ("out_pmos_pg_0", "enb[1]", "out_pmos_pg_1", "LVDD") ]
    /\ terminals core = ("out", "in", "out_pmos_pg_1", "LVDD").
Proof.
  assert (Hi : token "in") by (split; [reflexivity | discriminate]).
  assert (Ho : token "out") by (split; [reflexivity | discriminate]).
  assert (Hx : no_blank (f_to_string Demo.nmos_max) = true) by reflexivity.
  destruct (powergated_pmos_stage_in_series Demo.ext "0" "in" "out"
              Demo.circuit_lib Demo.enb_port Demo.tech_lib 0%nat Demo.nmos_max
              eq_refl Hi Ho (demo_pin_net_token Demo.enb_port) Hx Demo.fresh)
    as [fp' [chain [core [He [Hw [Hc [Ht _]]]]]]].
  - split; reflexivity.
  - discriminate.
  - split; [reflexivity | discriminate].
  - exists fp', chain, core.
    split; [exact He|]. split; [exact Hw|]. split; [exact Hc | exact Ht].
Defined.

(** The first NMOS bin of the power-gated inverter of the demonstration. *)
Lemma powergated_nmos_stage_as_written_witness :
  exists fp' chain core,
    print_spice_powergated_inverter_nmos_modeling Demo.ext Demo.fresh "0"
      "in" "out" Demo.circuit_lib Demo.en_port Demo.tech_lib 0%nat
      Demo.nmos_max
    = (CMD_EXEC_SUCCESS, fp')
    /\ written fp' = (chain ++ [core])%list
    /\ map terminals chain
       = [ ("out_nmos_pg_0", "en[0]", "LGND", "LGND");
           ("out_nmos_pg_0", "en", "out_nmos_pg_1", "LGND") ]
    /\ terminals core = ("out", "in", "out", "_nmos_pg_1").
Proof.
  assert (Hi : token "in") by (split; [reflexivity | discriminate]).
  assert (Ho : token "out") by (split; [reflexivity | discriminate]).
  assert (Hx : no_blank (f_to_string Demo.nmos_max) = true) by reflexivity.
  destruct (powergated_nmos_stage_as_written Demo.ext "0" "in" "out"
              Demo.circuit_lib Demo.en_port Demo.tech_lib 0%nat Demo.nmos_max
              eq_refl Hi Ho (demo_pin_net_token Demo.en_port) Hx Demo.fresh)
    as [fp' [chain [core [He [Hw [Hc [_ [Ht _]]]]]]]].
  - split; reflexivity.
  - discriminate.
  - split; [reflexivity | discriminate].
  - split; [reflexivity | discriminate].
  - exists fp', chain, core.
    split; [exact He|]. split; [exact Hw|]. split; [exact Hc | exact Ht].
Defined.

(** The power-gated inverter of the demonstration. *)
Lemma powergated_inverter_file_witness :
  steady Demo.fresh
  /\ one_scalar_input_and_output Demo.circuit_lib Demo.inv_pg
  /\ power_gating_ready Demo.ext Demo.circuit_lib Demo.inv_pg
  /\ exists fp',
      print_spice_powergated_inverter_subckt Demo.ext Demo.fresh
        Demo.module_manager 1%nat Demo.circuit_lib Demo.inv_pg Demo.tech_lib
        0%nat
      = (Returned CMD_EXEC_SUCCESS, fp')
      /\ steady fp'.
Proof.
  assert (Hs : steady Demo.fresh) by (split; reflexivity).
  assert (Hp : one_scalar_input_and_output Demo.circuit_lib Demo.inv_pg)
    by (split; eexists; split; reflexivity).
  assert (Hg : power_gating_ready Demo.ext Demo.circuit_lib Demo.inv_pg)
    by (split; [reflexivity|]; split; [reflexivity|]; split; [reflexivity|];
        split; discriminate).
  split; [exact Hs|]. split; [exact Hp|]. split; [exact Hg|].
  destruct (powergated_inverter_file Demo.ext Demo.fresh Demo.module_manager
              1%nat Demo.circuit_lib Demo.inv_pg Demo.tech_lib 0%nat Hs Hp Hg)
    as [fp' [He [Hs' _]]].
  exists fp'. split; [exact He | exact Hs'].
Defined.

(** The power-gated buffer of the demonstration. *)
Lemma powergated_buffer_file_witness :
  steady Demo.fresh
  /\ one_scalar_input_and_output Demo.circuit_lib Demo.buf_pg
  /\ power_gating_ready Demo.ext Demo.circuit_lib Demo.buf_pg
  /\ (2 <= buffer_num_levels Demo.circuit_lib Demo.buf_pg)%nat
  /\ exists fp',
      print_spice_powergated_buffer_subckt Demo.ext Demo.fresh
        Demo.module_manager 3%nat Demo.circuit_lib Demo.buf_pg Demo.tech_lib
        0%nat
      = (Returned CMD_EXEC_SUCCESS, fp')
      /\ steady fp'.
Proof.
  assert (Hs : steady Demo.fresh) by (split; reflexivity).
  assert (Hp : one_scalar_input_and_output Demo.circuit_lib Demo.buf_pg)
    by (split; eexists; split; reflexivity).
  assert (Hg : power_gating_ready Demo.ext Demo.circuit_lib Demo.buf_pg)
    by (split; [reflexivity|]; split; [reflexivity|]; split; [reflexivity|];
        split; discriminate).
  assert (HL : (2 <= buffer_num_levels Demo.circuit_lib Demo.buf_pg)%nat)
    by (apply Nat.le_refl).
  split; [exact Hs|]. split; [exact Hp|]. split; [exact Hg|].
  split; [exact HL|].
  destruct (powergated_buffer_file Demo.ext Demo.fresh Demo.module_manager
              3%nat Demo.circuit_lib Demo.buf_pg Demo.tech_lib 0%nat
              Hs Hp Hg HL)
    as [fp' [He [Hs' _]]].
  exists fp'. split; [exact He | exact Hs'].
Defined.


(** ** A stream that has gone bad before a model is written *)

Section BadStream.
Context {F : Type} `{CxxFloat F} {NetlistManager : Type}.
Variable ext : Externals F NetlistManager.

(** X14.  On a stream that is not valid, the turn of an inverter or buffer
    model that is bound to a transistor model writes nothing and breaks the
    loop of the driver with the fatal status: each of the four subckt
    writers, reached through the dispatchers, returns the fatal status on
    entry and leaves the stream as it was. *)
Theorem bad_stream_breaks_the_loop
  (module_manager : ModuleManager) (circuit_lib : CircuitLibrary F)
  (tech_lib : TechnologyLibrary F)
  (circuit_tech_binding : gmap CircuitModelId TechnologyModelId)
  (circuit_model : CircuitModelId) (tech_model : TechnologyModelId)
  (status : exit_code) (fp : fstream) :
  valid_file_stream fp = false ->
  has_extern_netlist circuit_lib circuit_model = false ->
  model_type circuit_lib circuit_model = CIRCUIT_MODEL_INVBUF ->
  circuit_tech_binding !! circuit_model = Some tech_model ->
  valid_model_id tech_lib tech_model = true ->
  tech_model_type tech_lib tech_model = TECH_LIB_MODEL_TRANSISTOR ->
  (buffer_type circuit_lib circuit_model = CIRCUIT_MODEL_BUF_INV
   /\ valid_module_id module_manager
        (find_module module_manager (model_name circuit_lib circuit_model))
      = true)
  \/ buffer_type circuit_lib circuit_model = CIRCUIT_MODEL_BUF_BUF ->
  write_invbuf ext fp module_manager
    (find_module module_manager (model_name circuit_lib circuit_model))
    circuit_lib circuit_model tech_lib tech_model
  = (Returned CMD_EXEC_FATAL_ERROR, fp)
  /\ essential_gates_turn ext module_manager circuit_lib tech_lib
       circuit_tech_binding circuit_model status fp
     = Break CMD_EXEC_FATAL_ERROR fp.
Proof.
  intros Hv Hx Hty Hb Hvalid Htr Hbt.
  assert (Hw : write_invbuf ext fp module_manager
                 (find_module module_manager
                    (model_name circuit_lib circuit_model))
                 circuit_lib circuit_model tech_lib tech_model
               = (Returned CMD_EXEC_FATAL_ERROR, fp)).
  { unfold write_invbuf.
    destruct Hbt as [[-> Hm] | ->].
    - rewrite Hm. cbn [negb]. unfold print_spice_inverter_subckt,
        print_spice_powergated_inverter_subckt,
        print_spice_regular_inverter_subckt.
      rewrite Hv. now destruct (is_power_gated circuit_lib circuit_model).
    - unfold print_spice_buffer_subckt, print_spice_powergated_buffer_subckt,
        print_spice_regular_buffer_subckt.
      rewrite Hv. now destruct (is_power_gated circuit_lib circuit_model). }
  split; [exact Hw|].
  unfold essential_gates_turn. rewrite Hx, Hty. cbn [needs_technology_binding].
  rewrite Hb, Hvalid. cbn [negb]. rewrite Htr, Hw. reflexivity.
Qed.

End BadStream.

(** The first inverter of the demonstration on a stream that has gone
    bad. *)
Lemma bad_stream_breaks_the_loop_witness :
  valid_file_stream Failing.gone_bad = false
  /\ essential_gates_turn Demo.ext Demo.module_manager Demo.circuit_lib
       Demo.tech_lib Demo.binding Demo.inv CMD_EXEC_SUCCESS Failing.gone_bad
     = Break CMD_EXEC_FATAL_ERROR Failing.gone_bad.
Proof.
  split; [reflexivity|].
  apply (bad_stream_breaks_the_loop Demo.ext Demo.module_manager
           Demo.circuit_lib Demo.tech_lib Demo.binding Demo.inv 0%nat
           CMD_EXEC_SUCCESS Failing.gone_bad);
    try reflexivity.
  left. split; reflexivity.
Defined.

(** ** The wrapper of a transistor *)

Section WrapperLines.
Context {F : Type} `{CxxFloat F} {NetlistManager : Type}.
Variable ext : Externals F NetlistManager.

Lemma token_wrapper_name (tech_lib : TechnologyLibrary F) model t :
  well_named ext tech_lib model -> token (wrapper_name ext tech_lib model t).
Proof.
  intros [_ [Hpost Hn]]. destruct (Hn t) as [Hname _].
  unfold wrapper_name. now apply token_app_l.
Qed.

Lemma wrapper_definition_fields_tokens (tech_lib : TechnologyLibrary F) model t :
  well_named ext tech_lib model ->
  List.Forall token (wrapper_definition_fields ext tech_lib model t).
Proof.
  intros Hn. pose proof (token_wrapper_name tech_lib model t Hn) as Hw.
  destruct Hn as [_ [_ Hn]]. destruct (Hn t) as [_ [HL HW]].
  unfold wrapper_definition_fields.
  repeat (apply List.Forall_cons); try assumption;
    try (split; [reflexivity | discriminate]).
  - apply token_app_l; [split; [reflexivity | discriminate] | exact HL].
  - apply token_app_l; [split; [reflexivity | discriminate] | exact HW].
  - constructor.
Qed.

Lemma wrapper_primitive_fields_tokens (tech_lib : TechnologyLibrary F) model t :
  well_named ext tech_lib model ->
  List.Forall token (wrapper_primitive_fields tech_lib model t).
Proof.
  intros [Href [_ Hn]]. destruct (Hn t) as [Hname _].
  unfold wrapper_primitive_fields.
  repeat (apply List.Forall_cons); try assumption;
    try (split; [reflexivity | discriminate]).
  - split.
    + now rewrite no_blank_app, Href.
    + apply app_not_empty_r. discriminate.
  - constructor.
Qed.

Lemma transistor_wrapper_lines_joined (tech_lib : TechnologyLibrary F) model t :
  transistor_wrapper_lines ext tech_lib model t
  = [ Line WrapperDefinition
        (join (wrapper_definition_fields ext tech_lib model t));
      Line WrapperPrimitive
        (join (wrapper_primitive_fields tech_lib model t));
      Line WrapperEnd ".ends" ].
Proof.
  unfold transistor_wrapper_lines, join, wrapper_definition_fields,
    wrapper_primitive_fields.
  cbn [String.concat]. rewrite !string_app_assoc. reflexivity.
Qed.

(** X16.  The wrapper of a transistor model whose names are blank-free
    tokens, written on a stream that stays writable: the writer returns
    success and adds three lines for the PMOS and three for the NMOS
    transistor.  The first defines a subckt with the wrapper name of the
    transistor, the terminals drain, gate, source and bulk in this order,
    and the parameters L and W with the channel length and the minimum
    width of the model as defaults; the second instantiates the transistor
    on the same four terminals in the same order and hands L and W down;
    the third ends the subckt. *)
Theorem transistor_model_wrapper_written
  (fp : fstream) (tech_lib : TechnologyLibrary F) (model : TechnologyModelId) :
  steady fp ->
  well_named ext tech_lib model ->
  exists fp',
    print_spice_transistor_model_wrapper ext fp tech_lib model
    = (CMD_EXEC_SUCCESS, fp')
    /\ steady fp'
    /\ written fp'
       = (written fp
          ++ transistor_wrapper_lines ext tech_lib model
               TECH_LIB_TRANSISTOR_PMOS
          ++ transistor_wrapper_lines ext tech_lib model
               TECH_LIB_TRANSISTOR_NMOS)%list
    /\ forall t,
         map (fun l => words (text l))
           (transistor_wrapper_lines ext tech_lib model t)
         = [ [ ".subckt"; wrapper_name ext tech_lib model t;
               "drain"; "gate"; "source"; "bulk";
               "L=" ++ f_to_string
                         (transistor_model_chan_length tech_lib model t);
               "W=" ++ f_to_string
                         (transistor_model_min_width tech_lib model t) ];
             [ model_ref tech_lib model ++ "1";
               "drain"; "gate"; "source"; "bulk";
               transistor_model_name tech_lib model t; "L=L"; "W=W" ];
             [ ".ends" ] ].
Proof.
  intros Hs Hn. unfold print_spice_transistor_model_wrapper.
  rewrite (proj1 Hs). cbn [negb fold_left].
  destruct (puts_steady
              (transistor_wrapper_lines ext tech_lib model
                 TECH_LIB_TRANSISTOR_PMOS) fp Hs) as [Hs1 Hw1].
  destruct (puts_steady
              (transistor_wrapper_lines ext tech_lib model
                 TECH_LIB_TRANSISTOR_NMOS) _ Hs1) as [Hs2 Hw2].
  eexists. split; [reflexivity|]. split; [exact Hs2|].
  split; [rewrite Hw2, Hw1, <- app_assoc; reflexivity|].
  intros t. rewrite transistor_wrapper_lines_joined. cbn [map text].
  rewrite (words_join _ (wrapper_definition_fields_tokens tech_lib model t Hn)).
  rewrite (words_join _ (wrapper_primitive_fields_tokens tech_lib model t Hn)).
  reflexivity.
Qed.

End WrapperLines.

(** The first transistor model of the demonstration. *)
Lemma transistor_model_wrapper_written_witness :
  steady Demo.fresh
  /\ well_named Demo.ext Demo.tech_lib 0%nat
  /\ exists fp',
      print_spice_transistor_model_wrapper Demo.ext Demo.fresh Demo.tech_lib
        0%nat
      = (CMD_EXEC_SUCCESS, fp')
      /\ steady fp'.
Proof.
  assert (Hs : steady Demo.fresh) by (split; reflexivity).
  assert (Hn : well_named Demo.ext Demo.tech_lib 0%nat).
  { split; [reflexivity|]. split; [reflexivity|].
    intros t. split; [|split; reflexivity].
    destruct t; split; (reflexivity || discriminate). }
  split; [exact Hs|]. split; [exact Hn|].
  destruct (transistor_model_wrapper_written Demo.ext Demo.fresh Demo.tech_lib
              0%nat Hs Hn) as [fp' [He [Hs' _]]].
  exists fp'. split; [exact He | exact Hs'].
Defined.


(** ** A whole pass over a well-formed library *)

Section WholePass.
Context {F : Type} `{CxxFloat F} {NetlistManager : Type}.
Variable ext : Externals F NetlistManager.
Variable module_manager : ModuleManager.
Variable circuit_lib : CircuitLibrary F.
Variable tech_lib : TechnologyLibrary F.

Lemma nth_build_buffer_widths (circuit_model : CircuitModelId) (level : nat) :
  (level < buffer_num_levels circuit_lib circuit_model)%nat ->
  nth level (build_buffer_widths circuit_lib circuit_model) f_one
  = f_mul_pow (buffer_size circuit_lib circuit_model)
      (buffer_f_per_stage circuit_lib circuit_model) level.
Proof.
  intros Hlevel. rewrite build_buffer_widths_map.
  rewrite (nth_indep _ f_one
             (f_mul_pow (buffer_size circuit_lib circuit_model)
                (buffer_f_per_stage circuit_lib circuit_model) 0%nat))
    by (rewrite List.length_map, List.length_seq; lia).
  rewrite List.map_nth, seq_nth by lia. reflexivity.
Qed.

(** The writer of one inverter or buffer model on a steady stream. *)
Lemma write_invbuf_writes (circuit_model : CircuitModelId)
  (tech_model : TechnologyModelId) (fp : fstream) :
  steady fp ->
  writable_invbuf ext module_manager circuit_lib circuit_model ->
  exists fp',
    write_invbuf ext fp module_manager
      (find_module module_manager (model_name circuit_lib circuit_model))
      circuit_lib circuit_model tech_lib tech_model
    = (Returned CMD_EXEC_SUCCESS, fp')
    /\ steady fp'
    /\ written fp'
       = (written fp
          ++ invbuf_lines ext module_manager circuit_lib tech_lib
               circuit_model tech_model)%list.
Proof.
  intros Hs [[Hin Hout] [Hpg Hbt]].
  apply one_port_of_size_one_iff in Hin. apply one_port_of_size_one_iff in Hout.
  pose proof Hs as [Hv Hr].
  unfold write_invbuf, invbuf_lines, invbuf_device_lines.
  set (module_id := find_module module_manager
                      (model_name circuit_lib circuit_model)).
  destruct (puts_steady (subckt_definition_lines ext module_manager module_id)
              fp Hs) as [Hs1 Hw1].
  destruct Hbt as [[-> Hm] | [-> HL]].
  - fold module_id in Hm. rewrite Hm. cbn [negb].
    unfold print_spice_inverter_subckt.
    destruct (is_power_gated circuit_lib circuit_model) eqn:Hg.
    + destruct (Hpg eq_refl) as [_ [Hen [Henb _]]].
      unfold print_spice_powergated_inverter_subckt.
      rewrite Hv. cbn [negb]. cbv zeta.
      rewrite Hin, Hout, Hg, Hen, Henb. cbn [negb].
      destruct (powergated_stage_writes ext circuit_lib circuit_model tech_lib
                  tech_model to_string (buffer_size circuit_lib circuit_model)
                  CMD_EXEC_SUCCESS _ Hs1)
        as [st1 [fp1 [st2 [fp2 [Hl1 [Hl2 [Hs2 [_ Hw2]]]]]]]].
      unfold input_net, output_net in Hl1, Hl2. rewrite Hl1, Hl2.
      destruct (puts_steady (subckt_end_lines ext module_manager module_id)
                  fp2 Hs2) as [Hs3 Hw3].
      eexists. split; [reflexivity|]. split; [exact Hs3|].
      rewrite Hw3, Hw2, Hw1, <- !app_assoc. reflexivity.
    + unfold print_spice_regular_inverter_subckt.
      rewrite Hv. cbn [negb]. cbv zeta. rewrite Hin, Hout. cbn [negb].
      match goal with
      | |- context [for_bins _ ?bP ?st ?f] =>
          pose proof (regular_side_writes ext TECH_LIB_TRANSISTOR_PMOS to_string
                        (input_net circuit_lib circuit_model)
                        (output_net circuit_lib circuit_model) tech_lib
                        tech_model
                        (curr_bin_width
                           (total_pmos_width tech_lib tech_model
                              (buffer_size circuit_lib circuit_model))
                           (transistor_model_max_width tech_lib tech_model
                              TECH_LIB_TRANSISTOR_PMOS))
                        bP st f Hs1) as HP
      end.
      cbv beta iota in HP. destruct HP as [st1 [fp1 [Hl1 [Hs2 [Hst1 Hw2]]]]].
      unfold input_net, output_net in Hl1. rewrite Hl1.
      match goal with
      | |- context [for_bins _ ?bN st1 fp1] =>
          pose proof (regular_side_writes ext TECH_LIB_TRANSISTOR_NMOS to_string
                        (input_net circuit_lib circuit_model)
                        (output_net circuit_lib circuit_model) tech_lib
                        tech_model
                        (curr_bin_width
                           (total_nmos_width tech_lib tech_model
                              (buffer_size circuit_lib circuit_model))
                           (transistor_model_max_width tech_lib tech_model
                              TECH_LIB_TRANSISTOR_NMOS))
                        bN st1 fp1 Hs2) as HN
      end.
      cbv beta iota in HN. destruct HN as [st2 [fp2 [Hl2 [Hs3 [Hst2 Hw3]]]]].
      unfold input_net, output_net in Hl2. rewrite Hl2.
      destruct (puts_steady (subckt_end_lines ext module_manager module_id)
                  fp2 Hs3) as [Hs4 Hw4].
      eexists. split; [rewrite (Hst2 (Hst1 eq_refl)); reflexivity|].
      split; [exact Hs4|].
      rewrite Hw4, Hw3, Hw2, Hw1. unfold regular_inverter_side.
      rewrite <- !app_assoc. reflexivity.
  - unfold print_spice_buffer_subckt. apply Nat.leb_le in HL.
    destruct (is_power_gated circuit_lib circuit_model) eqn:Hg.
    + destruct (Hpg eq_refl) as [_ [Hen [Henb _]]].
      unfold print_spice_powergated_buffer_subckt.
      rewrite Hv. cbn [negb]. cbv zeta.
      rewrite Hin, Hout, Hg, Hen, Henb. cbn [negb]. rewrite HL. cbn [negb].
      match goal with
      | |- context [for_levels ?b ?l ?st ?f] =>
          destruct (for_levels_writes b
                      (fun level =>
                         powergated_stage_lines ext (level_bin_postfix level)
                           circuit_lib circuit_model tech_lib tech_model
                           (nth level
                              (build_buffer_widths circuit_lib circuit_model)
                              f_one))
                      (fun level st0 fp0 Hs0 =>
                         powergated_buffer_level_writes ext circuit_lib
                           circuit_model tech_lib tech_model
                           (build_buffer_widths circuit_lib circuit_model)
                           level st0 fp0 Hs0)
                      l st f Hs1)
            as [st1 [fp1 [Hl [Hs2 [Hst Hw2]]]]]
      end.
      rewrite Hl.
      destruct (puts_steady (subckt_end_lines ext module_manager module_id)
                  fp1 Hs2) as [Hs3 Hw3].
      eexists. split; [reflexivity|]. split; [exact Hs3|].
      rewrite Hw3, Hw2, Hw1, <- !app_assoc. do 2 f_equal.
      f_equal. apply flat_map_ext_seq. intros level Hlevel.
      rewrite nth_build_buffer_widths by lia. reflexivity.
    + unfold print_spice_regular_buffer_subckt.
      rewrite Hv. cbn [negb]. cbv zeta.
      rewrite Hin, Hout. cbn [negb]. rewrite HL. cbn [negb].
      match goal with
      | |- context [for_levels ?b ?l ?st ?f] =>
          destruct (for_levels_writes b
                      (fun level =>
                         regular_buffer_level_lines ext
                           (input_net circuit_lib circuit_model)
                           (output_net circuit_lib circuit_model)
                           tech_lib tech_model level
                           (nth level
                              (build_buffer_widths circuit_lib circuit_model)
                              f_one))
                      (fun level st0 fp0 Hs0 =>
                         regular_buffer_level_writes ext circuit_lib
                           (model_ports_by_type circuit_lib circuit_model
                              CIRCUIT_MODEL_PORT_INPUT true)
                           (model_ports_by_type circuit_lib circuit_model
                              CIRCUIT_MODEL_PORT_OUTPUT true)
                           tech_lib tech_model
                           (build_buffer_widths circuit_lib circuit_model)
                           level st0 fp0 Hs0)
                      l st f Hs1)
            as [st1 [fp1 [Hl [Hs2 [Hst Hw2]]]]]
      end.
      rewrite Hl.
      destruct (puts_steady (subckt_end_lines ext module_manager module_id)
                  fp1 Hs2) as [Hs3 Hw3].
      eexists. split; [rewrite (Hst eq_refl); reflexivity|].
      split; [exact Hs3|].
      rewrite Hw3, Hw2, Hw1, <- !app_assoc. do 2 f_equal.
      f_equal. apply flat_map_ext_seq. intros level Hlevel.
      rewrite nth_build_buffer_widths by lia. reflexivity.
Qed.

(** One turn of the loop on a well-formed model. *)
Lemma turn_well_formed binding (circuit_model : CircuitModelId) (fp : fstream) :
  steady fp ->
  well_formed ext module_manager circuit_lib tech_lib binding circuit_model ->
  exists fp',
    essential_gates_turn ext module_manager circuit_lib tech_lib binding
      circuit_model CMD_EXEC_SUCCESS fp
    = Continue CMD_EXEC_SUCCESS fp'
    /\ steady fp'
    /\ written fp'
       = (written fp
          ++ model_lines ext module_manager circuit_lib tech_lib binding
               circuit_model)%list.
Proof.
  intros Hs [Hpass Hwr]. unfold essential_gates_turn, model_lines.
  destruct (has_extern_netlist circuit_lib circuit_model) eqn:Hx; cbv zeta.
  { exists fp. rewrite app_nil_r. auto. }
  specialize (Hwr eq_refl).
  destruct Hpass as [Hp | [Hp | [tm [Hb [Hvalid Htr]]]]]; [congruence | |].
  - rewrite Hp.
    destruct (model_type circuit_lib circuit_model) eqn:Hty;
      cbn [needs_technology_binding] in Hp; try discriminate.
    exists fp. rewrite app_nil_r. auto.
  - rewrite Hb, Hvalid, Htr. cbn [negb].
    destruct (model_type circuit_lib circuit_model) eqn:Hty;
      cbn [needs_technology_binding];
      try (exists fp; rewrite app_nil_r; auto).
    destruct (write_invbuf_writes circuit_model tm fp Hs (Hwr eq_refl))
      as [fp' [Hw [Hs' Hlines]]].
    rewrite Hw. exists fp'. auto.
Qed.

Lemma loop_well_formed binding (ms : list CircuitModelId) (fp : fstream) :
  steady fp ->
  List.Forall (well_formed ext module_manager circuit_lib tech_lib binding) ms ->
  exists fp',
    essential_gates_loop ext module_manager circuit_lib tech_lib binding ms
      CMD_EXEC_SUCCESS fp
    = Continue CMD_EXEC_SUCCESS fp'
    /\ steady fp'
    /\ written fp'
       = (written fp
          ++ flat_map
               (model_lines ext module_manager circuit_lib tech_lib binding)
               ms)%list.
Proof.
  revert fp. induction ms as [|cm ms IH]; intros fp Hs Hall.
  - exists fp. cbn [essential_gates_loop flat_map]. rewrite app_nil_r. auto.
  - cbn [essential_gates_loop flat_map].
    destruct (turn_well_formed binding cm fp Hs (List.Forall_inv Hall))
      as [fp1 [Ht [Hs1 Hw1]]].
    rewrite Ht.
    destruct (IH fp1 Hs1 (List.Forall_inv_tail Hall)) as [fp' [Hl [Hs' Hw']]].
    exists fp'. split; [exact Hl|]. split; [exact Hs'|].
    rewrite Hw', Hw1, <- app_assoc. reflexivity.
Qed.

(** X17.  A pass over a well-formed library on a stream that stays
    writable.  When every model either names an external netlist, or needs
    no binding, or is bound to a valid transistor model, and every inverter
    or buffer to be written has one input and one output port of size 1,
    valid enable ports with a pin each if it is power gated, a valid module
    if it is an inverter and at least two levels if it is a buffer, and
    when the netlist manager takes the file, the pass returns success: the file
    holds the banner, then the subckt of every inverter or buffer without
    external netlist, in the order of the library and nothing for any
    other model; the stream is closed and the file is registered as a
    submodule netlist. *)
Theorem well_formed_library_is_written
  (fp : fstream) (netlist_manager : NetlistManager)
  (circuit_tech_binding : gmap CircuitModelId TechnologyModelId)
  (submodule_dir : string)
  (registered : NetlistManager) (nlist_id : NetlistId) :
  check_file_stream ext (submodule_dir ++ ESSENTIALS_SPICE_FILE_NAME ext) fp
  = true ->
  steady fp ->
  List.Forall
    (well_formed ext module_manager circuit_lib tech_lib circuit_tech_binding)
    (models circuit_lib) ->
  add_netlist ext netlist_manager
    (submodule_dir ++ ESSENTIALS_SPICE_FILE_NAME ext)
  = (registered, Some nlist_id) ->
  exists fp',
    print_spice_essential_gates ext fp netlist_manager module_manager
      circuit_lib tech_lib circuit_tech_binding submodule_dir
    = (Returned CMD_EXEC_SUCCESS, fp',
       set_netlist_type ext registered nlist_id SUBMODULE_NETLIST)
    /\ is_open fp' = false
    /\ written fp'
       = (written fp
          ++ map (Line FileHeader)
               (print_spice_file_header ext "Essential gates")
          ++ flat_map
               (model_lines ext module_manager circuit_lib tech_lib
                  circuit_tech_binding)
               (models circuit_lib))%list.
Proof.
  intros Hck Hs Hall Hadd. unfold print_spice_essential_gates.
  rewrite Hck. cbn [negb]. cbv zeta.
  destruct (puts_steady
              (map (Line FileHeader)
                 (print_spice_file_header ext "Essential gates")) fp Hs)
    as [Hs1 Hw1].
  destruct (loop_well_formed circuit_tech_binding (models circuit_lib) _
              Hs1 Hall) as [fp1 [Hl [Hs2 Hw2]]].
  rewrite Hl. unfold close_and_register. rewrite Hadd.
  eexists. split; [reflexivity|]. split; [reflexivity|].
  cbn [close written]. rewrite Hw2, Hw1, <- app_assoc. reflexivity.
Qed.

End WholePass.

(** The library of the demonstration, every model bound, is well formed:
    the pass returns success and registers the file. *)
Lemma well_formed_library_is_written_witness :
  List.Forall
    (well_formed Demo.ext Demo.module_manager Demo.circuit_lib Demo.tech_lib
       Samples.full_binding)
    (models Demo.circuit_lib)
  /\ exists fp',
      print_spice_essential_gates Demo.ext Demo.fresh [] Demo.module_manager
        Demo.circuit_lib Demo.tech_lib Samples.full_binding "dir/"
      = (Returned CMD_EXEC_SUCCESS, fp',
         [("dir/essential_gates.sp", Some SUBMODULE_NETLIST)])
      /\ is_open fp' = false.
Proof.
  assert (Hs : steady Demo.fresh) by (split; reflexivity).
  assert (Hports : forall cm,
             one_scalar_input_and_output Demo.circuit_lib cm)
    by (intros cm; split; eexists; split; reflexivity).
  assert (Hready : forall cm,
             is_power_gated Demo.circuit_lib cm = true ->
             power_gating_ready Demo.ext Demo.circuit_lib cm)
    by (intros cm Hg; split; [exact Hg|]; split; [reflexivity|];
        split; [reflexivity|]; split; discriminate).
  assert (Hbound : forall cm, (cm < 5)%nat ->
             passable Demo.circuit_lib Demo.tech_lib Samples.full_binding cm).
  { intros cm Hcm. right. right.
    destruct cm as [|[|[|[|[|cm]]]]]; [| | | | |lia];
      (exists 0%nat; split; [reflexivity | split; reflexivity]). }
  assert (Hall : List.Forall
                   (well_formed Demo.ext Demo.module_manager Demo.circuit_lib
                      Demo.tech_lib Samples.full_binding)
                   (models Demo.circuit_lib)).
  { repeat apply List.Forall_cons; try apply List.Forall_nil;
      (split; [apply Hbound; cbv; lia|]); intros _ Hty;
      try discriminate Hty;
      (split; [apply Hports|]); (split; [apply Hready|]).
    - left. split; reflexivity.
    - left. split; reflexivity.
    - right. split; [reflexivity | apply Nat.le_refl].
    - right. split; [reflexivity | apply Nat.le_refl]. }
  split; [exact Hall|].
  destruct (well_formed_library_is_written Demo.ext Demo.module_manager
              Demo.circuit_lib Demo.tech_lib Demo.fresh []
              Samples.full_binding "dir/"
              [("dir/essential_gates.sp", None)] 0%nat eq_refl Hs Hall eq_refl)
    as [fp' [He [Hclosed _]]].
  exists fp'. split; [exact He | exact Hclosed].
Defined.
